(** * InforKretz: scale console — protocol codec, PLU records, repositories

    A shallow embedding of the parts of the InforKretz sources that the
    specification's testable properties talk about, followed by the
    theorems that settle them.

    Conventions of the embedding
    - Python [str] is a list of characters, each a code point below 256
      (the wire protocol is ASCII / Latin-1); [str.isdigit], [str.strip],
      [str.lower] and the regex class [\d] are modelled on that range.
    - Python [int] is [Z]; [bytes] is [list byte].
    - A Python function that may raise returns [result]; [None] results
      are [option].
    - Widths and indexes are [Z], so that negative and zero widths behave
      as the Python slices and [rjust]/[ljust] do. *)

From Stdlib Require Import ZArith Ascii String.
From Stdlib.Strings Require Import Byte.
From stdpp Require Import base tactics option list sorting gmap strings.

Local Open Scope Z_scope.

(* ================================================================== *)
(** * Python primitives used by the sources                            *)
(* ================================================================== *)

Module py.

(** Python [str]. *)
Abbreviation str := (list ascii).

(** A literal. *)
Definition txt (s : string) : str := list_ascii_of_string s.

Definition ord (c : ascii) : Z := Z.of_N (N_of_ascii c).

(** [len(s)] *)
Definition len {A} (s : list A) : Z := Z.of_nat (length s).

(** The regex class [\d] (Unicode category Nd; below 256 that is 0-9). *)
Definition is_decimal (c : ascii) : bool := (48 <=? ord c) && (ord c <=? 57).

(** [ch.isdigit()]: the decimal digits and the superscripts 1, 2, 3. *)
Definition char_isdigit (c : ascii) : bool :=
  is_decimal c || (ord c =? 178) || (ord c =? 179) || (ord c =? 185).

(** [s.isdigit()]: non-empty and all characters are digits. *)
Definition isdigit (s : str) : bool :=
  match s with
  | [] => false
  | _ => forallb char_isdigit s
  end.

(** [ch.isspace()] below 256. *)
Definition char_isspace (c : ascii) : bool :=
  let n := ord c in
  ((9 <=? n) && (n <=? 13)) || ((28 <=? n) && (n <=? 32)) || (n =? 133) || (n =? 160).

Fixpoint lstrip (s : str) : str :=
  match s with
  | c :: r => if char_isspace c then lstrip r else s
  | [] => []
  end.

Definition rstrip (s : str) : str := rev (lstrip (rev s)).

(** [s.strip()] *)
Definition strip (s : str) : str := rstrip (lstrip s).

(** [s[i:]] *)
Definition slice_from {A} (i : Z) (s : list A) : list A :=
  if i <? 0 then drop (Z.to_nat (len s + i)) s else drop (Z.to_nat i) s.

(** [s[:j]] *)
Definition slice_to {A} (j : Z) (s : list A) : list A :=
  if j <? 0 then take (Z.to_nat (len s + j)) s else take (Z.to_nat j) s.

(** [s[i:j]] for non-negative [i], [j]. *)
Definition slice {A} (i j : Z) (s : list A) : list A :=
  take (Z.to_nat (j - i)) (drop (Z.to_nat i) s).

(** [s.rjust(w, c)] *)
Definition rjust (w : Z) (c : ascii) (s : str) : str :=
  replicate (Z.to_nat (w - len s)) c ++ s.

(** [s.ljust(w, c)] *)
Definition ljust (w : Z) (c : ascii) (s : str) : str :=
  s ++ replicate (Z.to_nat (w - len s)) c.

(** [s.zfill(w)]: as [rjust] with zeros, which go after a leading sign. *)
Definition zfill (w : Z) (s : str) : str :=
  match s with
  | c :: r =>
      if (ord c =? 43) || (ord c =? 45)
      then c :: replicate (Z.to_nat (w - len s)) "0"%char ++ r
      else rjust w "0" s
  | [] => rjust w "0" s
  end.

(** [s.replace(a, b)] for one-character [a] and [b]. *)
Definition replace_char (a b : ascii) (s : str) : str :=
  map (fun c => if Ascii.eqb c a then b else c) s.

(** [s.upper()] on the letters a-z. That is enough to decide membership
    in the word sets the sources test: below 256 the only other
    character whose upper-case form has ASCII letters is the sharp s,
    which becomes SS, and no tested word contains an S. *)
Definition upper_char (c : ascii) : ascii :=
  if (97 <=? ord c) && (ord c <=? 122) then ascii_of_N (N_of_ascii c - 32) else c.
Definition upper (s : str) : str := map upper_char s.

(** [s.lower()] below 256: A-Z and the accented capitals. *)
Definition lower_char (c : ascii) : ascii :=
  let n := ord c in
  if ((65 <=? n) && (n <=? 90)) || ((192 <=? n) && (n <=? 222) && negb (n =? 215))
  then ascii_of_N (N_of_ascii c + 32) else c.
Definition lower (s : str) : str := map lower_char s.

Definition str_eqb (a b : str) : bool := bool_decide (a = b).

(** ** Decimal printing and parsing of integers *)

Definition digit_char (d : Z) : ascii := ascii_of_N (Z.to_N (48 + d)).

Fixpoint digits_loop (fuel : nat) (n : Z) (acc : str) : str :=
  match fuel with
  | O => acc
  | S f =>
      let acc' := digit_char (n mod 10) :: acc in
      if n <? 10 then acc' else digits_loop f (n / 10) acc'
  end.

(** Decimal digits of a non-negative integer. *)
Definition digits_of (n : Z) : str := digits_loop (S (Z.to_nat (Z.log2 n))) n [].

(** [str(n)] for an [int]. *)
Definition str_of_Z (n : Z) : str :=
  if n <? 0 then "-"%char :: digits_of (- n) else digits_of n.

(** Value of a string of decimal digits, [None] if a character is not 0-9. *)
Fixpoint digits_value (acc : Z) (s : str) : option Z :=
  match s with
  | [] => Some acc
  | c :: r => if is_decimal c then digits_value (10 * acc + (ord c - 48)) r else None
  end.

(** ** [int(text)] *)

(** Digits with single underscores between them. *)
Fixpoint int_body (s : str) (acc : Z) (after_digit : bool) : option Z :=
  match s with
  | [] => if after_digit then Some acc else None
  | c :: r =>
      if is_decimal c then int_body r (10 * acc + (ord c - 48)) true
      else if (ord c =? 95) && after_digit then int_body r acc false
      else None
  end.

(** An integer literal in base 10: surrounding blanks, an optional
    sign, digits. *)
Definition int_literal (s : str) : option Z :=
  match strip s with
  | c :: r =>
      if ord c =? 45 then Z.opp <$> int_body r 0 false
      else if ord c =? 43 then int_body r 0 false
      else int_body (c :: r) 0 false
  | [] => None
  end.

(** [sys.get_int_max_str_digits()], by default. *)
Definition int_max_str_digits : Z := 4300.

(** [int(s)] in base 10; [None] stands for [ValueError], which is
    raised for what is not a literal and for a literal of more than
    [int_max_str_digits] digits (sign, blanks and underscores are not
    counted). *)
Definition py_int (s : str) : option Z :=
  if int_max_str_digits <? len (filter (fun c => is_decimal c = true) s) then None
  else int_literal s.

(** ** [decimal.Decimal] under the default context

    Precision 28, ROUND_HALF_EVEN, Emax 999999, Emin -999999; the traps
    that are enabled by default are InvalidOperation, DivisionByZero and
    Overflow. *)

Inductive decimal :=
  | DFinite (neg : bool) (coef : Z) (exp : Z)
  | DInf (neg : bool)
  | DNaN (signaling : bool).

Definition prec : Z := 28.
Definition Emax : Z := 999999.
Definition Emin : Z := -999999.
Definition Etiny : Z := Emin - prec + 1.
Definition Etop : Z := Emax - prec + 1.

(** Longest prefix of decimal digits, and the rest. *)
Fixpoint span_digits (s : str) : str * str :=
  match s with
  | c :: r => if is_decimal c then let '(d, t) := span_digits r in (c :: d, t) else ([], s)
  | [] => ([], [])
  end.

(** The exponent part: empty, or [E], an optional sign and digits. *)
Definition parse_exponent (s : str) : option Z :=
  match s with
  | [] => Some 0
  | e :: r =>
      if (ord e =? 69) || (ord e =? 101) then
        match r with
        | c :: r' =>
            if ord c =? 45 then
              match r' with [] => None | _ => Z.opp <$> digits_value 0 r' end
            else if ord c =? 43 then
              match r' with [] => None | _ => digits_value 0 r' end
            else digits_value 0 r
        | [] => None
        end
      else None
  end.

(** The part after the sign: a number, an infinity or a NaN. *)
Definition parse_unsigned (neg : bool) (s : str) : option decimal :=
  let '(ip, r1) := span_digits s in
  let '(fp, r2) :=
    match r1 with
    | c :: r => if ord c =? 46 then span_digits r else ([], r1)
    | [] => ([], r1)
    end in
  match ip ++ fp with
  | _ :: _ =>
      match digits_value 0 (ip ++ fp), parse_exponent r2 with
      | Some c, Some e => Some (DFinite neg c (e - len fp))
      | _, _ => None
      end
  | [] =>
      let l := lower s in
      if bool_decide (l = txt "inf") || bool_decide (l = txt "infinity") then Some (DInf neg)
      else
        let '(sig, l') :=
          match l with
          | c :: r => if ord c =? 115 then (true, r) else (false, l)
          | [] => (false, l)
          end in
        if bool_decide (take 3 l' = txt "nan") && forallb is_decimal (drop 3 l')
        then Some (DNaN sig) else None
  end.

(** What a text denotes as a decimal literal: blanks around it and
    underscores are dropped, a sign may come first. *)
Definition decimal_literal (s : str) : option decimal :=
  let s := filter (fun c => ord c <> 95) (strip s) in
  match s with
  | c :: r =>
      if ord c =? 45 then parse_unsigned true r
      else if ord c =? 43 then parse_unsigned false r
      else parse_unsigned false s
  | [] => None
  end.

(** The limits of the constructor (decimal.MAX_EMAX and
    decimal.MIN_ETINY of the C implementation on a 64-bit machine). *)
Definition MAX_EMAX : Z := 999999999999999999.
Definition MIN_ETINY : Z := -1999999999999999997.

(** The constructor is exact: a number that these limits cannot hold
    as written is refused. *)
Definition dec_exact (d : decimal) : option decimal :=
  match d with
  | DFinite _ c e =>
      if e <? MIN_ETINY then None
      else if c =? 0 then (if MAX_EMAX <? e then None else Some d)
      else if MAX_EMAX <? len (digits_of c) + e - 1 then None
      else Some d
  | _ => Some d
  end.

(** [Decimal(text)]; [None] stands for InvalidOperation (conversion
    syntax, or a number beyond the limits). *)
Definition Decimal (s : str) : option decimal := decimal_literal s ≫= dec_exact.

(** Number of digits of a coefficient. *)
Definition ndigits (c : Z) : Z := len (digits_of c).

(** Drop the [k] low digits of [c], rounding half to even. *)
Definition round_half_even (c k : Z) : Z :=
  let p := 10 ^ k in
  let q := c / p in
  let r := c mod p in
  if (p <? 2 * r) || ((2 * r =? p) && Z.odd q) then q + 1 else q.

(** What an arithmetic operation does: a value, a trapped
    InvalidOperation, or a trapped Overflow. *)
Inductive dec_result :=
  | DVal (d : decimal)
  | DInvalid
  | DOverflow.

(** [Decimal._fix]: round a finite result to the context. *)
Definition dec_fix (neg : bool) (c e : Z) : dec_result :=
  if c =? 0 then DVal (DFinite neg 0 (Z.min (Z.max e Etiny) Emax))
  else
    let exp_min0 := ndigits c + e - prec in
    if Etop <? exp_min0 then DOverflow
    else
      let exp_min := Z.max exp_min0 Etiny in
      if e <? exp_min then
        let coeff := round_half_even c (exp_min - e) in
        let '(coeff, exp_min) :=
          if prec <? ndigits coeff then (coeff / 10, exp_min + 1) else (coeff, exp_min) in
        if Etop <? exp_min then DOverflow else DVal (DFinite neg coeff exp_min)
      else DVal (DFinite neg c e).

(** [d * 100] *)
Definition dec_mul_100 (d : decimal) : dec_result :=
  match d with
  | DFinite neg c e => dec_fix neg (c * 100) e
  | DInf neg => DVal (DInf neg)
  | DNaN true => DInvalid
  | DNaN false => DVal (DNaN false)
  end.

(** [d.quantize(Decimal("1"))] *)
Definition dec_quantize_1 (d : decimal) : dec_result :=
  match d with
  | DNaN true => DInvalid
  | DNaN false => DVal (DNaN false)
  | DInf _ => DInvalid
  | DFinite neg c e =>
      if c =? 0 then DVal (DFinite neg 0 0)
      else if Emax <? ndigits c + e - 1 then DInvalid
      else if prec <? ndigits c + e then DInvalid
      else
        let c' := if 0 <=? e then c * 10 ^ e else round_half_even c (- e) in
        if prec <? ndigits c' then DInvalid else DVal (DFinite neg c' 0)
  end.

(** Outcome of [int((Decimal(s) * 100).quantize(Decimal("1")))]. *)
Inductive cents_result :=
  | CVal (n : Z)
  | CInvalid      (* InvalidOperation, or ValueError from int(NaN) *)
  | COverflow.    (* decimal.Overflow *)

Definition decimal_cents (s : str) : cents_result :=
  match Decimal s with
  | None => CInvalid
  | Some d =>
      match dec_mul_100 d with
      | DInvalid => CInvalid
      | DOverflow => COverflow
      | DVal d1 =>
          match dec_quantize_1 d1 with
          | DInvalid => CInvalid
          | DOverflow => COverflow
          | DVal (DFinite neg c _) => CVal (if neg then - c else c)
          | DVal _ => CInvalid
          end
      end
  end.

(** Outcome of [int(round(float(text) * 100))] in binary floating
    point, which is left to the platform: [float()] may reject the
    text, the product may be a nan or an infinity (on which [round]
    raises), or a whole number results. *)
Inductive float_cents :=
  | FInvalid
  | FNan
  | FInf
  | FRound (n : Z).

(** Outcome of a Python call that may raise. *)
Inductive exn :=
  | ValueError (msg : str)
  | TypeError
  | IndexError
  | OverflowError
  | DecimalOverflow
  | OSError.

Inductive result (A : Type) :=
  | Ok (a : A)
  | Raise (e : exn).
Arguments Ok {A} a.
Arguments Raise {A} e.

Definition bind {A B} (m : result A) (k : A -> result B) : result B :=
  match m with
  | Ok a => k a
  | Raise e => Raise e
  end.

(** Python values that reach the codec: [None], [int], [str], and a
    [float] or [Decimal], which the sources only ever turn into text;
    it is carried by its [str()] form. An [int] is one that [str()]
    prints, of at most [int_max_str_digits] digits. *)
Inductive pyval :=
  | PNone
  | PInt (n : Z)
  | PStr (s : str)
  | PNum (repr : str).

(** [str(v)] *)
Definition py_str (v : pyval) : str :=
  match v with
  | PNone => txt "None"
  | PInt n => str_of_Z n
  | PStr s => s
  | PNum r => r
  end.

(** Truth value of a number given by its text: some digit 1-9 in the
    mantissa, or a nan / infinity. *)
Fixpoint num_nonzero (s : str) : bool :=
  match s with
  | [] => false
  | c :: r =>
      if (ord c =? 101) || (ord c =? 69) then false
      else if ((49 <=? ord c) && (ord c <=? 57)) || (ord c =? 110) || (ord c =? 78) then true
      else num_nonzero r
  end.

(** [bool(v)] *)
Definition truthy (v : pyval) : bool :=
  match v with
  | PNone => false
  | PInt n => negb (n =? 0)
  | PStr s => negb (bool_decide (s = []))
  | PNum r => num_nonzero r
  end.

(** [a or b] *)
Definition por (a b : pyval) : pyval := if truthy a then a else b.

(** [bytes([...])]: every item must be in [range(256)]. *)
Fixpoint bytes_of_ints (l : list Z) : option (list byte) :=
  match l with
  | [] => Some []
  | n :: r =>
      if (0 <=? n) && (n <? 256) then
        match Byte.of_N (Z.to_N n), bytes_of_ints r with
        | Some b, Some bs => Some (b :: bs)
        | _, _ => None
        end
      else None
  end.

#[global] Instance byte_eq_decision : EqDecision byte := Byte.byte_eq_dec.

Definition byte_val (b : byte) : Z := Z.of_N (Byte.to_N b).

(** [sum(payload)] *)
Definition sum_bytes (payload : list byte) : Z :=
  foldr (fun b acc => byte_val b + acc) 0 payload.

End py.

Import py.

(* ================================================================== *)
(** * GUI/kretz_driver.py — Direct-TCP client                          *)
(* ================================================================== *)

Module kretz_driver.

Definition STX : byte := x02.
Definition ETX : byte := x04.
Definition RESP_STX : byte := x07.

Definition _checksum_bytes (payload : list byte) : option (list byte) :=
  let total := sum_bytes payload in
  let b := Z.land total 255 in
  let hi := Z.land (Z.shiftr b 4) 15 in
  let lo := Z.land b 15 in
  bytes_of_ints [hi + 48; lo + 48].

(** [resp and resp[0] == RESP_STX and resp[-1] == ETX] *)
Definition resp_valid (resp : list byte) : bool :=
  match resp with
  | [] => false
  | b :: _ => bool_decide (b = RESP_STX) && bool_decide (last resp = Some ETX)
  end.

Section KretzTCP.

(** The scale at the other end of the connection: [send(frame)] writes
    the frame and returns the bytes read until the terminator or the
    timeout (nothing on a timeout); what comes back is up to the
    device. Socket errors are not modelled. *)
Context {device : Type}.
Variable send : device -> list byte -> device * list byte.

(** The [while True] loop of [send_many] for one frame. It ends on a
    valid response or when [intentos] passes [max_retries]; [fuel]
    bounds the iterations. *)
Fixpoint send_retry (fuel : nat) (dev : device) (f : list byte) (intentos max_retries : Z)
  : option (device * list byte) :=
  match fuel with
  | O => None
  | S k =>
      let '(dev, resp) := send dev f in
      if resp_valid resp then Some (dev, resp)
      else
        let intentos := intentos + 1 in
        if max_retries <? intentos then Some (dev, resp)
        else send_retry k dev f intentos max_retries
  end.

Fixpoint send_many_loop (dev : device) (frames : list (list byte)) (max_retries : Z)
    (resps : list (list byte)) : option (device * list (list byte)) :=
  match frames with
  | [] => Some (dev, resps)
  | f :: rest =>
      match send_retry (S (Z.to_nat max_retries)) dev f 0 max_retries with
      | Some (dev, resp) => send_many_loop dev rest max_retries (resps ++ [resp])
      | None => None
      end
  end.

Definition send_many (dev : device) (frames : list (list byte)) (max_retries : Z)
  : option (device * list (list byte)) :=
  send_many_loop dev frames max_retries [].

End KretzTCP.

(** ** Responses *)

(** [b.decode("ascii", "ignore")]: bytes above 127 are dropped. *)
Definition decode_ascii_ignore (b : list byte) : str :=
  map ascii_of_byte (filter (fun x => byte_val x < 128) b).

(** [b.decode("latin1", "ignore")] *)
Definition decode_latin1 (b : list byte) : str := map ascii_of_byte b.

(** The dict that [_parse_resp_status] returns. *)
Record resp_status := {
  ok : bool;
  code : option str;
  data : list byte;
  body : list byte
}.

Definition is_digit_byte (x : byte) : bool := (48 <=? byte_val x) && (byte_val x <=? 57).

Definition _parse_resp_status (resp : list byte) : resp_status :=
  if bool_decide (resp = []) || negb (bool_decide (head resp = Some RESP_STX))
     || (len resp <? 4) || negb (bool_decide (last resp = Some ETX))
  then {| ok := false; code := None; data := []; body := [] |}
  else
    let body := slice_to (-3) (slice_from 1 resp) in
    let con_canal :=
      (5 <=? len body) && bool_decide (slice_to 1 body = [x43])
      && forallb is_digit_byte (slice 1 3 body) in
    let code_bytes := if con_canal then slice 3 5 body else slice_to 2 body in
    let data := if con_canal then slice_from 5 body else slice_from 2 body in
    let code := decode_ascii_ignore code_bytes in
    {| ok := bool_decide (code = txt "01"); code := Some code; data := data; body := body |}.

Definition parse_ack_ok (resp : list byte) : bool :=
  let st := _parse_resp_status resp in
  negb (bool_decide (resp = []))
  && bool_decide (code st = Some (txt "01") \/ code st = Some (txt "03")).

(** ** Frames *)

(** [text.encode("ascii")]: [None] stands for UnicodeEncodeError. *)
Definition encode_ascii (s : str) : option (list byte) :=
  if forallb (fun c => ord c <? 128) s then Some (map byte_of_ascii s) else None.

(** [text.encode("latin1", "ignore")] for text below 256. *)
Definition encode_latin1 (s : str) : list byte := map byte_of_ascii s.

Definition _pad_num (val : pyval) (n : Z) : option (list byte) :=
  let s := filter (fun ch => char_isdigit ch = true) (py_str (por val (PStr []))) in
  encode_ascii (rjust n "0" (slice_from (- n) s)).

Definition _pad_str (val : pyval) (n : Z) : list byte :=
  let s := ljust n " " (slice_to n (strip (py_str (por val (PStr []))))) in
  encode_latin1 s.

Definition build_frame (cmd : str) (payload : list byte) (canal : str) : option (list byte) :=
  canal ← encode_ascii canal;
  cmd ← encode_ascii cmd;
  let body := canal ++ cmd ++ payload in
  chk ← _checksum_bytes (STX :: body);
  Some (STX :: body ++ chk ++ [ETX]).

Definition cmd_baja_departamento (codigo : pyval) : option (list byte) :=
  p ← _pad_num codigo 3; build_frame (txt "3003") p (txt "C03").

Definition cmd_vaciar_departamentos : option (list byte) :=
  build_frame (txt "4003") [] (txt "C03").

Definition cmd_leer_departamento (codigo : pyval) : option (list byte) :=
  p ← _pad_num codigo 3; build_frame (txt "5003") p (txt "C03").

(** [parse_resp_5003]: the code and the name of the department read,
    or [None]. *)
Definition parse_resp_5003 (resp : list byte) : option (str * str) :=
  let st := _parse_resp_status resp in
  if negb (negb (bool_decide (resp = [])) && bool_decide (code st <> None)) then None
  else if ok st then
    let data := data st in
    let cod := decode_ascii_ignore (slice_to 3 data) in
    let nom := rstrip (decode_latin1 (slice 3 19 data)) in
    Some (cod, nom)
  else None.

Definition cmd_moneda_1010 (nombre abrev decimales : pyval) : option (list byte) :=
  d3 ← _pad_num decimales 3;
  d1 ← _pad_num decimales 1;
  let payload := _pad_str nombre 15 ++ _pad_str abrev 3 ++ d3
                 ++ _pad_str (PStr (txt ".")) 1 ++ _pad_str (PStr (txt ",")) 1 ++ d1 ++ d1 in
  build_frame (txt "1010") payload (txt "C03").

Definition cmd_baja_plu (nro_plu : pyval) : option (list byte) :=
  p ← _pad_num nro_plu 6; build_frame (txt "3005") p (txt "C03").

Definition cmd_vaciar_plus : option (list byte) :=
  build_frame (txt "4005") [] (txt "C03").

End kretz_driver.

(* ================================================================== *)
(** * GUI/envios_balanzas.py — Scale Communication Service             *)
(* ================================================================== *)

Module envios_balanzas.

Definition STX : byte := x02.
Definition ETX : byte := x04.
Definition RESP_STX : byte := x07.

Definition _checksum_bytes (payload : list byte) : option (list byte) :=
  let total := sum_bytes payload in
  let b := Z.land total 255 in
  let hi := Z.land (Z.shiftr b 4) 15 in
  let lo := Z.land b 15 in
  bytes_of_ints [hi + 48; lo + 48].

(** [text.encode("ascii", errors="ignore")] *)
Definition encode_ascii_ignore (s : str) : list byte :=
  map byte_of_ascii (filter (fun c => ord c < 128) s).

Definition _build_body (cmd data equipo_id : str) : list byte :=
  let equipo_id := if len equipo_id =? 2 then equipo_id else txt "01" in
  encode_ascii_ignore (txt "C" ++ equipo_id ++ cmd ++ data).

Definition build_frame (cmd data equipo_id : str) : option (list byte) :=
  let body := _build_body cmd data equipo_id in
  let base := STX :: body in
  chk ← _checksum_bytes base;
  Some (base ++ chk ++ [ETX]).

Definition pad_num (valor : pyval) (width : Z) : str :=
  let s := py_str (match valor with PNone => PStr [] | _ => valor end) in
  let s := filter (fun ch => char_isdigit ch = true) s in
  slice_to width (rjust width "0" s).

Definition pad_str (valor : str) (width : Z) : str :=
  slice_to width (ljust width " " valor).

Definition cmd_departamento (codigo_3 nombre_16 : str) : option (list byte) :=
  build_frame (txt "2003") (pad_num (PStr codigo_3) 3 ++ pad_str nombre_16 16) (txt "01").

(** [dep_map.get(k)], for the dict built by a comprehension over
    [entries]: a later entry with the same key replaces an earlier one. *)
Definition dep_map_get (entries : list (str * str)) (k : str) : option str :=
  snd <$> List.find (fun kv => bool_decide (kv.1 = k)) (rev entries).

Section enviar_departamentos.

Context {device : Type}.
Variable send : device -> list byte -> device * list byte.

Inductive depto_event :=
  | depto_ok (codigo : str)
  | depto_error (codigo : str).

(** The response paired with position [idx]:
    [resps[idx] if idx < len(resps) else b""]. *)
Definition resp_at (resps : list (list byte)) (idx : nat) : list byte :=
  default [] (resps !! idx).

(** [ok = (resp and len(resp) >= 4 and resp[0] == RESP_STX and resp[-1] == ETX)] *)
Definition ok (resp : list byte) : bool :=
  negb (bool_decide (resp = [])) && (4 <=? len resp)
  && bool_decide (head resp = Some RESP_STX)
  && bool_decide (last resp = Some ETX).

(** [nombre = dep_map.get(c3) or dep_map.get(c_raw) or f"DEP-{c3}"] *)
Definition nombre (dep_map : list (str * str)) (c_raw c3 : str) : str :=
  match dep_map_get dep_map c3 with
  | Some ((_ :: _) as n) => n
  | _ => match dep_map_get dep_map c_raw with
         | Some ((_ :: _) as n) => n
         | _ => txt "DEP-" ++ c3
         end
  end.

(** The body of [enviar_departamentos] for one reachable equipment with
    department codes [deptos]: the frames, the batch send, and the
    evaluation of the response at each position. *)
Definition enviar_departamentos_equipo (departamentos : list (str * str)) (deptos : list str)
    (max_retries : Z) (dev : device) : option (device * list depto_event) :=
  let dep_map := map (fun d => (rjust 3 "0" (slice_from (-3) d.1), d.2)) departamentos in
  let orig := deptos in
  let cods3 := map (fun c => rjust 3 "0" (slice_from (-3) c)) orig in
  frames ← mapM (fun p => cmd_departamento p.2 (nombre dep_map p.1 p.2)) (zip orig cods3);
  r ← kretz_driver.send_many send dev frames max_retries;
  let '(dev, resps) := r in
  Some (dev,
        imap (fun idx c3 =>
                if ok (resp_at resps idx) then depto_ok c3 else depto_error c3) cods3).

End enviar_departamentos.

(** ** Normalising codes *)

(** [_only_digits(s)]: iterating anything but text raises TypeError. *)
Definition _only_digits (s : pyval) : result str :=
  match por s (PStr []) with
  | PStr t => Ok (filter (fun ch => char_isdigit ch = true) t)
  | _ => Raise TypeError
  end.

Definition _norm3 (val : pyval) : result str :=
  bind (_only_digits (por val (PStr []))) (fun d =>
  Ok (if bool_decide (d = []) then txt "001" else rjust 3 "0" (slice_from (-3) d))).

Definition _norm6 (val : pyval) : result str :=
  bind (_only_digits (por val (PStr []))) (fun d =>
  Ok (if bool_decide (d = []) then txt "000001" else rjust 6 "0" (slice_from (-6) d))).

(** [", ".join(["?"] * n) if n > 0 else "?"] *)
Definition _sql_in_placeholders (n : Z) : str :=
  if 0 <? n
  then txt "?" ++ concat (replicate (Z.to_nat n - 1) (txt ", ?"))
  else txt "?".

(** ** The 2005 frame of the direct-TCP path *)

(** The [data] of [cmd_plu]. *)
Definition cmd_plu_data (nro_plu : pyval) (cod_depto cod_familia nombre_plu descripcion
    codigo_plu tipo : str)
    (valor_fijo precio precio_alt precio_ant_o_puntodec impuesto1 impuesto2 tara_pre tara_pub
     cod_etiqueta cod_receta cod_nutri fecha_envase_no venc_dias cod_imagen : pyval) : str :=
  pad_num nro_plu 6 ++
  pad_num (PStr cod_depto) 3 ++
  pad_num (PStr cod_familia) 3 ++
  pad_str nombre_plu 26 ++
  pad_str descripcion 26 ++
  pad_str codigo_plu 5 ++
  (if bool_decide (tipo = []) then txt "P" else slice_to 1 tipo) ++
  pad_num valor_fijo 7 ++
  pad_num precio 7 ++
  pad_num precio_alt 7 ++
  pad_num precio_ant_o_puntodec 7 ++
  pad_num impuesto1 6 ++
  pad_num impuesto2 6 ++
  pad_num tara_pre 5 ++
  pad_num tara_pub 5 ++
  pad_num cod_etiqueta 2 ++
  pad_num cod_receta 4 ++
  pad_num cod_nutri 4 ++
  pad_num fecha_envase_no 1 ++
  pad_num venc_dias 3 ++
  pad_num cod_imagen 4.

Definition cmd_plu (nro_plu : pyval) (cod_depto cod_familia nombre_plu descripcion
    codigo_plu tipo : str)
    (valor_fijo precio precio_alt precio_ant_o_puntodec impuesto1 impuesto2 tara_pre tara_pub
     cod_etiqueta cod_receta cod_nutri fecha_envase_no venc_dias cod_imagen : pyval)
  : option (list byte) :=
  build_frame (txt "2005")
    (cmd_plu_data nro_plu cod_depto cod_familia nombre_plu descripcion codigo_plu tipo
       valor_fijo precio precio_alt precio_ant_o_puntodec impuesto1 impuesto2 tara_pre tara_pub
       cod_etiqueta cod_receta cod_nutri fecha_envase_no venc_dias cod_imagen)
    (txt "01").

End envios_balanzas.

(* ================================================================== *)
(** * GUI/jdg_driver.py — vendor driver files                          *)
(* ================================================================== *)

Module jdg_driver.

(** Timestamps are counted in nanoseconds since the epoch. *)
Definition NS : Z := 1000000000.

(** [int(t)] for a timestamp: whole seconds, truncated. *)
Definition int_sec (t : Z) : Z := Z.quot t NS.

Record file := {
  data : str;
  st_mtime : Z
}.

Definition endswith_crlf (l : str) : bool :=
  bool_decide (slice_from (-2) l = [ascii_of_N 13; ascii_of_N 10]) && (2 <=? len l).

(** [send_info_lines(lines)] on the INFO.JDG of the instance ([None]:
    the file does not exist yet), when the clock reads [now] at the
    [time()] call that follows the write. Returns the file left. *)
Definition send_info_lines (info : option file) (lines : list str) (now : Z) : file :=
  let content :=
    concat (map (fun l => if endswith_crlf l then l else l ++ [ascii_of_N 13; ascii_of_N 10]) lines) in
  let prev_mtime_sec := (fun f => int_sec (st_mtime f)) <$> info in
  let ts := now in
  let ts :=
    match prev_mtime_sec with
    | Some prev => if int_sec ts <=? prev then prev * NS + 1100000000 else ts
    | None => ts
    end in
  {| data := content; st_mtime := ts |}.

(** ** Reading the files back *)

(** What text-mode reading does to line ends: "\r\n" and a lone "\r"
    become "\n". *)
Fixpoint universal_newlines (s : str) : str :=
  match s with
  | [] => []
  | c :: r =>
      if ord c =? 13 then
        ascii_of_N 10 ::
        match r with
        | c' :: r' => if ord c' =? 10 then universal_newlines r' else universal_newlines r
        | [] => []
        end
      else c :: universal_newlines r
  end.

(** The line boundaries of [str.splitlines] below 256. *)
Definition is_linebreak (c : ascii) : bool :=
  let n := ord c in
  ((10 <=? n) && (n <=? 13)) || ((28 <=? n) && (n <=? 30)) || (n =? 133).

(** [s.splitlines()], with [cur] the line being read. *)
Fixpoint splitlines_aux (cur : str) (s : str) : list str :=
  match s with
  | [] => if bool_decide (cur = []) then [] else [cur]
  | c :: r =>
      if ord c =? 13 then
        match r with
        | c' :: r' =>
            if ord c' =? 10 then cur :: splitlines_aux [] r' else cur :: splitlines_aux [] r
        | [] => [cur]
        end
      else if is_linebreak c then cur :: splitlines_aux [] r
      else splitlines_aux (cur ++ [c]) r
  end.

Definition splitlines (s : str) : list str := splitlines_aux [] s.

(** [ln.rstrip("\r\n")] *)
Fixpoint lstrip_crlf (s : str) : str :=
  match s with
  | c :: r => if (ord c =? 13) || (ord c =? 10) then lstrip_crlf r else s
  | [] => []
  end.

Definition rstrip_crlf (s : str) : str := rev (lstrip_crlf (rev s)).

(** [read_info_text()]: the text of INFO.JDG, empty when the file does
    not exist. *)
Definition read_info_text (info : option file) : str :=
  match info with
  | Some f => universal_newlines (data f)
  | None => []
  end.

Definition read_info_lines (info : option file) : list str :=
  let t := read_info_text info in
  if bool_decide (t = []) then [] else map rstrip_crlf (splitlines t).

End jdg_driver.

(* ================================================================== *)
(** * GUI/kretz_adapter.py — Protocol Adapter                          *)
(* ================================================================== *)

Module kretz_adapter.

Definition TIPO_EQUIPO : str := txt "C".
Definition CMD_TEST_SILENT : str := txt "0002".
Definition CMD_ALTA_DEPTO : str := txt "2003".
Definition CMD_ALTA_PLU : str := txt "2005".

Record EquipoDef := {
  nombre : str;
  ip : str;
  puerto : Z;
  id_equipo : Z;
  idioma : str
}.

(** A Python [dict] with text keys: its items, in insertion order. *)
Abbreviation dict := (list (str * pyval)).

(** [d.get(k)] *)
Definition dict_get (d : dict) (k : str) : option pyval :=
  snd <$> List.find (fun kv => bool_decide (kv.1 = k)) d.

Definition _pad_num (value : pyval) (n : Z) : str :=
  let s := strip (py_str (por value (PStr []))) in
  let s := if isdigit s then s else txt "0" in
  rjust n "0" (slice_from (- n) s).

Definition _pad_txt (value : pyval) (n : Z) : result str :=
  match por value (PStr []) with
  | PStr s => Ok (ljust n " " (slice_to n s))
  | _ => Raise TypeError
  end.

(** The key that [ln = {k.lower(): k for k in d.keys()}] holds for a
    lower-case name: the last key of [d] with that lower-case form. *)
Definition ln_get (d : dict) (x : str) : option str :=
  last (filter (fun k => lower k = x) (d.*1)).

Fixpoint _ci (d : dict) (names : list str) : pyval :=
  match names with
  | [] => PNone
  | n :: rest =>
      match ln_get d (lower n) with
      | Some k => default PNone (dict_get d k)
      | None => _ci d rest
      end
  end.

Definition _digits (s : pyval) : str :=
  filter (fun c => is_decimal c = true) (py_str (por s (PStr []))).

Definition _coerce_plu6 (it : dict) : option str :=
  let cref := strip (py_str (por (_ci it [txt "CREF"]) (PStr []))) in
  let ccb := strip (py_str (por (_ci it [txt "CCODEBAR"]) (PStr []))) in
  let base4 :=
    if (len cref =? 4) && isdigit cref then Some cref
    else if (len (take 6 ccb) =? 6) && forallb is_decimal (take 6 ccb)
         then Some (slice 2 6 ccb)
         else None in
  match base4 with
  | Some b => if bool_decide (b = []) then None else Some (zfill 6 b)
  | None => None
  end.

Definition _coerce_dep3 (item : dict) : option str :=
  let s := _digits (_ci item [txt "CGRPCONTA"; txt "depto"; txt "cod_depto"]) in
  if bool_decide (s = []) then None
  else
    match py_int (slice_from (-3) s) with
    | Some n => if n <=? 0 then None else Some (_pad_num (PInt n) 3)
    | None => None
    end.

Definition _tipo_from_cvencom (v : pyval) : str :=
  let s := upper (strip (py_str (por v (PStr [])))) in
  if bool_decide (s ∈ [txt "U"; txt "UNI"; txt "UN"; txt "UNIDAD"; txt "N"; txt "NO"])
  then txt "N" else txt "P".

Definition MODEL_2005_PLU : list (Z * Z) :=
  [ (1, 6); (2, 3); (3, 3); (4, 26); (5, 26); (6, 5); (7, 1); (8, 7);
    (9, 6); (10, 6); (11, 6); (12, 6); (13, 6); (14, 5); (15, 5); (16, 2);
    (17, 4); (18, 4); (19, 4); (20, 0); (21, 0); (22, 4) ].

(** [MODEL_2005_PLU[i]] for the keys used ([KeyError] does not arise). *)
Definition model (i : Z) : Z :=
  default 0 (snd <$> List.find (fun kv => kv.1 =? i) MODEL_2005_PLU).

Definition MODEL_2005_TOTAL : Z := foldr Z.add 0 (MODEL_2005_PLU.*2).

Definition _valid_2005_data (datos : str) : bool := len datos =? MODEL_2005_TOTAL.

Definition _pad_num_w (n w : Z) : str :=
  if 0 <? w then rjust w "0" (str_of_Z n) else [].

Definition _pad_txt_w (s : pyval) (w : Z) : result str :=
  if 0 <? w then
    match por s (PStr []) with
    | PStr t => Ok (ljust w " " (slice_to w t))
    | _ => Raise TypeError
    end
  else Ok [].

(** The [try] block of [_price_to_width]: the cents of the text, 0 when
    InvalidOperation or ValueError is caught; any other exception goes
    through. *)
Definition _price_to_width_cents (s : str) : result Z :=
  if negb (bool_decide (s = [])) && negb (isdigit s) then
    match decimal_cents s with
    | CVal n => Ok n
    | CInvalid => Ok 0
    | COverflow => Raise DecimalOverflow
    end
  else if bool_decide (s = []) then Ok 0
  else Ok (default 0 (py_int s)).

Definition _price_to_width (v : pyval) (w : Z) : result str :=
  if w <=? 0 then Ok []
  else
    let s := replace_char "," "." (strip (py_str v)) in
    bind (_price_to_width_cents s) (fun cents =>
      let cents := if cents <? 0 then 0 else cents in
      let maxv := 10 ^ w - 1 in
      let cents := if maxv <? cents then maxv else cents in
      Ok (rjust w "0" (str_of_Z cents))).

Definition _mk_info_line (eq : EquipoDef) (cmd datos : str) : str :=
  TIPO_EQUIPO ++ _pad_num (PInt (id_equipo eq)) 2 ++ cmd ++ datos.

(** The command of an INFO line, [s[3:7]], and its data, [s[7:]]. *)
Definition line_cmd (s : str) : str := slice 3 7 s.
Definition line_datos (s : str) : str := slice_from 7 s.

(** ** Sending

    [_send] hands a batch of INFO lines to the vendor driver for one
    equipment. The driver, its files and the acknowledgments are outside
    what is modelled here: a send is recorded as the batch it writes to
    INFO.JDG. The [on_progress] calls of the senders are recorded as
    events; the reports of [_send] itself (info_sent, ext_growth, acks)
    are not. *)

Inductive skip_reason :=
  | PluDepInvalido
  | LenInvalida (n : Z).

Inductive info_msg :=
  | SinPluValidos
  | SinDptosAsignados
  | SinArticulos (deptos : list str)
  | DptosArticulosEnviados (n_dptos n_rows : Z).

Inductive progress_event :=
  | ev_skip (equipo : str) (motivo : skip_reason)
  | ev_info (equipo : str) (msg : info_msg)
  | ev_trace_2005 (equipo : str) (linea : str)
  | ev_trace_campo22 (equipo : str) (valor_22 : str)
  | ev_error (equipo : str) (e : exn).

(** What the machine does to one call of [_send]. The driver pool, the
    work directory and the driver process are reached through calls
    that stand outside any [try], so each of them can raise. [IoOk]:
    none does. [IoRaiseBefore e]: [e] is raised before INFO.JDG holds
    the batch ([pool.get], [write_com_tcp], [ensure_ext_clear],
    [ensure_info], [stat], [send_info_lines]). [IoRaiseAfter e]: [e] is
    raised once the batch is written ([ensure_running], [stat] and the
    reads of the EXT file). *)
Inductive io_outcome :=
  | IoOk
  | IoRaiseBefore (e : exn)
  | IoRaiseAfter (e : exn).

(** [io]: what the machine does to the coming calls of [_send], in
    order; past the end of the list the calls go through. *)
Record world := {
  sent : list (EquipoDef * list str);
  events : list progress_event;
  io : list io_outcome
}.

(** Stateful, possibly raising computations. *)
Definition M (A : Type) : Type := world -> world * result A.

Definition ret {A} (a : A) : M A := fun w => (w, Ok a).

Definition mbind {A B} (m : M A) (k : A -> M B) : M B :=
  fun w => match m w with
           | (w', Ok a) => k a w'
           | (w', Raise e) => (w', Raise e)
           end.

Definition lift {A} (r : result A) : M A := fun w => (w, r).

(** [if on_progress: on_progress(...)] *)
Definition progress (on_progress : bool) (ev : progress_event) : M unit :=
  fun w => if on_progress
           then ({| sent := sent w; events := events w ++ [ev]; io := io w |}, Ok tt)
           else (w, Ok tt).

Definition _send (eq : EquipoDef) (lines : list str) : M unit :=
  fun w =>
    let written := {| sent := sent w ++ [(eq, lines)]; events := events w; io := tail (io w) |} in
    match io w with
    | IoRaiseBefore e :: rest =>
        ({| sent := sent w; events := events w; io := rest |}, Raise e)
    | IoRaiseAfter e :: _ => (written, Raise e)
    | _ => (written, Ok tt)
    end.

Notation "'let*' x ':=' m 'in' k" := (mbind m (fun x => k))
  (at level 10, x name, m at level 100, k at level 200).
Notation "'do' m 'then' k" := (mbind m (fun _ => k))
  (at level 10, m at level 100, k at level 200).

Section binary_float.

(** [int(round(float(text) * 100))], see [float_cents]. *)
Variable float_x100 : str -> float_cents.

Definition _imp_from_ctipoiva (v : pyval) : result str :=
  match float_x100 (replace_char "," "." (py_str v)) with
  | FInvalid => Ok (_pad_num (PInt 0) 6)
  | FNan => Raise (ValueError (txt "cannot convert float NaN to integer"))
  | FInf => Raise OverflowError
  | FRound n => Ok (_pad_num (PInt n) 6)
  end.

Definition _build_datos_2005_modelo (it : dict) (fam_def : pyval) (dec_prec : Z)
  : result (option str) :=
  match _coerce_plu6 it, _coerce_dep3 it with
  | Some plu6, Some dep =>
      let plu4 := slice_from (-4) plu6 in
      let fam_txt := strip (py_str fam_def) in
      let fam_num := default 0 (py_int (if bool_decide (fam_txt = []) then txt "0" else fam_txt)) in
      let fam := _pad_num_w fam_num (model 3) in
      bind (_pad_txt_w (por (_ci it [txt "CDETALLE"; txt "descripcion"; txt "nombre"])
                            (PStr (txt "PLU " ++ plu6))) (model 4)) (fun nom =>
      bind (_pad_txt_w (PStr []) (model 5)) (fun desc =>
      let tipo := _tipo_from_cvencom (_ci it [txt "CVENCOM"]) in
      let tipo := if bool_decide (tipo = []) then txt "P" else tipo in
      let tipo := ljust (model 7) " " (slice_to 1 tipo) in
      let valor_fijo := _pad_num_w 0 (model 8) in
      bind (_price_to_width (_ci it [txt "NPVP1"; txt "precio"]) (model 9)) (fun precio =>
      let precio_alt := _pad_num_w 0 (model 10) in
      let precio_ant := _pad_num_w 0 (model 11) in
      bind (_imp_from_ctipoiva (_ci it [txt "CTIPOIVA"])) (fun imp1 =>
      let imp1 := rjust (model 12) "0" (slice_from (- model 12) imp1) in
      let imp2 := _pad_num_w 0 (model 13) in
      let tara_pre := _pad_num_w 0 (model 14) in
      let tara_pub := _pad_num_w 0 (model 15) in
      let cod_etq := _pad_num_w 1 (model 16) in
      let cod_rec := _pad_num_w 0 (model 17) in
      let cod_nut := _pad_num_w 0 (model 18) in
      let campo19 := _pad_num_w 0 (model 19) in
      let dec_prec := Z.max 0 (Z.min 2 dec_prec) in
      let campo22 := _pad_num_w dec_prec (model 22) in
      let cod5 := txt "0" ++ plu4 in
      let cod5 :=
        if len cod5 =? model 6 then cod5
        else rjust (model 6) "0" (slice_from (- model 6) cod5) in
      Ok (Some (plu6 ++ dep ++ fam ++ nom ++ desc ++ cod5 ++ tipo ++ valor_fijo ++
                precio ++ precio_alt ++ precio_ant ++ imp1 ++ imp2 ++ tara_pre ++
                tara_pub ++ cod_etq ++ cod_rec ++ cod_nut ++ campo19 ++ campo22))))))
  | _, _ => Ok None
  end.

(** The loop of [enviar_plus] over the items, accumulating [lines]. *)
Fixpoint enviar_plus_loop (eq : EquipoDef) (items : list dict) (cod_familia_def : pyval)
    (on_progress : bool) (lines : list str) : M (list str) :=
  match items with
  | [] => ret lines
  | it :: rest =>
      let* datos := lift (_build_datos_2005_modelo it cod_familia_def 1) in
      match datos with
      | None =>
          do progress on_progress (ev_skip (nombre eq) PluDepInvalido) then
          enviar_plus_loop eq rest cod_familia_def on_progress lines
      | Some datos =>
          if bool_decide (datos = []) then
            do progress on_progress (ev_skip (nombre eq) PluDepInvalido) then
            enviar_plus_loop eq rest cod_familia_def on_progress lines
          else if negb (_valid_2005_data datos) then
            do progress on_progress (ev_skip (nombre eq) (LenInvalida (len datos))) then
            enviar_plus_loop eq rest cod_familia_def on_progress lines
          else
            enviar_plus_loop eq rest cod_familia_def on_progress
              (lines ++ [_mk_info_line eq CMD_ALTA_PLU datos])
      end
  end.

Definition enviar_plus (eq : EquipoDef) (items : list dict) (cod_familia_def : pyval)
    (on_progress : bool) : M unit :=
  let* lines := enviar_plus_loop eq items cod_familia_def on_progress [] in
  match lines with
  | [] => progress on_progress (ev_info (nombre eq) SinPluValidos)
  | _ => _send eq lines
  end.

(** An entry of [deptos]: a dict with "codigo" and "nombre", or a bare code. *)
Inductive depto_item :=
  | DeptoDict (d : dict)
  | DeptoCode (v : pyval).

(** The 2003 line of one entry. *)
Definition depto_line (eq : EquipoDef) (d : depto_item) : result str :=
  let cod := _pad_num (match d with
                       | DeptoDict d => default PNone (dict_get d (txt "codigo"))
                       | DeptoCode v => v
                       end) 3 in
  let nombre := match d with
                | DeptoDict d => default PNone (dict_get d (txt "nombre"))
                | DeptoCode _ => PStr (txt "DEP " ++ cod)
                end in
  bind (_pad_txt (por nombre (PStr (txt "DEP " ++ cod))) 16) (fun nombre =>
  Ok (_mk_info_line eq CMD_ALTA_DEPTO (cod ++ nombre))).

Fixpoint deptos_loop (eq : EquipoDef) (deptos : list depto_item) (lines : list str)
  : result (list str) :=
  match deptos with
  | [] => Ok lines
  | d :: rest => bind (depto_line eq d) (fun l => deptos_loop eq rest (lines ++ [l]))
  end.

(** Offset of field 22 in a 2005 record: [sum(MODEL_2005_PLU[i] for i in range(1, 22))]. *)
Definition start_22 : Z := foldr Z.add 0 (map model (seqZ 1 21)).

Fixpoint articulos_loop (eq : EquipoDef) (articulos : list dict) (cod_familia_def : pyval)
    (on_progress : bool) (lines : list str) : M (list str) :=
  match articulos with
  | [] => ret lines
  | it :: rest =>
      let* datos := lift (_build_datos_2005_modelo it cod_familia_def 1) in
      match datos with
      | None =>
          do progress on_progress (ev_skip (nombre eq) PluDepInvalido) then
          articulos_loop eq rest cod_familia_def on_progress lines
      | Some datos =>
          if bool_decide (datos = []) then
            do progress on_progress (ev_skip (nombre eq) PluDepInvalido) then
            articulos_loop eq rest cod_familia_def on_progress lines
          else if negb (_valid_2005_data datos) then
            do progress on_progress (ev_skip (nombre eq) (LenInvalida (len datos))) then
            articulos_loop eq rest cod_familia_def on_progress lines
          else
            do progress on_progress (ev_trace_2005 (nombre eq) datos) then
            do progress on_progress
              (ev_trace_campo22 (nombre eq) (slice start_22 (start_22 + model 22) datos)) then
            articulos_loop eq rest cod_familia_def on_progress
              (lines ++ [_mk_info_line eq CMD_ALTA_PLU datos])
      end
  end.

Definition enviar_dptos_y_articulos (eq : EquipoDef) (deptos : list depto_item)
    (articulos : list dict) (cod_familia_def : pyval) (on_progress : bool) : M unit :=
  let* lines := lift (deptos_loop eq deptos []) in
  let* lines := articulos_loop eq articulos cod_familia_def on_progress lines in
  _send eq lines.

End binary_float.





(** ** Commands of the acknowledgment count *)

Definition _extract_cmds_from_info_lines (info_lines : list str) : list str :=
  omap (fun s =>
          match s with
          | c :: _ =>
              if bool_decide (c = "C"%char \/ c = "S"%char) && (7 <=? len s)
              then Some (slice 3 7 s) else None
          | [] => None
          end) info_lines.

(** ** Single records *)


Definition alta_departamento (eq : EquipoDef) (codigo nombre : pyval) : M unit :=
  let* datos := lift (bind (_pad_txt nombre 16) (fun n => Ok (_pad_num codigo 3 ++ n))) in
  _send eq [_mk_info_line eq CMD_ALTA_DEPTO datos].


(** ** Field lengths read with 5002 *)

(** [_5002_RX.match(ln)]: "C" and then 13 or 15 decimal digits (a
    final newline is allowed by [$]); the groups ideq, entity, fn, ent2,
    campo and largo. *)
Definition _5002_RX_match (ln : str) : option (str * str * str * str * str * str) :=
  match ln with
  | c :: r =>
      let r := if bool_decide (last r = Some (ascii_of_N 10)) then removelast r else r in
      if Ascii.eqb c "C" && ((len r =? 13) || (len r =? 15)) && forallb is_decimal r
      then Some (slice 0 2 r, slice 2 4 r, slice 4 6 r, slice 6 8 r, slice 8 10 r, slice 10 13 r)
      else None
  | [] => None
  end.

(** The body of the loop of [_parse_5002_lines] on one line. The groups
    are decimal digits, so [int()] never raises here; the entity numbers
    are read and not used. *)
Definition _parse_5002_line (out : gmap Z Z) (ln : str) : gmap Z Z :=
  match _5002_RX_match (strip ln) with
  | Some (_, entity, fn, ent2, campo, largo) =>
      if bool_decide (fn <> txt "02") then out
      else
        match py_int entity, py_int ent2, py_int campo, py_int largo with
        | Some e1, Some e2, Some campo, Some largo =>
            if 0 <? largo then <[campo := largo]> out else out
        | _, _, _, _ => out
        end
  | None => out
  end.

Definition _parse_5002_lines (lines : list str) (entidad : Z) : gmap Z Z :=
  foldl _parse_5002_line ∅ lines.

End kretz_adapter.

(* ================================================================== *)
(** * utils/sql_safe.py — quoting for SQL text                         *)
(* ================================================================== *)

Module sql_safe.

(** [(s or "").replace("'", "''")] *)
Definition sql_quote (s : str) : str :=
  flat_map (fun c => if Ascii.eqb c "'" then [c; c] else [c]) s.

(** [f"'{sql_quote(str(c))}'"], as the DAOs write a text value. *)
Definition literal (c : str) : str := txt "'" ++ sql_quote c ++ txt "'".

End sql_safe.

(* ================================================================== *)
(** * db/dao_articulos_balanza.py — articles by department             *)
(* ================================================================== *)

Module dao_articulos_balanza.

Import kretz_adapter.

Definition _only_digits (s : pyval) : str :=
  filter (fun c => is_decimal c = true) (py_str (por s (PStr []))).

(** [int(d) if d else None]; [int()] raises on more digits than it
    converts. *)
Definition _to_int (s : pyval) : result (option Z) :=
  let d := _only_digits s in
  if bool_decide (d = []) then Ok None
  else
    match py_int d with
    | Some n => Ok (Some n)
    | None => Raise (ValueError (txt "Exceeds the limit for integer string conversion"))
    end.

Definition _plu4_from_cref_barcode (cref codebar : pyval) : str :=
  let cref_digits := _only_digits cref in
  if len cref_digits =? 4 then cref_digits
  else
    let cb := _only_digits codebar in
    if 6 <=? len cb then slice 2 6 cb else [].

(** [PLU6] as the row enrichment computes it from [PLU4]. *)
Definition plu6_of (plu4 : str) : str :=
  if bool_decide (plu4 = []) then [] else rjust 6 "0" plu4.

(** [r[k] = v] *)
Fixpoint dict_set (r : dict) (k : str) (v : pyval) : dict :=
  match r with
  | [] => [(k, v)]
  | (k', v') :: rest => if bool_decide (k' = k) then (k, v) :: rest else (k', v') :: dict_set rest k v
  end.

Definition enrich (r : dict) : dict :=
  let plu4 := _plu4_from_cref_barcode (default PNone (dict_get r (txt "CREF")))
                                      (default PNone (dict_get r (txt "CCODEBAR"))) in
  dict_set (dict_set r (txt "PLU4") (PStr plu4)) (txt "PLU6") (PStr (plu6_of plu4)).

Section listar.

(** The rows the database returns for the SELECT on DBA.ARTICULO with
    the normalised department numbers as parameters. *)
Variable query : list Z -> list dict.

(** The loop that collects [nums]. *)
Fixpoint nums_loop (deptos : list pyval) (nums : list Z) : result (list Z) :=
  match deptos with
  | [] => Ok nums
  | d :: rest =>
      bind (_to_int d) (fun n =>
      nums_loop rest (match n with Some n => nums ++ [n] | None => nums end))
  end.

Definition listar_para_deptos (deptos : list pyval) : result (list dict) :=
  bind (nums_loop deptos []) (fun nums =>
  match nums with
  | [] => Ok []
  | _ => Ok (map enrich (query nums))
  end).

End listar.

End dao_articulos_balanza.

(* ================================================================== *)
(** * The relational store behind the DAOs                             *)
(* ================================================================== *)

Module sybase.

(** The three tables the DAOs write, with the keys and references of
    their CREATE TABLE statements. A statement that the database
    rejects changes nothing: [DBAService.execute] rolls back, logs and
    returns 0. The connection itself is assumed to work. *)

Record equipo_row := {
  e_nombre : str;
  e_ip : str;
  e_puerto : Z;
  e_autoreport : bool
}.

Record database := {
  GRP_VENT : gmap str str;
  BALA_EQUIPOS : gmap Z equipo_row;
  BALA_DPTOS : gset (Z * str);
  next_id : Z
}.

(** [DELETE FROM DBA.BALA_DPTOS WHERE equipo_id = eid] *)
Definition delete_bala_dptos (db : database) (eid : Z) : database :=
  {| GRP_VENT := GRP_VENT db;
     BALA_EQUIPOS := BALA_EQUIPOS db;
     BALA_DPTOS := filter (fun p => p.1 ≠ eid) (BALA_DPTOS db);
     next_id := next_id db |}.

(** [INSERT INTO DBA.BALA_DPTOS (equipo_id, cgrpconta) VALUES (eid, c)]:
    rejected on a duplicate key or a missing referenced row. *)
Definition insert_bala_dptos (db : database) (eid : Z) (c : str) : database :=
  if bool_decide (eid ∈ dom (BALA_EQUIPOS db) ∧ c ∈ dom (GRP_VENT db) ∧ (eid, c) ∉ BALA_DPTOS db)
  then {| GRP_VENT := GRP_VENT db;
          BALA_EQUIPOS := BALA_EQUIPOS db;
          BALA_DPTOS := BALA_DPTOS db ∪ {[ (eid, c) ]};
          next_id := next_id db |}
  else db.

(** [SELECT CGRPCONTA FROM DBA.GRP_VENT WHERE CGRPCONTA IN (...)] *)
Definition select_grp_vent_in (db : database) (codigos : list str) : gset str :=
  filter (fun c => c ∈ codigos) (dom (GRP_VENT db)).

(** [DELETE FROM DBA.GRP_VENT WHERE CGRPCONTA = c]: rejected while a
    relation row references the department. *)
Definition delete_grp_vent (db : database) (c : str) : database :=
  if bool_decide (set_Exists (fun p => p.2 = c) (BALA_DPTOS db)) then db
  else {| GRP_VENT := delete c (GRP_VENT db);
          BALA_EQUIPOS := BALA_EQUIPOS db;
          BALA_DPTOS := BALA_DPTOS db;
          next_id := next_id db |}.

(** Some row other than [eid] already has the name (the column is
    declared UNIQUE). *)
Definition nombre_en_uso (db : database) (eid : option Z) (n : str) : bool :=
  existsb (fun p => bool_decide (e_nombre p.2 = n) && negb (bool_decide (Some p.1 = eid)))
          (map_to_list (BALA_EQUIPOS db)).

(** [UPDATE DBA.BALA_EQUIPOS SET ... WHERE id = eid] *)
Definition update_bala_equipos (db : database) (eid : Z) (r : equipo_row) : database :=
  {| GRP_VENT := GRP_VENT db;
     BALA_EQUIPOS := if bool_decide (eid ∈ dom (BALA_EQUIPOS db))
                        && negb (nombre_en_uso db (Some eid) (e_nombre r))
                     then <[eid := r]> (BALA_EQUIPOS db) else BALA_EQUIPOS db;
     BALA_DPTOS := BALA_DPTOS db;
     next_id := next_id db |}.

(** [INSERT INTO DBA.BALA_EQUIPOS (...)]: the id is assigned by the
    database, above every id in use. *)
Definition insert_bala_equipos (db : database) (r : equipo_row) : database :=
  if nombre_en_uso db None (e_nombre r) then db
  else
    let id := Z.max (next_id db) (1 + set_fold Z.max 0 (dom (BALA_EQUIPOS db))) in
    {| GRP_VENT := GRP_VENT db;
       BALA_EQUIPOS := <[id := r]> (BALA_EQUIPOS db);
       BALA_DPTOS := BALA_DPTOS db;
       next_id := id + 1 |}.

(** [DELETE FROM DBA.BALA_EQUIPOS WHERE id = eid]: the relation rows of
    the equipment go with it (ON DELETE CASCADE). *)
Definition delete_bala_equipos (db : database) (eid : Z) : database :=
  {| GRP_VENT := GRP_VENT db;
     BALA_EQUIPOS := delete eid (BALA_EQUIPOS db);
     BALA_DPTOS := filter (fun p => p.1 ≠ eid) (BALA_DPTOS db);
     next_id := next_id db |}.

(** Code-point order on text, as [sorted] and ORDER BY use it here. *)
Fixpoint str_leb (a b : str) : bool :=
  match a, b with
  | [], _ => true
  | _ :: _, [] => false
  | x :: a', y :: b' =>
      if ord x <? ord y then true
      else if ord y <? ord x then false
      else str_leb a' b'
  end.

Definition str_le (a b : str) : Prop := str_leb a b = true.
Definition por_id (a b : Z * equipo_row) : Prop := a.1 <= b.1.
Definition por_codigo (a b : str * str) : Prop := str_le a.1 b.1.
Definition id_desc (a b : Z) : Prop := b <= a.

#[global] Instance str_le_dec a b : Decision (str_le a b) := decide (str_leb a b = true).
#[global] Instance por_id_dec a b : Decision (por_id a b) := decide (a.1 <= b.1).
#[global] Instance por_codigo_dec a b : Decision (por_codigo a b) := decide (str_leb a.1 b.1 = true).
#[global] Instance id_desc_dec a b : Decision (id_desc a b) := decide (b <= a).

(** [SELECT TOP 500 id, ... FROM DBA.BALA_EQUIPOS ORDER BY id] *)
Definition select_bala_equipos (db : database) : list (Z * equipo_row) :=
  take 500 (merge_sort por_id (map_to_list (BALA_EQUIPOS db))).

(** [SELECT TOP 1000 CGRPCONTA AS codigo, CGRPNOM AS nombre ... ORDER BY CGRPCONTA] *)
Definition select_grp_vent (db : database) : list (str * str) :=
  take 1000 (merge_sort por_codigo (map_to_list (GRP_VENT db))).

(** [SELECT id FROM DBA.BALA_EQUIPOS WHERE nombre = ? AND ip = ? ORDER BY id DESC] *)
Definition select_id_por_nombre_ip (db : database) (nombre ip : str) : list Z :=
  merge_sort id_desc
    (omap (fun p => if bool_decide (e_nombre p.2 = nombre ∧ e_ip p.2 = ip) then Some p.1 else None)
          (map_to_list (BALA_EQUIPOS db))).

End sybase.

(* ================================================================== *)
(** * db/dao_bala_dptos.py — equipment / department relations          *)
(* ================================================================== *)

Module dao_bala_dptos.

Import sybase.

Definition codigos_validos (db : database) (codigos : list str) : gset str :=
  match codigos with
  | [] => ∅
  | _ => select_grp_vent_in db codigos
  end.

Definition listar_todo (db : database) : list (Z * str) := elements (BALA_DPTOS db).

Definition reemplazar_relaciones (db : database) (equipo_id : Z) (codigos : list str)
  : database * list str :=
  let db := delete_bala_dptos db equipo_id in
  let validos := codigos_validos db codigos in
  let invalidos := filter (fun c => c ∉ validos) codigos in
  let db := foldl (fun db c => insert_bala_dptos db equipo_id c) db (elements validos) in
  (db, invalidos).

End dao_bala_dptos.

(* ================================================================== *)
(** * db/dao_repo_sybase.py — Repository Facade                        *)
(* ================================================================== *)

Module dao_repo_sybase.

Import sybase dao_bala_dptos.

(** An entry of [self.equipos]. *)
Record equipo := {
  id : Z;
  nombre : str;
  ip : str;
  puerto : Z;
  deptos : list str;
  autoreport : bool
}.

Record RepoSybase := {
  db : database;
  departamentos : list (str * str);
  equipos : list equipo
}.

Definition _refresh (d : database) : RepoSybase :=
  let rel := listar_todo d in
  {| db := d;
     departamentos := select_grp_vent d;
     equipos :=
       map (fun e =>
              {| id := e.1;
                 nombre := e_nombre e.2;
                 ip := e_ip e.2;
                 puerto := if e_puerto e.2 =? 0 then 1001 else e_puerto e.2;
                 deptos := merge_sort str_le
                             (omap (fun rr => if bool_decide (rr.1 = e.1) then Some rr.2 else None) rel);
                 autoreport := e_autoreport e.2 |})
           (select_bala_equipos d) |}.

Definition en_uso : str := txt "No se puede borrar: hay equipos asociados a este depto.".

Definition delete_depto (r : RepoSybase) (codigo : str) : RepoSybase * result unit :=
  if existsb (fun e => bool_decide (codigo ∈ deptos e)) (equipos r)
  then (r, Raise (ValueError en_uso))
  else (_refresh (delete_grp_vent (db r) codigo), Ok tt).

Definition departamentos_inexistentes (invalidos : list str) : str :=
  txt "Departamentos inexistentes (CGRPCONTA): " ++
  match invalidos with
  | [] => []
  | c :: rest => c ++ concat (map (fun x => txt ", " ++ x) rest)
  end.

(** After a raise the object keeps its lists as they were (no
    [_refresh]), over whatever the database now holds. *)
Definition stale (r : RepoSybase) (d : database) : RepoSybase :=
  {| db := d; departamentos := departamentos r; equipos := equipos r |}.

Definition add_equipo (r : RepoSybase) (nombre ip : str) (puerto : Z)
    (depto_codigos : list str) (autoreport : bool) : RepoSybase * result unit :=
  let d := insert_bala_equipos (db r)
             {| e_nombre := nombre; e_ip := ip; e_puerto := puerto; e_autoreport := autoreport |} in
  match select_id_por_nombre_ip d nombre ip with
  | eid :: _ =>
      let '(d, invalidos) := reemplazar_relaciones d eid depto_codigos in
      match invalidos with
      | [] => (_refresh d, Ok tt)
      | _ => (stale r d, Raise (ValueError (departamentos_inexistentes invalidos)))
      end
  | [] => (_refresh d, Ok tt)
  end.

Definition update_equipo (r : RepoSybase) (idx : Z) (nombre ip : str) (puerto : Z)
    (depto_codigos : list str) (autoreport : bool) : RepoSybase * result unit :=
  let lista := select_bala_equipos (db r) in
  if (0 <=? idx) && (idx <? len lista) then
    match lista !! Z.to_nat idx with
    | Some row =>
        let eid := row.1 in
        let d := update_bala_equipos (db r) eid
                   {| e_nombre := nombre; e_ip := ip; e_puerto := puerto; e_autoreport := autoreport |} in
        let '(d, invalidos) := reemplazar_relaciones d eid depto_codigos in
        match invalidos with
        | [] => (_refresh d, Ok tt)
        | _ => (stale r d, Raise (ValueError (departamentos_inexistentes invalidos)))
        end
    | None => (r, Raise IndexError)
    end
  else (r, Raise IndexError).

Definition delete_equipo (r : RepoSybase) (idx : Z) : RepoSybase * result unit :=
  let lista := select_bala_equipos (db r) in
  if (0 <=? idx) && (idx <? len lista) then
    match lista !! Z.to_nat idx with
    | Some row => (_refresh (delete_bala_equipos (db r) row.1), Ok tt)
    | None => (r, Raise IndexError)
    end
  else (r, Raise IndexError).

End dao_repo_sybase.

(* ================================================================== *)
(** * GUI/abm_departamentos.py — JSON-file repository                  *)
(* ================================================================== *)

Module abm_departamentos.

(** An equipment object of the JSON document. Either shape occurs:
    one department under "depto_codigo", or a list under "deptos". *)
Record equipo := {
  nombre : str;
  depto_codigo : option str;
  deptos : option (list str)
}.

Record Repo := {
  departamentos : list (str * str);
  equipos : list equipo;
  DATA_FILE : option (list (str * str) * list equipo)
}.

Definition _save (r : Repo) : Repo :=
  {| departamentos := departamentos r;
     equipos := equipos r;
     DATA_FILE := Some (departamentos r, equipos r) |}.

Definition en_uso : str := txt "No se puede borrar: hay equipos asociados a este depto.".
Definition no_encontrado : str := txt "Departamento no encontrado".

Definition delete_depto (r : Repo) (codigo : str) : Repo * result unit :=
  if existsb (fun e => bool_decide (depto_codigo e = Some codigo)) (equipos r)
  then (r, Raise (ValueError en_uso))
  else
    let before := len (departamentos r) in
    let r' := {| departamentos := filter (fun d => d.1 ≠ codigo) (departamentos r);
                 equipos := equipos r;
                 DATA_FILE := DATA_FILE r |} in
    if len (departamentos r') =? before
    then (r', Raise (ValueError no_encontrado))
    else (_save r', Ok tt).








End abm_departamentos.

(* ================================================================== *)
(** * GUI/GUI_MAIN.py — combined send workflow                         *)
(* ================================================================== *)

Module GUI_MAIN.

Import kretz_adapter.

Section workflow.

Variable float_x100 : str -> float_cents.

(** [self.repo.articulos_por_deptos] *)
Variable articulos_por_deptos : list pyval -> list dict.




End workflow.

End GUI_MAIN.

(* ================================================================== *)
(** * The specification's operations, in its own words                 *)
(* ================================================================== *)

Module spec.

(** [pad_number(value, width)]: strip all non-digit characters from the
    textual form of the value, keep only the rightmost [width] digits,
    left-pad with '0' to [width]. *)
Definition pad_number (value : pyval) (width : Z) : str :=
  let digits := filter (fun c => char_isdigit c = true) (py_str value) in
  rjust width "0" (slice_from (- width) digits).

(** A 2005 line of a batch carries a record of the documented length. *)
Definition record_ok (line : str) : Prop :=
  kretz_adapter.line_cmd line = kretz_adapter.CMD_ALTA_PLU ->
  len (kretz_adapter.line_datos line) = 135.

(** Every batch handed to the driver so far is made of such lines. *)
Definition batches_ok (w : kretz_adapter.world) : Prop :=
  Forall (fun b => Forall record_ok b.2) (kretz_adapter.sent w).

(** An instance of the floating-point parameter for the examples. It is
    exact on whole-number texts of up to 13 digits, where binary64
    represents the number and its hundredfold exactly, and it rejects
    text that holds no number at all, as [float()] does; texts with a
    fraction or an exponent are outside what the examples use. *)
Definition float_x100_whole (s : str) : float_cents :=
  match py_int s with
  | Some n => if Z.abs n <? 10 ^ 13 then FRound (100 * n) else FInvalid
  | None => FInvalid
  end.


Definition EQ1_def : kretz_adapter.EquipoDef :=
  {| kretz_adapter.nombre := txt "EQ1";
     kretz_adapter.ip := txt "10.0.0.5";
     kretz_adapter.puerto := 1001;
     kretz_adapter.id_equipo := 1;
     kretz_adapter.idioma := txt "00" |}.

Definition row_1017 : kretz_adapter.dict :=
  [ (txt "CREF", PStr (txt "1017"));
    (txt "CGRPCONTA", PStr (txt "005"));
    (txt "NPVP1", PNum (txt "19.5"));
    (txt "CTIPOIVA", PStr (txt "21")) ].










(** A small store: departments 005 and 010, one equipment (id 1) that
    is related to 010. *)
Definition db_demo : sybase.database :=
  {| sybase.GRP_VENT := {[ txt "005" := txt "Carnes"; txt "010" := txt "Pan" ]};
     sybase.BALA_EQUIPOS :=
       {[ 1 := {| sybase.e_nombre := txt "EQ1"; sybase.e_ip := txt "10.0.0.5";
                  sybase.e_puerto := 1001; sybase.e_autoreport := false |} ]};
     sybase.BALA_DPTOS := {[ (1, txt "010") ]};
     sybase.next_id := 2 |}.

(** A JSON repository whose one equipment holds its departments as a
    list, and a relational repository in the same situation. *)
Definition json_demo : abm_departamentos.Repo :=
  {| abm_departamentos.departamentos := [(txt "001", txt "Panaderia"); (txt "002", txt "Fiambreria")];
     abm_departamentos.equipos :=
       [ {| abm_departamentos.nombre := txt "EQ1";
            abm_departamentos.depto_codigo := None;
            abm_departamentos.deptos := Some [txt "001"] |} ];
     abm_departamentos.DATA_FILE := None |}.

Definition sybase_demo : dao_repo_sybase.RepoSybase := dao_repo_sybase._refresh db_demo.

(** ** What [send_many] records, in the claim's words *)

Section responses.

Context {device : Type}.
Variable send : device -> list byte -> device * list byte.

(** Attempts per frame: the first one and [max_retries] more. *)
Definition budget (max_retries : Z) : nat := S (Z.to_nat max_retries).

(** Up to [n] exchanges for one frame: the first valid response, or,
    when none of them is valid, the last one received ([received] before
    any exchange). *)
Fixpoint first_valid_or_last (n : nat) (dev : device) (f : list byte) (received : list byte)
  : device * list byte :=
  match n with
  | O => (dev, received)
  | S k =>
      let '(dev, resp) := send dev f in
      if kretz_driver.resp_valid resp then (dev, resp)
      else first_valid_or_last k dev f resp
  end.

(** One recorded response per frame, in order. *)
Fixpoint responses (n : nat) (dev : device) (frames : list (list byte))
  : device * list (list byte) :=
  match frames with
  | [] => (dev, [])
  | f :: rest =>
      let '(dev, r) := first_valid_or_last n dev f [] in
      let '(dev, rs) := responses n dev rest in
      (dev, r :: rs)
  end.

(** The same device, with a log of the frames written to it. *)
Definition logged (st : device * list (list byte)) (f : list byte)
  : (device * list (list byte)) * list byte :=
  let '(dev, r) := send st.1 f in ((dev, st.2 ++ [f]), r).

End responses.

(** How SQL reads a quoted literal after its opening quote: two quotes
    in a row stand for one quote character, a quote alone closes the
    literal. Gives the text denoted and what follows the closing quote;
    nothing when the literal is not closed. *)
Fixpoint sql_read_literal (s : str) : option (str * str) :=
  match s with
  | [] => None
  | c :: r =>
      if Ascii.eqb c "'" then
        match r with
        | c' :: r' =>
            if Ascii.eqb c' "'"
            then (fun p : str * str => (c :: p.1, p.2)) <$> sql_read_literal r'
            else Some ([], r)
        | [] => Some ([], [])
        end
      else (fun p : str * str => (c :: p.1, p.2)) <$> sql_read_literal r
  end.



(** A table of field lengths whose fields are numbered 0..99 and whose
    lengths are 1..999. *)
Definition campos_en_rango (out : gmap Z Z) : Prop :=
  forall k v, out !! k = Some v -> 0 <= k <= 99 /\ 1 <= v <= 999.

(** A line without any line-break character. *)
Definition linea_limpia (l : str) : Prop := forallb (fun c => negb (jdg_driver.is_linebreak c)) l = true.

(** Every relation row refers to an equipment of the table, as the
    foreign key of BALA_DPTOS requires. *)
Definition relaciones_con_equipo (d : sybase.database) : Prop :=
  forall eid c, (eid, c) ∈ sybase.BALA_DPTOS d -> eid ∈ dom (sybase.BALA_EQUIPOS d).

(** Two entries of the equipment list in the order of their ids. *)
Definition por_id_equipo (a b : dao_repo_sybase.equipo) : Prop :=
  dao_repo_sybase.id a <= dao_repo_sybase.id b.

(** A value that is absent or a text of decimal digits only. *)
Definition digit_text (v : pyval) : Prop :=
  match v with
  | PNone => True
  | PStr s => forallb is_decimal s = true
  | _ => False
  end.

(** [c * 10^k] as a whole number, rounded half to even when [k < 0]. *)
Definition round_exact (c k : Z) : Z :=
  if 0 <=? k then c * 10 ^ k else round_half_even c (- k).

(** The cents of a price text: nothing for a blank; the number itself
    for a text of digits only; otherwise the decimal number times 100,
    rounded half to even, and 0 for what is not a finite number. *)
Definition price_cents (s : str) : Z :=
  if bool_decide (s = []) then 0
  else if isdigit s then default 0 (int_literal s)
  else
    match decimal_literal s with
    | Some (DFinite neg c e) => let n := round_exact c (e + 2) in if neg then - n else n
    | _ => 0
    end.

(** [price_to_width]: the cents, not below 0 and not above the largest
    number of [w] digits, left-padded with '0' to [w]. *)
Definition price_to_width (s : str) (w : Z) : str :=
  rjust w "0" (str_of_Z (Z.min (10 ^ w - 1) (Z.max 0 (price_cents s)))).

(** The text is not a finite number, or is a number written with at
    most 26 significant digits: its coefficient, scaled by a positive
    exponent, stays below 10^26. *)
Definition price_in_range (s : str) : Prop :=
  match decimal_literal s with
  | Some (DFinite _ c e) => c * 10 ^ (Z.max e 0) < 10 ^ 26
  | _ => True
  end.

(** The prices the conversion is described for: a text of digits only
    has at most [int_max_str_digits] of them, and any other text is in
    range. *)
Definition price_known (s : str) : Prop :=
  if isdigit s then len s <= int_max_str_digits else price_in_range s.

End spec.

(* ================================================================== *)
(** * Theorems                                                         *)
(* ================================================================== *)

(** ** Text *)

Section text.

Lemma len_nonneg {A} (s : list A) : 0 <= len s.
Proof. unfold len. lia. Qed.

Lemma len_app {A} (a b : list A) : len (a ++ b) = len a + len b.
Proof. unfold len. rewrite length_app. lia. Qed.

Lemma len_cons {A} (x : A) (a : list A) : len (x :: a) = 1 + len a.
Proof. unfold len. simpl. lia. Qed.

Lemma len_replicate {A} (n : nat) (x : A) : len (replicate n x) = Z.of_nat n.
Proof. unfold len. now rewrite length_replicate. Qed.

Lemma len_rjust (w : Z) (c : ascii) (s : str) : len (rjust w c s) = Z.max w (len s).
Proof. unfold rjust. rewrite len_app, len_replicate. pose proof (len_nonneg s). lia. Qed.

Lemma len_ljust (w : Z) (c : ascii) (s : str) : len (ljust w c s) = Z.max w (len s).
Proof. unfold ljust. rewrite len_app, len_replicate. pose proof (len_nonneg s). lia. Qed.

Lemma len_slice_to {A} (j : Z) (s : list A) : 0 <= j -> len (slice_to j s) = Z.min j (len s).
Proof.
  intros Hj. unfold slice_to. destruct (Z.ltb_spec j 0); [lia|].
  unfold len. rewrite length_take. lia.
Qed.

Lemma len_slice_from_neg {A} (n : Z) (s : list A) :
  0 < n -> len (slice_from (- n) s) = Z.min n (len s).
Proof.
  intros Hn. unfold slice_from. destruct (Z.ltb_spec (- n) 0); [|lia].
  unfold len. rewrite length_drop. lia.
Qed.

Lemma len_slice {A} (i j : Z) (s : list A) :
  0 <= i -> i <= j -> j <= len s -> len (slice i j s) = j - i.
Proof.
  intros Hi Hij Hj. unfold slice, len in *. rewrite length_take, length_drop. lia.
Qed.

(** Padding a text that is not longer than the width gives the width. *)
Lemma len_rjust_fit (w : Z) (c : ascii) (s : str) : len s <= w -> len (rjust w c s) = w.
Proof. intros. rewrite len_rjust. lia. Qed.

Lemma rjust_long (w : Z) (c : ascii) (s : str) : w <= len s -> rjust w c s = s.
Proof. intros H. unfold rjust. replace (Z.to_nat (w - len s)) with O by lia. reflexivity. Qed.

Lemma slice_to_all {A} (j : Z) (s : list A) : len s <= j -> slice_to j s = s.
Proof.
  intros H. pose proof (len_nonneg s). unfold slice_to. destruct (Z.ltb_spec j 0); [lia|].
  apply take_ge. unfold len in *. lia.
Qed.

Lemma slice_from_neg_all {A} (n : Z) (s : list A) : len s <= n -> slice_from (- n) s = s.
Proof.
  intros H. pose proof (len_nonneg s). unfold slice_from.
  destruct (Z.ltb_spec (- n) 0).
  - replace (Z.to_nat (len s + - n)) with O by lia. reflexivity.
  - assert (n = 0) as -> by lia. reflexivity.
Qed.

(** Right-justifying the last [w] characters, then cutting at [w], is
    what cutting does nothing to. *)
Lemma len_rjust_suffix (w : Z) (c : ascii) (s : str) :
  0 < w -> len (rjust w c (slice_from (- w) s)) = w.
Proof. intros H. rewrite len_rjust, len_slice_from_neg by lia. lia. Qed.

End text.

Section checksum.

Lemma bytes_of_ints_two (a b : Z) :
  0 <= a < 256 -> 0 <= b < 256 ->
  exists x y, bytes_of_ints [a; b] = Some [x; y] /\ byte_val x = a /\ byte_val y = b.
Proof.
  intros Ha Hb. unfold bytes_of_ints.
  destruct (Byte.of_N (Z.to_N a)) as [x|] eqn:Ex.
  2:{ apply Byte.of_N_None_iff in Ex. lia. }
  destruct (Byte.of_N (Z.to_N b)) as [y|] eqn:Ey.
  2:{ apply Byte.of_N_None_iff in Ey. lia. }
  exists x, y.
  replace ((0 <=? a) && (a <? 256)) with true by (symmetry; apply andb_true_iff; lia).
  replace ((0 <=? b) && (b <? 256)) with true by (symmetry; apply andb_true_iff; lia).
  split; [reflexivity|].
  apply Byte.to_of_N in Ex. apply Byte.to_of_N in Ey.
  unfold byte_val. lia.
Qed.

Lemma nibbles (total : Z) :
  let s := total mod 256 in
  Z.land (Z.shiftr (Z.land total 255) 4) 15 = s / 16 /\
  Z.land (Z.land total 255) 15 = s mod 16 /\ 0 <= s / 16 < 16.
Proof.
  intros s.
  assert (Hs : Z.land total 255 = s) by (change 255 with (Z.ones 8); rewrite Z.land_ones by lia; reflexivity).
  assert (Hr : 0 <= s < 256) by (apply Z.mod_pos_bound; lia).
  rewrite Hs.
  assert (Hq : 0 <= s / 16 < 16).
  { split; [apply Z.div_pos; lia | apply Z.div_lt_upper_bound; lia]. }
  repeat split; try lia.
  - rewrite Z.shiftr_div_pow2 by lia. change (2 ^ 4) with 16.
    change 15 with (Z.ones 4). rewrite Z.land_ones by lia.
    change (2 ^ 4) with 16. apply Z.mod_small. lia.
  - change 15 with (Z.ones 4). rewrite Z.land_ones by lia. reflexivity.
Qed.

End checksum.

(** ** C1 — checksum *)

(** C1. For every command body, each checksum implementation applied to
    STX ++ body returns exactly two bytes: with s the sum of the bytes
    modulo 256, the first is the high nibble of s plus 0x30 and the
    second the low nibble plus 0x30; both lie in 0x30..0x3F. Being
    functions of the payload, equal inputs give equal checksums, and
    the two implementations return the same bytes. *)
Theorem C1_checksum_two_nibbles (body : list byte) :
  let s := sum_bytes (x02 :: body) mod 256 in
  exists hi lo : byte,
    envios_balanzas._checksum_bytes (envios_balanzas.STX :: body) = Some [hi; lo] /\
    kretz_driver._checksum_bytes (kretz_driver.STX :: body) = Some [hi; lo] /\
    byte_val hi = s / 16 + 48 /\
    byte_val lo = s mod 16 + 48 /\
    48 <= byte_val hi <= 63 /\
    48 <= byte_val lo <= 63.
Proof.
  intros s.
  destruct (nibbles (sum_bytes (x02 :: body))) as (Hhi & Hlo & Hq). fold s in Hhi, Hlo, Hq.
  assert (Hm : 0 <= s mod 16 < 16) by (apply Z.mod_pos_bound; lia).
  destruct (bytes_of_ints_two (s / 16 + 48) (s mod 16 + 48)) as (hi & lo & Hb & Hh & Hl); [lia | lia |].
  exists hi, lo.
  unfold envios_balanzas._checksum_bytes, kretz_driver._checksum_bytes,
    envios_balanzas.STX, kretz_driver.STX.
  cbv zeta. rewrite Hhi, Hlo, Hb. repeat split; lia.
Qed.

(** ** C2 — numeric padding *)

Section pad.

Lemma replicate_zero_tail (w : Z) :
  0 < w -> rjust w "0" (slice_from (- w) (txt "0")) = replicate (Z.to_nat w) "0"%char.
Proof.
  intros Hw. rewrite slice_from_neg_all by (change (len (txt "0")) with 1; lia).
  unfold rjust. change (len (txt "0")) with 1.
  replace (Z.to_nat w) with (Z.to_nat (w - 1) + 1)%nat by lia.
  rewrite replicate_add. reflexivity.
Qed.

Lemma filter_isdigit_id (s : str) :
  forallb char_isdigit s = true -> filter (fun c => char_isdigit c = true) s = s.
Proof.
  induction s as [|c s IH]; [reflexivity|]. simpl. intros [Hc Hs]%andb_true_iff.
  rewrite filter_cons. destruct (decide (char_isdigit c = true)); [|congruence].
  now rewrite IH.
Qed.

Lemma isdigit_forallb (s : str) : isdigit s = true -> forallb char_isdigit s = true.
Proof. destruct s; [discriminate | trivial]. Qed.

End pad.

(** C2, as stated, fails. On "1005" at width 3 [pad_num] keeps the
    leftmost three digits, "100", where the claim says "005"; on "a5"
    [_pad_num] does not strip the letter but pads "0", giving "000",
    where stripping gives "005". *)
Lemma C2_counterexample :
  envios_balanzas.pad_num (PStr (txt "1005")) 3 = txt "100" /\
  spec.pad_number (PStr (txt "1005")) 3 = txt "005" /\
  kretz_adapter._pad_num (PStr (txt "a5")) 3 = txt "000" /\
  spec.pad_number (PStr (txt "a5")) 3 = txt "005".
Proof. repeat split; vm_compute; reflexivity. Qed.

(** C2, amended. For every value and positive width:
    [pad_num] strips the non-digit characters and, when at most [width]
    digits remain, left-pads them with '0' to [width] (as the
    specification's pad_number does); its result always has [width]
    characters. [_pad_num] strips surrounding blanks only: when what
    remains is all digits it keeps the rightmost [width] of them and
    left-pads with '0', and for any other text (empty, or holding a
    non-digit) it gives [width] zeros; its result always has [width]
    characters. "5" and "005" pad to "005" at width 3 under both, and
    "1005" pads to "005" under [_pad_num]. *)
Theorem C2_pad_num_amended (value : pyval) (width : Z) :
  0 < width ->
  let digits := filter (fun c => char_isdigit c = true)
                  (py_str (match value with PNone => PStr [] | _ => value end)) in
  let s := strip (py_str (por value (PStr []))) in
  (len digits <= width ->
     envios_balanzas.pad_num value width = rjust width "0" digits) /\
  len (envios_balanzas.pad_num value width) = width /\
  (isdigit s = true ->
     kretz_adapter._pad_num value width = spec.pad_number (PStr s) width) /\
  (isdigit s = false ->
     kretz_adapter._pad_num value width = replicate (Z.to_nat width) "0"%char) /\
  len (kretz_adapter._pad_num value width) = width /\
  envios_balanzas.pad_num (PStr (txt "5")) 3 = txt "005" /\
  envios_balanzas.pad_num (PStr (txt "005")) 3 = txt "005" /\
  kretz_adapter._pad_num (PStr (txt "5")) 3 = txt "005" /\
  kretz_adapter._pad_num (PStr (txt "005")) 3 = txt "005" /\
  kretz_adapter._pad_num (PStr (txt "1005")) 3 = txt "005".
Proof.
  intros Hw digits s.
  split; [|split; [|split; [|split; [|split]]]].
  - intros Hd. unfold envios_balanzas.pad_num. fold digits.
    apply slice_to_all. rewrite len_rjust. lia.
  - unfold envios_balanzas.pad_num. fold digits.
    rewrite len_slice_to, len_rjust by lia. pose proof (len_nonneg digits). lia.
  - intros Hs. unfold kretz_adapter._pad_num, spec.pad_number. fold s. rewrite Hs.
    cbn [py_str]. now rewrite filter_isdigit_id by now apply isdigit_forallb.
  - intros Hs. unfold kretz_adapter._pad_num. fold s. rewrite Hs.
    now apply replicate_zero_tail.
  - unfold kretz_adapter._pad_num. now apply len_rjust_suffix.
  - repeat split; vm_compute; reflexivity.
Qed.

Lemma C2_pad_num_amended_witness :
  envios_balanzas.pad_num (PStr (txt "42")) 3 = txt "042" /\
  len (kretz_adapter._pad_num (PStr (txt "1005")) 3) = 3.
Proof.
  pose proof (C2_pad_num_amended (PStr (txt "42")) 3 ltac:(lia)) as H1.
  pose proof (C2_pad_num_amended (PStr (txt "1005")) 3 ltac:(lia)) as H2.
  cbv zeta in H1, H2.
  destruct H1 as (H1 & _). destruct H2 as (_ & _ & _ & _ & H2 & _).
  split; [|exact H2].
  rewrite H1; [reflexivity | vm_compute; discriminate].
Defined.

(** ** C3 — PLU derivation *)

Section plu.

Import kretz_adapter dao_articulos_balanza.

Lemma forallb_take {A} (P : A -> bool) (n : nat) (l : list A) :
  forallb P l = true -> forallb P (take n l) = true.
Proof.
  revert n. induction l as [|x l IH]; intros [|n]; simpl; trivial.
  intros [Hx Hl]%andb_true_iff. rewrite Hx. now apply IH.
Qed.

Lemma forallb_drop {A} (P : A -> bool) (n : nat) (l : list A) :
  forallb P l = true -> forallb P (drop n l) = true.
Proof.
  revert n. induction l as [|x l IH]; intros [|n]; simpl; trivial.
  intros [Hx Hl]%andb_true_iff. now apply IH.
Qed.

Lemma forallb_slice {A} (P : A -> bool) (i j : Z) (l : list A) :
  forallb P l = true -> forallb P (slice i j l) = true.
Proof. intros H. unfold slice. now apply forallb_take, forallb_drop. Qed.

Lemma forallb_filter_decimal (s : str) :
  forallb is_decimal (filter (fun c => is_decimal c = true) s) = true.
Proof.
  induction s as [|c s IH]; [reflexivity|]. rewrite filter_cons.
  destruct (decide (is_decimal c = true)) as [Hc|]; [|exact IH].
  simpl. now rewrite Hc.
Qed.

Lemma filter_decimal_id (s : str) :
  forallb is_decimal s = true -> filter (fun c => is_decimal c = true) s = s.
Proof.
  induction s as [|c s IH]; [reflexivity|]. simpl. intros [Hc Hs]%andb_true_iff.
  rewrite filter_cons. destruct (decide (is_decimal c = true)); [|congruence].
  now rewrite IH.
Qed.

Lemma decimal_range (c : ascii) : is_decimal c = true -> 48 <= ord c <= 57.
Proof. unfold is_decimal. intros [H1 H2]%andb_true_iff. lia. Qed.

Lemma decimal_not_space (c : ascii) : is_decimal c = true -> char_isspace c = false.
Proof.
  intros H%decimal_range. unfold char_isspace. cbv zeta.
  repeat match goal with
         | |- context [?a <=? ?b] => destruct (Z.leb_spec a b); try lia
         | |- context [?a =? ?b] => destruct (Z.eqb_spec a b); try lia
         end; reflexivity.
Qed.

Lemma decimal_isdigit (c : ascii) : is_decimal c = true -> char_isdigit c = true.
Proof. intros H. unfold char_isdigit. now rewrite H. Qed.

Lemma lstrip_decimal (s : str) : forallb is_decimal s = true -> lstrip s = s.
Proof.
  destruct s as [|c s]; [reflexivity|]. simpl. intros [Hc _]%andb_true_iff.
  now rewrite (decimal_not_space c Hc).
Qed.

Lemma forallb_rev {A} (P : A -> bool) (l : list A) :
  forallb P l = true -> forallb P (rev l) = true.
Proof.
  intros H. apply forallb_forall. intros x Hx%in_rev.
  now apply (proj1 (forallb_forall P l) H).
Qed.

(** A text of decimal digits has no blanks to strip. *)
Lemma strip_decimal (s : str) : forallb is_decimal s = true -> strip s = s.
Proof.
  intros H. unfold strip, rstrip. rewrite (lstrip_decimal s H).
  rewrite lstrip_decimal by now apply forallb_rev. apply rev_involutive.
Qed.

Lemma isdigit_decimal (s : str) : s <> [] -> forallb is_decimal s = true -> isdigit s = true.
Proof.
  intros Hne H. destruct s as [|c s]; [congruence|]. unfold isdigit.
  apply forallb_forall. intros x Hx. apply decimal_isdigit.
  now apply (proj1 (forallb_forall is_decimal (c :: s)) H).
Qed.

Lemma zfill_decimal (w : Z) (s : str) : forallb is_decimal s = true -> zfill w s = rjust w "0" s.
Proof.
  destruct s as [|c s]; [reflexivity|]. simpl. intros [Hc%decimal_range _]%andb_true_iff.
  unfold zfill. destruct (Z.eqb_spec (ord c) 43); [lia|]. destruct (Z.eqb_spec (ord c) 45); [lia|].
  reflexivity.
Qed.

(** The text both derivations work on, for an absent value or a text. *)
Lemma digit_text_str (v : pyval) :
  spec.digit_text v ->
  exists s, py_str (por v (PStr [])) = s /\ forallb is_decimal s = true.
Proof.
  destruct v as [| |s|]; simpl; try contradiction.
  - intros _. exists []. split; reflexivity.
  - intros H. exists s. split; [|exact H].
    unfold por. simpl. destruct (bool_decide (s = [])) eqn:E; simpl; [|reflexivity].
    apply bool_decide_eq_true in E. now subst.
Qed.

Lemma plu6_of_four (p : str) : len p = 4 -> plu6_of p = txt "00" ++ p.
Proof.
  intros H. unfold plu6_of. destruct p; [discriminate|].
  rewrite bool_decide_eq_false_2 by discriminate.
  unfold rjust. rewrite H. reflexivity.
Qed.

Lemma plu4_shape (cref codebar : pyval) :
  let plu4 := _plu4_from_cref_barcode cref codebar in
  plu4 = [] \/ (len plu4 = 4 /\ forallb is_decimal plu4 = true).
Proof.
  unfold _plu4_from_cref_barcode, _only_digits.
  destruct (Z.eqb_spec (len (filter (fun c => is_decimal c = true) (py_str (por cref (PStr []))))) 4) as [H4|H4].
  - right. split; [exact H4 | apply forallb_filter_decimal].
  - destruct (Z.leb_spec 6 (len (filter (fun c => is_decimal c = true) (py_str (por codebar (PStr [])))))) as [H6|H6].
    + right. split; [rewrite len_slice; lia | apply forallb_slice, forallb_filter_decimal].
    + now left.
Qed.

Lemma isdigit_not_sign (c : ascii) : char_isdigit c = true -> (ord c =? 43) || (ord c =? 45) = false.
Proof.
  unfold char_isdigit, is_decimal. intros H.
  destruct (Z.eqb_spec (ord c) 43) as [E|_]; [rewrite E in H; discriminate H|].
  destruct (Z.eqb_spec (ord c) 45) as [E|_]; [rewrite E in H; discriminate H|].
  reflexivity.
Qed.

Lemma zfill_four (s : str) : len s = 4 -> isdigit s = true -> zfill 6 s = txt "00" ++ s.
Proof.
  intros Hl Hd. destruct s as [|c r]; [discriminate|].
  unfold zfill. rewrite isdigit_not_sign by (cbn in Hd; now apply andb_true_iff in Hd).
  unfold rjust. now rewrite Hl.
Qed.

(** [_coerce_plu6] on the texts as they are: the stripped reference
    code when it is four digits; else the four characters after the
    first two of the stripped barcode when that starts with six decimal
    digits; else nothing. *)
Lemma coerce_plu6_raw (it : dict) :
  let cref := strip (py_str (por (_ci it [txt "CREF"]) (PStr []))) in
  let ccb := strip (py_str (por (_ci it [txt "CCODEBAR"]) (PStr []))) in
  (len cref = 4 /\ isdigit cref = true -> _coerce_plu6 it = Some (txt "00" ++ cref)) /\
  (~ (len cref = 4 /\ isdigit cref = true) ->
   6 <= len ccb /\ forallb is_decimal (take 6 ccb) = true ->
   _coerce_plu6 it = Some (txt "00" ++ slice 2 6 ccb)) /\
  (~ (len cref = 4 /\ isdigit cref = true) ->
   ~ (6 <= len ccb /\ forallb is_decimal (take 6 ccb) = true) ->
   _coerce_plu6 it = None).
Proof.
  intros cref ccb. unfold _coerce_plu6. fold cref. fold ccb.
  assert (Hlt : len (take 6 ccb) = Z.min 6 (len ccb)) by (unfold len; rewrite length_take; lia).
  split; [|split].
  - intros [H4 Hd]. rewrite (proj2 (Z.eqb_eq _ _) H4), Hd. cbn [andb].
    assert (Hne : cref <> []) by (intros E; rewrite E in H4; discriminate).
    rewrite (bool_decide_eq_false_2 _ Hne). now rewrite zfill_four.
  - intros Hn [H6 Hd].
    assert (E : (len cref =? 4) && isdigit cref = false).
    { apply not_true_is_false. intros [H1%Z.eqb_eq H2]%andb_true_iff. now apply Hn. }
    rewrite E, Hlt, Hd. rewrite (proj2 (Z.eqb_eq _ _)) by lia. cbn [andb].
    assert (Hl4 : len (slice 2 6 ccb) = 4) by (rewrite len_slice; lia).
    assert (Hne : slice 2 6 ccb <> []) by (intros E'; rewrite E' in Hl4; discriminate).
    rewrite (bool_decide_eq_false_2 _ Hne).
    assert (Hs : forallb is_decimal (slice 2 6 ccb) = true).
    { unfold slice. change (Z.to_nat (6 - 2)) with 4%nat. change (Z.to_nat 2) with 2%nat.
      rewrite take_drop_commute. change (2 + 4)%nat with 6%nat. now apply forallb_drop. }
    rewrite zfill_decimal by exact Hs. unfold rjust. now rewrite Hl4.
  - intros Hn Hm.
    assert (E : (len cref =? 4) && isdigit cref = false).
    { apply not_true_is_false. intros [H1%Z.eqb_eq H2]%andb_true_iff. now apply Hn. }
    assert (E6 : (len (take 6 ccb) =? 6) && forallb is_decimal (take 6 ccb) = false).
    { apply not_true_is_false. intros [H1%Z.eqb_eq H2]%andb_true_iff. apply Hm. split; [lia|exact H2]. }
    now rewrite E, E6.
Qed.

Lemma coerce_plu6_none_build (fl : str -> float_cents) (it : dict) (fam_def : pyval) (dec_prec : Z) :
  _coerce_plu6 it = None -> _build_datos_2005_modelo fl it fam_def dec_prec = Ok None.
Proof. intros H. unfold _build_datos_2005_modelo. now rewrite H. Qed.

End plu.

(** C3, as stated, fails for the Protocol Adapter. With CREF "A1017"
    and an empty barcode the reference code's digits are the 4-digit
    code 1017 and the DAO derives PLU6 "001017", but [_coerce_plu6]
    derives nothing: it wants the reference code itself, not its
    digits, to be four digits. *)
Lemma C3_counterexample :
  let it := [(txt "CREF", PStr (txt "A1017")); (txt "CCODEBAR", PStr [])] in
  dao_articulos_balanza._plu4_from_cref_barcode (PStr (txt "A1017")) (PStr []) = txt "1017" /\
  dao_articulos_balanza.plu6_of (txt "1017") = txt "001017" /\
  kretz_adapter._coerce_plu6 it = None.
Proof. repeat split; vm_compute; reflexivity. Qed.

(** C3, amended. In the articles DAO, PLU4 is the reference code's
    digits when there are exactly four of them; otherwise the digits at
    offsets 2..6 of the digit-only barcode when that has at least six
    digits; otherwise empty. So PLU4 is empty or four decimal digits,
    and PLU6 is empty when PLU4 is, else "00" followed by PLU4. An item
    for which [_coerce_plu6] derives no PLU is rejected by the record
    builder and skipped by both batch senders, which go on with the
    rest. [_coerce_plu6] applies the rule to the texts as they are: it
    gives "00" and the stripped reference code when that is itself four
    digits; else "00" and the four characters after the first two of
    the stripped barcode when that starts with six decimal digits; else
    nothing. It gives the DAO's PLU6 (or nothing where that is empty)
    whenever the reference code and the barcode are absent or consist
    of decimal digits only, and also for the reference code "ABC" with
    the barcode "2010170000000", where both give "001017". *)
Theorem C3_plu_derivation_amended
    (fl : str -> float_cents) (it : kretz_adapter.dict) (cref codebar : pyval) :
  let d := dao_articulos_balanza._only_digits cref in
  let cb := dao_articulos_balanza._only_digits codebar in
  let plu4 := dao_articulos_balanza._plu4_from_cref_barcode cref codebar in
  let plu6 := dao_articulos_balanza.plu6_of plu4 in
  (len d = 4 -> plu4 = d) /\
  (len d <> 4 -> 6 <= len cb -> plu4 = slice 2 6 cb) /\
  (len d <> 4 -> len cb < 6 -> plu4 = []) /\
  (plu4 = [] \/ (len plu4 = 4 /\ forallb is_decimal plu4 = true)) /\
  (plu4 = [] -> plu6 = []) /\
  (plu4 <> [] -> plu6 = txt "00" ++ plu4) /\
  (kretz_adapter._coerce_plu6 it = None ->
     forall fam_def dec_prec eq rest on_progress lines w,
       kretz_adapter._build_datos_2005_modelo fl it fam_def dec_prec = Ok None /\
       kretz_adapter.enviar_plus_loop fl eq (it :: rest) fam_def on_progress lines w =
         kretz_adapter.mbind
           (kretz_adapter.progress on_progress
              (kretz_adapter.ev_skip (kretz_adapter.nombre eq) kretz_adapter.PluDepInvalido))
           (fun _ => kretz_adapter.enviar_plus_loop fl eq rest fam_def on_progress lines) w /\
       kretz_adapter.articulos_loop fl eq (it :: rest) fam_def on_progress lines w =
         kretz_adapter.mbind
           (kretz_adapter.progress on_progress
              (kretz_adapter.ev_skip (kretz_adapter.nombre eq) kretz_adapter.PluDepInvalido))
           (fun _ => kretz_adapter.articulos_loop fl eq rest fam_def on_progress lines) w) /\
  (kretz_adapter._ci it [txt "CREF"] = cref ->
   kretz_adapter._ci it [txt "CCODEBAR"] = codebar ->
   spec.digit_text cref -> spec.digit_text codebar ->
   kretz_adapter._coerce_plu6 it = if bool_decide (plu6 = []) then None else Some plu6) /\
  (let cref_t := strip (py_str (por (kretz_adapter._ci it [txt "CREF"]) (PStr []))) in
   let ccb_t := strip (py_str (por (kretz_adapter._ci it [txt "CCODEBAR"]) (PStr []))) in
   (len cref_t = 4 /\ isdigit cref_t = true ->
      kretz_adapter._coerce_plu6 it = Some (txt "00" ++ cref_t)) /\
   (~ (len cref_t = 4 /\ isdigit cref_t = true) ->
    6 <= len ccb_t /\ forallb is_decimal (take 6 ccb_t) = true ->
      kretz_adapter._coerce_plu6 it = Some (txt "00" ++ slice 2 6 ccb_t)) /\
   (~ (len cref_t = 4 /\ isdigit cref_t = true) ->
    ~ (6 <= len ccb_t /\ forallb is_decimal (take 6 ccb_t) = true) ->
      kretz_adapter._coerce_plu6 it = None)) /\
  dao_articulos_balanza.plu6_of
    (dao_articulos_balanza._plu4_from_cref_barcode
       (PStr (txt "ABC")) (PStr (txt "2010170000000"))) = txt "001017" /\
  kretz_adapter._coerce_plu6
    [(txt "CREF", PStr (txt "ABC")); (txt "CCODEBAR", PStr (txt "2010170000000"))]
    = Some (txt "001017").
Proof.
  intros d cb plu4 plu6.
  assert (Hshape := plu4_shape cref codebar). cbv zeta in Hshape. fold plu4 in Hshape.
  split; [|split; [|split; [|split; [|split; [|split; [|split; [|split; [|split; [|split]]]]]]]]];
    [| | | | | | | |exact (coerce_plu6_raw it)|vm_compute; reflexivity|vm_compute; reflexivity].
  - intros H. unfold plu4, dao_articulos_balanza._plu4_from_cref_barcode. fold d.
    now rewrite (proj2 (Z.eqb_eq _ _) H).
  - intros H4 H6. unfold plu4, dao_articulos_balanza._plu4_from_cref_barcode. fold d cb.
    rewrite (proj2 (Z.eqb_neq _ _) H4). now rewrite (proj2 (Z.leb_le _ _) H6).
  - intros H4 H6. unfold plu4, dao_articulos_balanza._plu4_from_cref_barcode. fold d cb.
    rewrite (proj2 (Z.eqb_neq _ _) H4). now rewrite (proj2 (Z.leb_gt _ _) H6).
  - exact Hshape.
  - intros H. unfold plu6. now rewrite H.
  - intros H. destruct Hshape as [|[H4 _]]; [contradiction|]. now apply plu6_of_four.
  - intros Hnone fam_def dec_prec eq rest on_progress lines w.
    split; [now apply coerce_plu6_none_build|].
    split; cbn [kretz_adapter.enviar_plus_loop kretz_adapter.articulos_loop];
      unfold kretz_adapter.mbind at 1, kretz_adapter.lift;
      now rewrite (coerce_plu6_none_build fl it fam_def 1 Hnone).
  - intros Hc Hb Hdc Hdb.
    destruct (digit_text_str cref Hdc) as (s & Hs & Hsd).
    destruct (digit_text_str codebar Hdb) as (t & Ht & Htd).
    unfold kretz_adapter._coerce_plu6. rewrite Hc, Hb, Hs, Ht.
    rewrite (strip_decimal s Hsd), (strip_decimal t Htd).
    unfold plu6, plu4, dao_articulos_balanza._plu4_from_cref_barcode,
      dao_articulos_balanza._only_digits.
    rewrite Hs, Ht, (filter_decimal_id s Hsd), (filter_decimal_id t Htd).
    destruct (Z.eqb_spec (len s) 4) as [H4|H4].
    + assert (Hne : s <> []) by (intros ->; discriminate).
      rewrite (isdigit_decimal s Hne Hsd). simpl.
      rewrite (bool_decide_eq_false_2 (s = []) Hne).
      rewrite (zfill_decimal 6 s Hsd).
      unfold dao_articulos_balanza.plu6_of. rewrite (bool_decide_eq_false_2 (s = []) Hne).
      rewrite bool_decide_eq_false_2; [reflexivity|].
      unfold rjust. destruct s; [congruence|]. intros Habs%(f_equal length).
      rewrite length_app in Habs. simpl in Habs. lia.
    + simpl.
      assert (Hlt : len (take 6 t) = Z.min 6 (len t)) by (unfold len; rewrite length_take; lia).
      rewrite Hlt.
      destruct (Z.leb_spec 6 (len t)) as [H6|H6].
      * rewrite (proj2 (Z.eqb_eq _ _)) by lia. rewrite (forallb_take _ _ _ Htd). simpl.
        assert (Hl4 : len (slice 2 6 t) = 4) by (rewrite len_slice; lia).
        assert (Hne : slice 2 6 t <> []) by (intros E; rewrite E in Hl4; discriminate).
        rewrite (bool_decide_eq_false_2 _ Hne).
        rewrite zfill_decimal by now apply forallb_slice.
        unfold dao_articulos_balanza.plu6_of. rewrite (bool_decide_eq_false_2 _ Hne).
        rewrite bool_decide_eq_false_2; [reflexivity|].
        unfold rjust. intros Habs%(f_equal len). rewrite len_app, Hl4 in Habs.
        pose proof (len_nonneg (replicate (Z.to_nat (6 - 4)) "0"%char)).
        change (len (@nil ascii)) with 0 in Habs. lia.
      * rewrite (proj2 (Z.eqb_neq _ _)) by lia. simpl. reflexivity.
Qed.

Lemma C3_plu_derivation_amended_witness :
  kretz_adapter._coerce_plu6
    [(txt "CREF", PStr (txt "123")); (txt "CCODEBAR", PStr (txt "2010170000000"))]
  = Some (txt "001017").
Proof.
  pose proof (C3_plu_derivation_amended (fun _ => FInvalid)
                [(txt "CREF", PStr (txt "123")); (txt "CCODEBAR", PStr (txt "2010170000000"))]
                (PStr (txt "123")) (PStr (txt "2010170000000"))) as H.
  cbv zeta in H. destruct H as (_ & _ & _ & _ & _ & _ & _ & H & _).
  rewrite H; [vm_compute; reflexivity | vm_compute; reflexivity | vm_compute; reflexivity
              | vm_compute; reflexivity | vm_compute; reflexivity].
Defined.

(** ** Decimal digits *)

Section digits.

Lemma len_digits_loop_ge (fuel : nat) (n : Z) (acc : str) :
  len acc <= len (digits_loop fuel n acc).
Proof.
  revert n acc. induction fuel as [|f IH]; intros n acc; simpl; [lia|].
  destruct (n <? 10).
  - rewrite len_cons. lia.
  - specialize (IH (n / 10) (digit_char (n mod 10) :: acc)). rewrite len_cons in IH. lia.
Qed.

Lemma len_digits_loop_le (fuel : nat) (n : Z) (acc : str) (k : Z) :
  0 <= n < 10 ^ k -> 1 <= k -> len (digits_loop fuel n acc) <= len acc + k.
Proof.
  revert n acc k. induction fuel as [|f IH]; intros n acc k Hn Hk; simpl; [lia|].
  destruct (Z.ltb_spec n 10) as [H10|H10].
  - rewrite len_cons. lia.
  - assert (Hk2 : 2 <= k).
    { destruct (Z.eq_dec k 1) as [->|]; [|lia]. change (10 ^ 1) with 10 in Hn. lia. }
    assert (Hp : 10 ^ k = 10 * 10 ^ (k - 1)).
    { rewrite <- Z.pow_succ_r by lia. f_equal. lia. }
    specialize (IH (n / 10) (digit_char (n mod 10) :: acc) (k - 1)).
    rewrite len_cons in IH.
    assert (0 <= n / 10 < 10 ^ (k - 1)).
    { split; [apply Z.div_pos; lia | apply Z.div_lt_upper_bound; lia]. }
    lia.
Qed.

(** A non-negative number below [10^k] prints in at most [k] digits. *)
Lemma ndigits_le (n k : Z) : 0 <= n < 10 ^ k -> 1 <= k -> ndigits n <= k.
Proof.
  intros Hn Hk. unfold ndigits, digits_of.
  pose proof (len_digits_loop_le (S (Z.to_nat (Z.log2 n))) n [] k Hn Hk) as H.
  change (len (@nil ascii)) with 0 in H. lia.
Qed.

Lemma len_str_of_Z_le (n w : Z) : 0 <= n <= 10 ^ w - 1 -> 1 <= w -> len (str_of_Z n) <= w.
Proof.
  intros Hn Hw. unfold str_of_Z. destruct (Z.ltb_spec n 0); [lia|].
  apply (ndigits_le n w); lia.
Qed.

Lemma digit_char_decimal (d : Z) : 0 <= d < 10 -> is_decimal (digit_char d) = true.
Proof.
  intros Hd. assert (d = 0 \/ d = 1 \/ d = 2 \/ d = 3 \/ d = 4 \/ d = 5 \/ d = 6 \/ d = 7 \/ d = 8 \/ d = 9) as H by lia.
  repeat (destruct H as [->|H]; [reflexivity|]). now subst.
Qed.

Lemma digits_loop_decimal (fuel : nat) (n : Z) (acc : str) :
  0 <= n -> forallb is_decimal acc = true -> forallb is_decimal (digits_loop fuel n acc) = true.
Proof.
  revert n acc. induction fuel as [|f IH]; intros n acc Hn Hacc; simpl; [exact Hacc|].
  assert (Hd : is_decimal (digit_char (n mod 10)) = true).
  { apply digit_char_decimal. apply Z.mod_pos_bound. lia. }
  destruct (n <? 10).
  - simpl. now rewrite Hd.
  - apply IH; [apply Z.div_pos; lia|]. simpl. now rewrite Hd.
Qed.

Lemma str_of_Z_decimal (n : Z) : 0 <= n -> forallb is_decimal (str_of_Z n) = true.
Proof.
  intros Hn. unfold str_of_Z. destruct (Z.ltb_spec n 0); [lia|].
  now apply digits_loop_decimal.
Qed.

Lemma forallb_app_true {A} (P : A -> bool) (a b : list A) :
  forallb P a = true -> forallb P b = true -> forallb P (a ++ b) = true.
Proof. intros Ha Hb. rewrite forallb_app. now rewrite Ha, Hb. Qed.

Lemma forallb_replicate {A} (P : A -> bool) (n : nat) (x : A) :
  P x = true -> forallb P (replicate n x) = true.
Proof. intros Hx. induction n; simpl; [reflexivity|]. now rewrite Hx. Qed.

(** [_pad_num_w] and the last step of [_price_to_width]: a number of at
    most [w] digits, padded, has exactly [w] decimal digits. *)
Lemma rjust_number (n w : Z) :
  0 <= n <= 10 ^ w - 1 -> 1 <= w ->
  len (rjust w "0" (str_of_Z n)) = w /\ forallb is_decimal (rjust w "0" (str_of_Z n)) = true.
Proof.
  intros Hn Hw. split.
  - apply len_rjust_fit. now apply len_str_of_Z_le.
  - unfold rjust. apply forallb_app_true; [now apply forallb_replicate | apply str_of_Z_decimal; lia].
Qed.

End digits.

(** ** Decimal arithmetic *)

Section decimal.

Lemma pow10_pos (k : Z) : 0 <= k -> 0 < 10 ^ k.
Proof. intros. apply Z.pow_pos_nonneg; lia. Qed.

Lemma pow10_le (a b : Z) : 0 <= a <= b -> 10 ^ a <= 10 ^ b.
Proof. intros. apply Z.pow_le_mono_r; lia. Qed.

Lemma rhe_bounds (c k : Z) :
  0 <= c -> 0 <= k -> 0 <= round_half_even c k <= c / 10 ^ k + 1.
Proof.
  intros Hc Hk. unfold round_half_even. pose proof (pow10_pos k Hk) as Hp.
  assert (0 <= c / 10 ^ k) by (apply Z.div_pos; lia).
  destruct ((10 ^ k <? 2 * (c mod 10 ^ k)) || ((2 * (c mod 10 ^ k) =? 10 ^ k) && Z.odd (c / 10 ^ k))); lia.
Qed.

Lemma rhe_small (c k : Z) : 0 <= c -> 0 <= k -> 2 * c < 10 ^ k -> round_half_even c k = 0.
Proof.
  intros Hc Hk Hlt. unfold round_half_even.
  rewrite Z.div_small, Z.mod_small by lia.
  destruct (Z.ltb_spec (10 ^ k) (2 * c)); [lia|].
  destruct (Z.eqb_spec (2 * c) (10 ^ k)); [lia|]. reflexivity.
Qed.

Lemma rhe_0 (c : Z) : round_half_even c 0 = c.
Proof.
  unfold round_half_even. change (10 ^ 0) with 1.
  rewrite Z.div_1_r, Z.mod_1_r. reflexivity.
Qed.

Lemma rhe_scale (c k : Z) : 0 <= k -> round_half_even (c * 100) (k + 2) = round_half_even c k.
Proof.
  intros Hk. unfold round_half_even. pose proof (pow10_pos k Hk) as Hp.
  assert (E : 10 ^ (k + 2) = 10 ^ k * 100) by (rewrite Z.pow_add_r by lia; reflexivity).
  rewrite E. rewrite Z.div_mul_cancel_r by lia. rewrite Z.mul_mod_distr_r by lia.
  set (p := 10 ^ k) in *. set (q := c / p). set (r := c mod p).
  replace (p * 100 <? 2 * (r * 100)) with (p <? 2 * r).
  2:{ destruct (Z.ltb_spec p (2 * r)), (Z.ltb_spec (p * 100) (2 * (r * 100))); lia || reflexivity. }
  replace (2 * (r * 100) =? p * 100) with (2 * r =? p).
  2:{ destruct (Z.eqb_spec (2 * r) p), (Z.eqb_spec (2 * (r * 100)) (p * 100)); lia || reflexivity. }
  reflexivity.
Qed.

Lemma rhe_scale1 (c : Z) : round_half_even (c * 100) 1 = c * 10.
Proof.
  unfold round_half_even. change (10 ^ 1) with 10.
  replace (c * 100) with (c * 10 * 10) by lia.
  rewrite Z.div_mul, Z.mod_mul by lia. reflexivity.
Qed.

(** Cents by the context's arithmetic are the exact cents when the
    coefficient is short enough for nothing to be lost. *)
Lemma round_exact_code (c e : Z) :
  0 <= c ->
  (if 0 <=? e then c * 100 * 10 ^ e else round_half_even (c * 100) (- e)) = spec.round_exact c (e + 2).
Proof.
  intros Hc. unfold spec.round_exact.
  destruct (Z.leb_spec 0 e) as [He|He].
  - rewrite (proj2 (Z.leb_le 0 (e + 2))) by lia.
    rewrite Z.pow_add_r by lia. change (10 ^ 2) with 100. lia.
  - destruct (Z.eq_dec e (-1)) as [->|H1].
    + change (- -1) with 1. rewrite rhe_scale1. reflexivity.
    + replace (- e) with ((- (e + 2)) + 2) by lia. rewrite rhe_scale by lia.
      destruct (Z.leb_spec 0 (e + 2)) as [H2|H2]; [|reflexivity].
      assert (e + 2 = 0) as -> by lia. change (- 0) with 0. rewrite rhe_0.
      change (10 ^ 0) with 1. lia.
Qed.

Lemma digits_value_nonneg (s : str) (acc n : Z) :
  0 <= acc -> digits_value acc s = Some n -> 0 <= n.
Proof.
  revert acc. induction s as [|c s IH]; intros acc Hacc; simpl.
  - intros [= <-]. exact Hacc.
  - destruct (is_decimal c) eqn:Hc; [|discriminate].
    apply decimal_range in Hc. apply IH. lia.
Qed.

Lemma parse_unsigned_nonneg (b : bool) (s : str) (neg : bool) (c e : Z) :
  parse_unsigned b s = Some (DFinite neg c e) -> 0 <= c.
Proof.
  unfold parse_unsigned.
  destruct (span_digits s) as [ip r1].
  destruct (match r1 with
            | [] => ([], r1)
            | c0 :: r => if ord c0 =? 46 then span_digits r else ([], r1)
            end) as [fp r2].
  destruct (ip ++ fp) as [|x l] eqn:E.
  - destruct (bool_decide (lower s = txt "inf") || bool_decide (lower s = txt "infinity")); [discriminate|].
    destruct (match lower s with
              | [] => (false, lower s)
              | c0 :: r => if ord c0 =? 115 then (true, r) else (false, lower s)
              end) as [sg l'].
    destruct (bool_decide (take 3 l' = txt "nan") && forallb is_decimal (drop 3 l')); discriminate.
  - destruct (digits_value 0 (x :: l)) as [cv|] eqn:Ed; [|discriminate].
    destruct (parse_exponent r2); [|discriminate].
    intros [= _ <- _]. apply (digits_value_nonneg (x :: l) 0 cv); [lia | exact Ed].
Qed.

Lemma decimal_literal_nonneg (s : str) (neg : bool) (c e : Z) :
  decimal_literal s = Some (DFinite neg c e) -> 0 <= c.
Proof.
  unfold decimal_literal.
  destruct (filter (fun c0 => ord c0 <> 95) (strip s)) as [|x r]; [discriminate|].
  destruct (ord x =? 45); [apply parse_unsigned_nonneg|].
  destruct (ord x =? 43); apply parse_unsigned_nonneg.
Qed.


Lemma dec_fix_in_range (neg : bool) (c2 e : Z) :
  0 < c2 < 10 ^ 28 -> e <= 26 ->
  dec_fix neg c2 e =
    if e <? Etiny then DVal (DFinite neg (round_half_even c2 (Etiny - e)) Etiny)
    else DVal (DFinite neg c2 e).
Proof.
  intros Hc He. unfold dec_fix.
  destruct (Z.eqb_spec c2 0) as [|_]; [lia|].
  assert (Hnd : ndigits c2 <= 28) by (apply ndigits_le; lia).
  unfold Etop, Emax, prec. cbv zeta.
  destruct (Z.ltb_spec (999999 - 28 + 1) (ndigits c2 + e - 28)) as [|_]; [lia|].
  destruct (Z.ltb_spec e Etiny) as [Ht|Ht].
  - assert (Hk : 1 <= Etiny - e) by lia.
    rewrite Z.max_r by lia.
    destruct (Z.ltb_spec e Etiny) as [_|]; [|lia].
    pose proof (rhe_bounds c2 (Etiny - e) ltac:(lia) ltac:(lia)) as Hb.
    assert (Hdiv : c2 / 10 ^ (Etiny - e) <= c2 / 10).
    { apply Z.div_le_compat_l; [lia|]. split; [lia|].
      change 10 with (10 ^ 1) at 1. apply pow10_le. lia. }
    assert (Hdiv10 : c2 / 10 < 10 ^ 27).
    { apply Z.div_lt_upper_bound; [lia|]. change (10 * 10 ^ 27) with (10 ^ 28). lia. }
    set (coeff := round_half_even c2 (Etiny - e)) in *.
    assert (Hcn : ndigits coeff <= 28).
    { apply ndigits_le; [|lia]. change (10 ^ 28) with (10 * 10 ^ 27).
      assert (0 <= c2 / 10) by (apply Z.div_pos; lia).
      clearbody coeff. generalize dependent (10 ^ 27). intros. lia. }
    destruct (Z.ltb_spec 28 (ndigits coeff)) as [|_]; [lia|].
    destruct (Z.ltb_spec (999999 - 28 + 1) Etiny) as [H|_]; [unfold Etiny, Emin, prec in H; lia|].
    reflexivity.
  - destruct (Z.ltb_spec e (Z.max (ndigits c2 + e - 28) Etiny)) as [Hm|_]; [|reflexivity].
    lia.
Qed.

Lemma quantize_scaled (neg : bool) (c e : Z) :
  0 < c -> c * 10 ^ Z.max e 0 < 10 ^ 26 ->
  dec_quantize_1 (DFinite neg (c * 100) e) = DVal (DFinite neg (spec.round_exact c (e + 2)) 0).
Proof.
  intros Hc Hr. unfold dec_quantize_1.
  destruct (Z.eqb_spec (c * 100) 0) as [|_]; [lia|].
  pose proof (pow10_pos (Z.max e 0) ltac:(lia)) as Hp.
  assert (Hc26 : c < 10 ^ 26) by nia.
  assert (He : e < 26).
  { destruct (Z.le_gt_cases 26 e) as [H|H]; [|exact H].
    pose proof (pow10_le 26 (Z.max e 0) ltac:(lia)). nia. }
  assert (Hnd : ndigits (c * 100) + Z.max e 0 <= 28).
  { assert (ndigits (c * 100) <= 28 - Z.max e 0); [|lia].
    apply ndigits_le; [|lia]. split; [lia|].
    assert (E : 10 ^ 28 = 100 * (10 ^ (28 - Z.max e 0 - 2) * 10 ^ Z.max e 0 * 1)).
    { rewrite Z.mul_1_r, <- Z.pow_add_r by lia. replace (28 - Z.max e 0 - 2 + Z.max e 0) with 26 by lia.
      reflexivity. }
    assert (E2 : 10 ^ (28 - Z.max e 0) = 100 * 10 ^ (28 - Z.max e 0 - 2)).
    { change 100 with (10 ^ 2). rewrite <- Z.pow_add_r by lia. f_equal. lia. }
    assert (E3 : 10 ^ 26 = 10 ^ (28 - Z.max e 0 - 2) * 10 ^ Z.max e 0).
    { rewrite <- Z.pow_add_r by lia. f_equal. lia. }
    rewrite E2. pose proof (pow10_pos (28 - Z.max e 0 - 2) ltac:(lia)).
    generalize dependent (10 ^ (28 - Z.max e 0 - 2)). generalize dependent (10 ^ Z.max e 0).
    generalize dependent (10 ^ 26). intros. subst. nia. }
  unfold Emax, prec.
  destruct (Z.ltb_spec 999999 (ndigits (c * 100) + e - 1)) as [|_]; [lia|].
  destruct (Z.ltb_spec 28 (ndigits (c * 100) + e)) as [|_]; [lia|].
  rewrite (round_exact_code c e) by lia.
  assert (Hx : 0 <= spec.round_exact c (e + 2) < 10 ^ 28).
  { rewrite <- (round_exact_code c e) by lia.
    destruct (Z.leb_spec 0 e) as [H0|H0].
    - rewrite Z.max_l in Hr by lia. change (10 ^ 28) with (100 * 10 ^ 26).
      pose proof (pow10_pos e H0). nia.
    - pose proof (rhe_bounds (c * 100) (- e) ltac:(lia) ltac:(lia)) as Hb.
      assert (Hd : c * 100 / 10 ^ (- e) <= c * 100 / 10).
      { apply Z.div_le_compat_l; [lia|]. split; [lia|].
        change 10 with (10 ^ 1) at 1. apply pow10_le. lia. }
      replace (c * 100 / 10) with (c * 10) in Hd
        by (replace (c * 100) with (c * 10 * 10) by lia; now rewrite Z.div_mul by lia).
      change (10 ^ 28) with (100 * 10 ^ 26). lia. }
  assert (Hn : ndigits (spec.round_exact c (e + 2)) <= 28) by (apply ndigits_le; lia).
  destruct (Z.ltb_spec 28 (ndigits (spec.round_exact c (e + 2)))) as [|_]; [lia|].
  reflexivity.
Qed.

Lemma quantize_tiny (neg : bool) (c3 : Z) :
  0 <= c3 < 10 ^ 28 -> dec_quantize_1 (DFinite neg c3 Etiny) = DVal (DFinite neg 0 0).
Proof.
  intros Hc. unfold dec_quantize_1.
  destruct (Z.eqb_spec c3 0) as [|Hne]; [reflexivity|].
  assert (Hnd : ndigits c3 <= 28) by (apply ndigits_le; lia).
  assert (Hsmall : round_half_even c3 (- Etiny) = 0).
  { apply rhe_small; [lia | unfold Etiny, Emin, prec; lia |].
    pose proof (pow10_le 29 (- Etiny) ltac:(unfold Etiny, Emin, prec; lia)) as Hle.
    change (10 ^ 29) with (10 * 10 ^ 28) in Hle.
    generalize dependent (10 ^ (- Etiny)). generalize dependent (10 ^ 28). intros. lia. }
  destruct (Z.ltb_spec Emax (ndigits c3 + Etiny - 1)) as [H|_].
  { unfold Emax, Etiny, Emin, prec in H. lia. }
  destruct (Z.ltb_spec prec (ndigits c3 + Etiny)) as [H|_].
  { unfold Etiny, Emin, prec in H. lia. }
  destruct (Z.leb_spec 0 Etiny) as [H|_].
  { unfold Etiny, Emin, prec in H. lia. }
  rewrite Hsmall. reflexivity.
Qed.

(** The cents computed through the decimal context are the exact
    cents, for a number the constructor takes and that is in range. *)
Lemma decimal_cents_taken (s : str) (neg : bool) (c e : Z) :
  Decimal s = Some (DFinite neg c e) ->
  0 <= c ->
  c * 10 ^ Z.max e 0 < 10 ^ 26 ->
  decimal_cents s =
    CVal (if neg then - spec.round_exact c (e + 2) else spec.round_exact c (e + 2)).
Proof.
  intros HD Hc Hr.
  unfold decimal_cents. rewrite HD. unfold dec_mul_100.
  destruct (Z.eq_dec c 0) as [->|Hne].
  - change (0 * 100) with 0. unfold dec_fix. cbn [Z.eqb]. unfold dec_quantize_1. cbn [Z.eqb].
    assert (E0 : spec.round_exact 0 (e + 2) = 0).
    { unfold spec.round_exact. destruct (Z.leb_spec 0 (e + 2)); [lia|].
      apply rhe_small; [lia | lia |]. pose proof (pow10_pos (- (e + 2)) ltac:(lia)). lia. }
    rewrite E0. now destruct neg.
  - pose proof (pow10_pos (Z.max e 0) ltac:(lia)) as Hp.
    assert (Hc26 : c < 10 ^ 26) by nia.
    assert (He : e < 26).
    { destruct (Z.le_gt_cases 26 e) as [H|H]; [|exact H].
      pose proof (pow10_le 26 (Z.max e 0) ltac:(lia)). nia. }
    assert (Hc2 : 0 < c * 100 < 10 ^ 28) by (change (10 ^ 28) with (100 * 10 ^ 26); lia).
    rewrite (dec_fix_in_range neg (c * 100) e Hc2 ltac:(lia)).
    destruct (Z.ltb_spec e Etiny) as [Ht|Ht].
    + assert (Hc3 : 0 <= round_half_even (c * 100) (Etiny - e) < 10 ^ 28).
      { pose proof (rhe_bounds (c * 100) (Etiny - e) ltac:(lia) ltac:(lia)) as Hb.
        assert (Hdiv : c * 100 / 10 ^ (Etiny - e) <= c * 100 / 10).
        { apply Z.div_le_compat_l; [lia|]. split; [lia|].
          change 10 with (10 ^ 1) at 1. apply pow10_le. lia. }
        replace (c * 100 / 10) with (c * 10) in Hdiv
          by (replace (c * 100) with (c * 10 * 10) by lia; now rewrite Z.div_mul by lia).
        change (10 ^ 28) with (100 * 10 ^ 26). lia. }
      rewrite (quantize_tiny neg _ Hc3).
      assert (E0 : spec.round_exact c (e + 2) = 0).
      { unfold spec.round_exact.
        destruct (Z.leb_spec 0 (e + 2)) as [H|H]; [unfold Etiny, Emin, prec in Ht; lia|].
        apply rhe_small; [lia | lia |].
        pose proof (pow10_le 27 (- (e + 2)) ltac:(unfold Etiny, Emin, prec in Ht; lia)) as Hle.
        change (10 ^ 27) with (10 * 10 ^ 26) in Hle.
        generalize dependent (10 ^ (- (e + 2))). generalize dependent (10 ^ 26).
        intros. lia. }
      rewrite E0. now destruct neg.
    + rewrite (quantize_scaled neg c e ltac:(lia) Hr). reflexivity.
Qed.

(** A number in range that the constructor refuses is one whose cents
    round to 0: those cents are what the caught exception leaves. *)
Lemma decimal_cents_exact (s : str) (neg : bool) (c e : Z) :
  decimal_literal s = Some (DFinite neg c e) ->
  c * 10 ^ Z.max e 0 < 10 ^ 26 ->
  let v := if neg then - spec.round_exact c (e + 2) else spec.round_exact c (e + 2) in
  decimal_cents s = CVal v \/ (decimal_cents s = CInvalid /\ v = 0).
Proof.
  intros HL Hr v. pose proof (decimal_literal_nonneg s neg c e HL) as Hc.
  assert (HD : Decimal s = dec_exact (DFinite neg c e)) by (unfold Decimal; now rewrite HL).
  unfold dec_exact in HD.
  destruct (Z.ltb_spec e MIN_ETINY) as [Hlow|Hlow].
  { right. split; [unfold decimal_cents; now rewrite HD|].
    assert (E0 : spec.round_exact c (e + 2) = 0).
    { unfold spec.round_exact.
      destruct (Z.leb_spec 0 (e + 2)) as [H|H]; [unfold MIN_ETINY in Hlow; lia|].
      rewrite Z.max_r in Hr by (unfold MIN_ETINY in Hlow; lia).
      change (10 ^ 0) with 1 in Hr.
      apply rhe_small; [lia | lia |].
      pose proof (pow10_le 27 (- (e + 2)) ltac:(unfold MIN_ETINY in Hlow; lia)) as Hle.
      change (10 ^ 27) with (10 * 10 ^ 26) in Hle.
      generalize dependent (10 ^ (- (e + 2))). generalize dependent (10 ^ 26).
      intros. lia. }
    unfold v. rewrite E0. now destruct neg. }
  destruct (Z.eqb_spec c 0) as [Hz|Hz].
  - destruct (Z.ltb_spec MAX_EMAX e) as [Hhi|Hhi].
    + right. split; [unfold decimal_cents; now rewrite HD|].
      subst c. unfold v, spec.round_exact.
      rewrite (proj2 (Z.leb_le 0 (e + 2))) by (unfold MAX_EMAX in Hhi; lia).
      now destruct neg.
    + left. now apply decimal_cents_taken.
  - destruct (Z.ltb_spec MAX_EMAX (len (digits_of c) + e - 1)) as [Hhi|Hhi].
    + exfalso. pose proof (pow10_pos (Z.max e 0) ltac:(lia)) as Hp.
      assert (Hc26 : c < 10 ^ 26) by nia.
      assert (He : e < 26).
      { destruct (Z.le_gt_cases 26 e) as [H|H]; [|exact H].
        pose proof (pow10_le 26 (Z.max e 0) ltac:(lia)). nia. }
      pose proof (ndigits_le c 26 ltac:(lia) ltac:(lia)) as Hn. unfold ndigits in Hn.
      unfold MAX_EMAX in Hhi. lia.
    + left. now apply decimal_cents_taken.
Qed.

Lemma len_filter_le {A} (P : A -> Prop) `{!forall x, Decision (P x)} (l : list A) :
  len (filter P l) <= len l.
Proof. unfold len. pose proof (length_filter P l). lia. Qed.

(** Within the digit limit, [int()] reads the literal. *)
Lemma py_int_literal (s : str) : len s <= int_max_str_digits -> py_int s = int_literal s.
Proof.
  intros H. unfold py_int.
  pose proof (len_filter_le (fun c => is_decimal c = true) s).
  destruct (Z.ltb_spec int_max_str_digits (len (filter (fun c => is_decimal c = true) s)));
    [lia | reflexivity].
Qed.

End decimal.

(** ** C5 — price conversion *)

Section price.

Import kretz_adapter.

Lemma price_clamp (cents w : Z) :
  0 < w ->
  let c1 := if cents <? 0 then 0 else cents in
  let c2 := if 10 ^ w - 1 <? c1 then 10 ^ w - 1 else c1 in
  c2 = Z.min (10 ^ w - 1) (Z.max 0 cents) /\ 0 <= c2 <= 10 ^ w - 1.
Proof.
  intros Hw c1 c2. subst c1 c2. pose proof (pow10_pos w ltac:(lia)).
  destruct (Z.ltb_spec cents 0).
  - destruct (Z.ltb_spec (10 ^ w - 1) 0); lia.
  - destruct (Z.ltb_spec (10 ^ w - 1) cents); lia.
Qed.

(** The [try] block yields a number or lets the decimal Overflow through. *)
Lemma price_cents_outcome (s : str) :
  (exists n, _price_to_width_cents s = Ok n) \/ _price_to_width_cents s = Raise DecimalOverflow.
Proof.
  unfold _price_to_width_cents.
  destruct (negb (bool_decide (s = [])) && negb (isdigit s)).
  - destruct (decimal_cents s); eauto.
  - destruct (bool_decide (s = [])); eauto.
Qed.

(** For a text of digits within the limit, or a price in range, it
    yields the cents the specification describes. *)
Lemma price_cents_code (s : str) :
  spec.price_known s ->
  exists n, _price_to_width_cents s = Ok n /\ Z.max 0 n = Z.max 0 (spec.price_cents s).
Proof.
  intros Hr. unfold _price_to_width_cents, spec.price_cents, spec.price_known in *.
  destruct (bool_decide (s = [])) eqn:Es; simpl; [eauto|].
  destruct (isdigit s) eqn:Ed; simpl.
  { rewrite (py_int_literal s Hr). eauto. }
  unfold spec.price_in_range in Hr.
  destruct (decimal_literal s) as [[neg c e| |]|] eqn:HL.
  - destruct (decimal_cents_exact s neg c e HL Hr) as [->|[-> E]]; cbv zeta in *; eauto.
    exists 0. split; [reflexivity|]. now rewrite E.
  - unfold decimal_cents, Decimal. rewrite HL. simpl. eauto.
  - unfold decimal_cents, Decimal. rewrite HL. destruct signaling; simpl; eauto.
  - unfold decimal_cents, Decimal. rewrite HL. eauto.
Qed.

Lemma price_to_width_code (v : pyval) (w n : Z) :
  0 < w ->
  _price_to_width_cents (replace_char "," "." (strip (py_str v))) = Ok n ->
  _price_to_width v w = Ok (rjust w "0" (str_of_Z (Z.min (10 ^ w - 1) (Z.max 0 n)))) /\
  0 <= Z.min (10 ^ w - 1) (Z.max 0 n) <= 10 ^ w - 1.
Proof.
  intros Hw Hn. unfold _price_to_width.
  destruct (Z.leb_spec w 0); [lia|]. rewrite Hn. cbn [bind].
  destruct (price_clamp n w Hw) as [E Hb]. cbv zeta in E, Hb. rewrite E in *. auto.
Qed.

Lemma price_to_width_returns (v : pyval) (w : Z) (r : str) :
  0 < w -> _price_to_width v w = Ok r -> len r = w /\ forallb is_decimal r = true.
Proof.
  intros Hw Hr.
  destruct (price_cents_outcome (replace_char "," "." (strip (py_str v)))) as [[n Hn]|Hov].
  - destruct (price_to_width_code v w n Hw Hn) as [E Hb]. rewrite E in Hr. injection Hr as <-.
    apply rjust_number; lia.
  - unfold _price_to_width in Hr.
    destruct (Z.leb_spec w 0); [lia|]. rewrite Hov in Hr. discriminate.
Qed.

Lemma int_body_decimal (s : str) (acc : Z) (b : bool) :
  s <> [] -> forallb is_decimal s = true -> int_body s acc b = digits_value acc s.
Proof.
  revert acc b. induction s as [|c s IH]; intros acc b Hne Hd; [congruence|].
  simpl in Hd. apply andb_true_iff in Hd as [Hc Hs]. simpl. rewrite Hc.
  destruct s as [|c' s']; [reflexivity|]. now apply IH.
Qed.

Lemma int_literal_digits (s : str) :
  s <> [] -> forallb is_decimal s = true -> int_literal s = digits_value 0 s.
Proof.
  intros Hne Hd. unfold int_literal. rewrite (strip_decimal s Hd).
  destruct s as [|c r]; [congruence|].
  assert (Hc : 48 <= ord c <= 57).
  { simpl in Hd. apply andb_true_iff in Hd as [Hc _]. now apply decimal_range. }
  destruct (Z.eqb_spec (ord c) 45); [lia|]. destruct (Z.eqb_spec (ord c) 43); [lia|].
  now apply int_body_decimal.
Qed.

Lemma isdigit_not_space (c : ascii) : char_isdigit c = true -> char_isspace c = false.
Proof.
  unfold char_isdigit, is_decimal, char_isspace. cbv zeta. intros H.
  apply orb_true_iff in H as [H|H%Z.eqb_eq].
  2:{ rewrite H. reflexivity. }
  apply orb_true_iff in H as [H|H%Z.eqb_eq].
  2:{ rewrite H. reflexivity. }
  apply orb_true_iff in H as [H|H%Z.eqb_eq].
  2:{ rewrite H. reflexivity. }
  apply andb_true_iff in H as [H1%Z.leb_le H2%Z.leb_le].
  repeat match goal with
         | |- context [?a <=? ?b] => destruct (Z.leb_spec a b); try lia
         | |- context [?a =? ?b] => destruct (Z.eqb_spec a b); try lia
         end; reflexivity.
Qed.

Lemma strip_isdigit (s : str) : forallb char_isdigit s = true -> strip s = s.
Proof.
  intros H.
  assert (Hl : forall t, forallb char_isdigit t = true -> lstrip t = t).
  { intros [|c t]; [reflexivity|]. simpl. intros [Hc _]%andb_true_iff.
    now rewrite (isdigit_not_space c Hc). }
  unfold strip, rstrip. rewrite (Hl s H).
  rewrite Hl by now apply forallb_rev. apply rev_involutive.
Qed.

Lemma int_body_not_decimal (s : str) (acc : Z) (b : bool) :
  forallb char_isdigit s = true -> forallb is_decimal s = false -> int_body s acc b = None.
Proof.
  revert acc b. induction s as [|c s IH]; intros acc b Hd Hn; [discriminate Hn|].
  simpl in Hd, Hn. apply andb_true_iff in Hd as [Hc Hs]. simpl.
  destruct (is_decimal c) eqn:Ec.
  - apply IH; [exact Hs | exact Hn].
  - unfold char_isdigit in Hc. rewrite Ec in Hc. cbn [orb] in Hc.
    destruct (Z.eqb_spec (ord c) 95) as [E|_]; [rewrite E in Hc; discriminate Hc|].
    reflexivity.
Qed.

(** [int()] does not read a superscript digit. *)
Lemma int_literal_not_decimal (s : str) :
  isdigit s = true -> forallb is_decimal s = false -> int_literal s = None.
Proof.
  intros Hd Hn. apply isdigit_forallb in Hd. unfold int_literal. rewrite (strip_isdigit s Hd).
  destruct s as [|c r]; [reflexivity|].
  assert (Hc : char_isdigit c = true) by (simpl in Hd; now apply andb_true_iff in Hd).
  pose proof (isdigit_not_sign c Hc) as Hs. apply orb_false_iff in Hs as [H43 H45].
  rewrite H43, H45. now apply int_body_not_decimal.
Qed.

Lemma digits_value_some (s : str) (acc : Z) :
  forallb is_decimal s = true -> exists n, digits_value acc s = Some n.
Proof.
  revert acc. induction s as [|c s IH]; intros acc Hd; simpl; [eauto|].
  simpl in Hd. apply andb_true_iff in Hd as [Hc Hs]. rewrite Hc. now apply IH.
Qed.

Lemma digits_value_default (s : str) :
  forallb is_decimal s = true -> Some (default 0 (digits_value 0 s)) = digits_value 0 s.
Proof. intros Hd. destruct (digits_value_some s 0 Hd) as (n & ->). reflexivity. Qed.

End price.

(** C5, as stated, fails. The same number written "19" and "19.0" gives
    different fields at width 7: a text of digits only is taken as the
    cents and is not multiplied by 100. *)
Lemma C5_counterexample :
  kretz_adapter._price_to_width (PStr (txt "19")) 7 = Ok (txt "0000019") /\
  kretz_adapter._price_to_width (PStr (txt "19.0")) 7 = Ok (txt "0001900") /\
  kretz_adapter._price_to_width (PStr (txt "19")) 7 <>
    kretz_adapter._price_to_width (PStr (txt "19.0")) 7.
Proof. repeat split; vm_compute; (reflexivity || discriminate). Qed.

(** C5, amended. For every value and positive width w, with s the
    text of the value, stripped and with ',' read as '.':
    - whenever [_price_to_width] returns, the result is exactly w
      decimal digits;
    - when s is a text of digits only, at most 4300 of them, or is any
      other text that is not a finite number or is a number written
      with at most 26 significant digits, the call returns the cents,
      not below 0, not above 10^w - 1, left-padded with '0' to w; the
      cents are 0 for a blank, the number itself for a text of decimal
      digits only, 0 for a text that is not a finite number, and
      otherwise the decimal number times 100, rounded half to even; in
      particular cents above 10^w - 1 give 10^w - 1;
    - at width 7, "19.5" maps to "0001950", "19" to "0000019", "abc"
      and "-3.5" to "0000000" and "123456.78" to "9999999". *)
Theorem C5_price_to_width_amended (v : pyval) (w : Z) :
  0 < w ->
  let s := replace_char "," "." (strip (py_str v)) in
  (forall r, kretz_adapter._price_to_width v w = Ok r ->
     len r = w /\ forallb is_decimal r = true) /\
  (spec.price_known s ->
     kretz_adapter._price_to_width v w =
       Ok (rjust w "0" (str_of_Z (Z.min (10 ^ w - 1) (Z.max 0 (spec.price_cents s)))))) /\
  (s = [] -> spec.price_cents s = 0) /\
  (s <> [] -> forallb is_decimal s = true -> digits_value 0 s = Some (spec.price_cents s)) /\
  (isdigit s = true -> forallb is_decimal s = false -> spec.price_cents s = 0) /\
  (isdigit s = false ->
     (forall neg c e, decimal_literal s <> Some (DFinite neg c e)) -> spec.price_cents s = 0) /\
  (s <> [] -> isdigit s = false ->
     forall neg c e, decimal_literal s = Some (DFinite neg c e) ->
       spec.price_cents s =
         if neg then - spec.round_exact c (e + 2) else spec.round_exact c (e + 2)) /\
  (spec.price_known s ->
     10 ^ w - 1 < spec.price_cents s ->
     kretz_adapter._price_to_width v w = Ok (rjust w "0" (str_of_Z (10 ^ w - 1)))) /\
  kretz_adapter._price_to_width (PStr (txt "19.5")) 7 = Ok (txt "0001950") /\
  kretz_adapter._price_to_width (PStr (txt "19")) 7 = Ok (txt "0000019") /\
  kretz_adapter._price_to_width (PStr (txt "abc")) 7 = Ok (txt "0000000") /\
  kretz_adapter._price_to_width (PStr (txt "-3.5")) 7 = Ok (txt "0000000") /\
  kretz_adapter._price_to_width (PStr (txt "123456.78")) 7 = Ok (txt "9999999").
Proof.
  intros Hw s.
  assert (Hcode : forall n, kretz_adapter._price_to_width_cents s = Ok n ->
            kretz_adapter._price_to_width v w =
              Ok (rjust w "0" (str_of_Z (Z.min (10 ^ w - 1) (Z.max 0 n)))) /\
            0 <= Z.min (10 ^ w - 1) (Z.max 0 n) <= 10 ^ w - 1).
  { intros n Hn. now apply price_to_width_code. }
  assert (Hspec : spec.price_known s ->
            kretz_adapter._price_to_width v w =
              Ok (rjust w "0" (str_of_Z (Z.min (10 ^ w - 1) (Z.max 0 (spec.price_cents s)))))).
  { intros Hr. destruct (price_cents_code s Hr) as (n & Hn & Hmax).
    destruct (Hcode n Hn) as [E _]. rewrite E. now rewrite Hmax. }
  split; [|split; [|split; [|split; [|split; [|split; [|split; [|split]]]]]]].
  - intros r Hr. now apply (price_to_width_returns v w).
  - exact Hspec.
  - intros E. unfold spec.price_cents. now rewrite bool_decide_eq_true_2.
  - intros Hne Hd. unfold spec.price_cents.
    rewrite bool_decide_eq_false_2 by exact Hne.
    rewrite (isdigit_decimal s Hne Hd).
    now rewrite (int_literal_digits s Hne Hd), (digits_value_default s Hd).
  - intros Hd Hn. unfold spec.price_cents. rewrite Hd.
    rewrite (int_literal_not_decimal s Hd Hn). now destruct (bool_decide (s = [])).
  - intros Hd Hnf. unfold spec.price_cents. rewrite Hd.
    destruct (bool_decide (s = [])); [reflexivity|].
    destruct (decimal_literal s) as [[neg c e| |]|] eqn:E; try reflexivity.
    destruct (Hnf neg c e eq_refl).
  - intros Hne Hd neg c e E. unfold spec.price_cents.
    rewrite bool_decide_eq_false_2 by exact Hne. now rewrite Hd, E.
  - intros Hr Hbig. rewrite (Hspec Hr). do 3 f_equal. lia.
  - repeat split; vm_compute; reflexivity.
Qed.

Lemma C5_price_to_width_amended_witness :
  kretz_adapter._price_to_width (PStr (txt "0,125")) 7 = Ok (txt "0000012").
Proof.
  pose proof (C5_price_to_width_amended (PStr (txt "0,125")) 7 ltac:(lia)) as H.
  cbv zeta in H. destruct H as (_ & H & _).
  rewrite H; [vm_compute; reflexivity|].
  vm_compute. reflexivity.
Defined.

(** ** C4 — the 135-character PLU record *)

Section record.

Import kretz_adapter.

Lemma len_zfill (w : Z) (s : str) : len (zfill w s) = Z.max w (len s).
Proof.
  unfold zfill. destruct s as [|c r]; [apply len_rjust|].
  destruct ((ord c =? 43) || (ord c =? 45)); [|apply len_rjust].
  rewrite len_cons, len_app, len_replicate, len_cons. pose proof (len_nonneg r). lia.
Qed.

Lemma len_pad_num (v : pyval) (n : Z) : 0 < n -> len (_pad_num v n) = n.
Proof. intros H. unfold _pad_num. now apply len_rjust_suffix. Qed.

Lemma len_pad_num_w (n w : Z) : 0 <= n <= 9 -> 1 <= w -> len (_pad_num_w n w) = w.
Proof.
  intros Hn Hw. unfold _pad_num_w. destruct (Z.ltb_spec 0 w); [|lia].
  apply rjust_number; [|lia]. split; [lia|].
  assert (10 ^ 1 <= 10 ^ w) by (apply pow10_le; lia). change (10 ^ 1) with 10 in *. lia.
Qed.

Lemma len_pad_txt_w (s : pyval) (w : Z) (r : str) : 0 < w -> _pad_txt_w s w = Ok r -> len r = w.
Proof.
  intros Hw. unfold _pad_txt_w. destruct (Z.ltb_spec 0 w); [|lia].
  destruct (por s (PStr [])); try discriminate. intros [= <-].
  rewrite len_ljust, len_slice_to by lia. lia.
Qed.


Lemma len_price (v : pyval) (w : Z) (r : str) : 0 < w -> _price_to_width v w = Ok r -> len r = w.
Proof.
  intros Hw Hr. now destruct (price_to_width_returns v w r Hw Hr).
Qed.

Lemma len_coerce_plu6 (it : dict) (p : str) : _coerce_plu6 it = Some p -> len p = 6.
Proof.
  unfold _coerce_plu6.
  set (cref := strip (py_str (por (_ci it [txt "CREF"]) (PStr [])))).
  set (ccb := strip (py_str (por (_ci it [txt "CCODEBAR"]) (PStr [])))).
  destruct ((len cref =? 4) && isdigit cref) eqn:E1.
  - apply andb_true_iff in E1 as [E1%Z.eqb_eq _].
    destruct (bool_decide (cref = [])); [discriminate|]. intros [= <-].
    rewrite len_zfill. lia.
  - destruct ((len (take 6 ccb) =? 6) && forallb is_decimal (take 6 ccb)) eqn:E2; [|discriminate].
    apply andb_true_iff in E2 as [E2%Z.eqb_eq _].
    destruct (bool_decide (slice 2 6 ccb = [])); [discriminate|]. intros [= <-].
    rewrite len_zfill, len_slice; try lia.
    unfold len in *. rewrite length_take in E2. lia.
Qed.

Lemma len_coerce_dep3 (it : dict) (d : str) : _coerce_dep3 it = Some d -> len d = 3.
Proof.
  unfold _coerce_dep3.
  destruct (bool_decide (_ = [])); [discriminate|].
  destruct (py_int _) as [n|]; [|discriminate].
  destruct (n <=? 0); [discriminate|]. intros [= <-]. now apply len_pad_num.
Qed.

Lemma model_values :
  model 3 = 3 /\ model 4 = 26 /\ model 5 = 26 /\ model 6 = 5 /\ model 7 = 1 /\ model 8 = 7 /\
  model 9 = 6 /\ model 10 = 6 /\ model 11 = 6 /\ model 12 = 6 /\ model 13 = 6 /\ model 14 = 5 /\
  model 15 = 5 /\ model 16 = 2 /\ model 17 = 4 /\ model 18 = 4 /\ model 19 = 4 /\ model 22 = 4 /\
  MODEL_2005_TOTAL = 135.
Proof. repeat split; reflexivity. Qed.

(** The record the builder returns is 135 characters long when the
    family number takes at most three characters. *)
Lemma build_len (fl : str -> float_cents) (it : dict) (fam_def : pyval) (dec_prec : Z) (datos : str) :
  let fam_txt := strip (py_str fam_def) in
  let fam_num := default 0 (py_int (if bool_decide (fam_txt = []) then txt "0" else fam_txt)) in
  _build_datos_2005_modelo fl it fam_def dec_prec = Ok (Some datos) ->
  len datos = 132 + Z.max 3 (len (str_of_Z fam_num)).
Proof.
  intros fam_txt fam_num. unfold _build_datos_2005_modelo. fold fam_txt. fold fam_num.
  destruct model_values as (M3 & M4 & M5 & M6 & M7 & M8 & M9 & M10 & M11 & M12 & M13 & M14 &
                            M15 & M16 & M17 & M18 & M19 & M22 & _).
  rewrite M3, M4, M5, M6, M7, M8, M9, M10, M11, M12, M13, M14, M15, M16, M17, M18, M19, M22.
  destruct (_coerce_plu6 it) as [plu6|] eqn:Hplu; [|discriminate].
  destruct (_coerce_dep3 it) as [dep|] eqn:Hdep; [|discriminate].
  destruct (_pad_txt_w _ 26) as [nom|] eqn:Hnom; [|discriminate]. cbn [bind].
  destruct (_pad_txt_w (PStr []) 26) as [desc|] eqn:Hdesc; [|discriminate]. cbn [bind].
  destruct (_price_to_width _ 6) as [precio|] eqn:Hprecio; [|discriminate]. cbn [bind].
  destruct (_imp_from_ctipoiva fl _) as [imp1|] eqn:Himp; [|discriminate]. cbn [bind].
  intros H.
  apply (f_equal (fun r => match r with Ok (Some d) => len d | _ => 0 end)) in H.
  cbv beta iota in H. rewrite <- H. clear H.
  apply len_coerce_plu6 in Hplu. apply len_coerce_dep3 in Hdep.
  apply len_pad_txt_w in Hnom; [|lia]. apply len_pad_txt_w in Hdesc; [|lia].
  apply len_price in Hprecio; [|lia].
  assert (Hplu4 : len (slice_from (-4) plu6) = 4) by (rewrite (len_slice_from_neg 4) by lia; lia).
  assert (Htipo : forall t, len (ljust 1 " " (slice_to 1 t)) = 1).
  { intros t. rewrite len_ljust, len_slice_to by lia. lia. }
  assert (Hfam : len (_pad_num_w fam_num 3) = Z.max 3 (len (str_of_Z fam_num))).
  { unfold _pad_num_w. cbn [Z.ltb Z.compare]. apply len_rjust. }
  assert (Hd : len (_pad_num_w (Z.max 0 (Z.min 2 dec_prec)) 4) = 4) by (apply len_pad_num_w; lia).
  repeat rewrite len_app.
  rewrite Hplu4. change (len (txt "0") + 4 =? 5) with true. cbv iota.
  rewrite len_app, Hplu4.
  rewrite Hplu, Hdep, Hfam, Hnom, Hdesc, Htipo, Hprecio, Hd.
  rewrite (len_rjust_suffix 6) by lia.
  rewrite !len_pad_num_w by lia. change (len (txt "0")) with 1. lia.
Qed.


Lemma mk_info_line_parts (eq : EquipoDef) (cmd datos : str) :
  len cmd = 4 ->
  line_cmd (_mk_info_line eq cmd datos) = cmd /\ line_datos (_mk_info_line eq cmd datos) = datos.
Proof.
  intros Hc. unfold _mk_info_line.
  pose proof (len_pad_num (PInt (id_equipo eq)) 2 ltac:(lia)) as Hid.
  destruct (_pad_num (PInt (id_equipo eq)) 2) as [|a [|b [|? ?]]]; try discriminate Hid.
  2:{ unfold len in Hid. simpl in Hid. lia. }
  destruct cmd as [|c1 [|c2 [|c3 [|c4 [|? ?]]]]]; try discriminate Hc.
  2:{ unfold len in Hc. simpl in Hc. lia. }
  split; reflexivity.
Qed.

Lemma record_ok_plu (eq : EquipoDef) (datos : str) :
  _valid_2005_data datos = true -> spec.record_ok (_mk_info_line eq CMD_ALTA_PLU datos).
Proof.
  intros Hv _. destruct (mk_info_line_parts eq CMD_ALTA_PLU datos eq_refl) as [_ ->].
  unfold _valid_2005_data in Hv. apply Z.eqb_eq in Hv. exact Hv.
Qed.

Lemma record_ok_depto (eq : EquipoDef) (datos : str) :
  spec.record_ok (_mk_info_line eq CMD_ALTA_DEPTO datos).
Proof.
  intros Hc. destruct (mk_info_line_parts eq CMD_ALTA_DEPTO datos eq_refl) as [E _].
  rewrite E in Hc. discriminate Hc.
Qed.

Lemma progress_sent (op : bool) (ev : progress_event) (w : world) :
  exists w', progress op ev w = (w', Ok tt) /\ sent w' = sent w.
Proof. unfold progress. destruct op; eauto. Qed.

(** The PLU loops only ever add lines that carry a 135-character
    record, and send nothing themselves. *)
Lemma enviar_plus_loop_ok (fl : str -> float_cents) (eq : EquipoDef) (fam : pyval) (op : bool)
    (items : list dict) (lines : list str) (w w' : world) (r : result (list str)) :
  Forall spec.record_ok lines ->
  enviar_plus_loop fl eq items fam op lines w = (w', r) ->
  sent w' = sent w /\ forall out, r = Ok out -> Forall spec.record_ok out.
Proof.
  revert lines w. induction items as [|it rest IH]; intros lines w Hl.
  - intros [= <- <-]. split; [reflexivity|]. now intros out [= <-].
  - cbn [enviar_plus_loop]. unfold mbind at 1, lift.
    destruct (_build_datos_2005_modelo fl it fam 1) as [[datos|]|e].
    + destruct (bool_decide (datos = [])).
      { unfold mbind. destruct (progress_sent op (ev_skip (nombre eq) PluDepInvalido) w)
          as (w1 & -> & <-). now apply IH. }
      destruct (_valid_2005_data datos) eqn:Hv; cbn [negb].
      * apply IH. apply Forall_app. split; [exact Hl|].
        constructor; [now apply record_ok_plu | constructor].
      * unfold mbind. destruct (progress_sent op (ev_skip (nombre eq) (LenInvalida (len datos))) w)
          as (w1 & -> & <-). now apply IH.
    + unfold mbind. destruct (progress_sent op (ev_skip (nombre eq) PluDepInvalido) w)
        as (w1 & -> & <-). now apply IH.
    + intros [= <- <-]. split; [reflexivity | discriminate].
Qed.

Lemma articulos_loop_ok (fl : str -> float_cents) (eq : EquipoDef) (fam : pyval) (op : bool)
    (items : list dict) (lines : list str) (w w' : world) (r : result (list str)) :
  Forall spec.record_ok lines ->
  articulos_loop fl eq items fam op lines w = (w', r) ->
  sent w' = sent w /\ forall out, r = Ok out -> Forall spec.record_ok out.
Proof.
  revert lines w. induction items as [|it rest IH]; intros lines w Hl.
  - intros [= <- <-]. split; [reflexivity|]. now intros out [= <-].
  - cbn [articulos_loop]. unfold mbind at 1, lift.
    destruct (_build_datos_2005_modelo fl it fam 1) as [[datos|]|e].
    + destruct (bool_decide (datos = [])).
      { unfold mbind. destruct (progress_sent op (ev_skip (nombre eq) PluDepInvalido) w)
          as (w1 & -> & <-). now apply IH. }
      destruct (_valid_2005_data datos) eqn:Hv; cbn [negb].
      * unfold mbind.
        destruct (progress_sent op (ev_trace_2005 (nombre eq) datos) w) as (w1 & -> & <-).
        destruct (progress_sent op
                    (ev_trace_campo22 (nombre eq) (slice start_22 (start_22 + model 22) datos)) w1)
          as (w2 & -> & <-).
        apply IH. apply Forall_app. split; [exact Hl|].
        constructor; [now apply record_ok_plu | constructor].
      * unfold mbind. destruct (progress_sent op (ev_skip (nombre eq) (LenInvalida (len datos))) w)
          as (w1 & -> & <-). now apply IH.
    + unfold mbind. destruct (progress_sent op (ev_skip (nombre eq) PluDepInvalido) w)
        as (w1 & -> & <-). now apply IH.
    + intros [= <- <-]. split; [reflexivity | discriminate].
Qed.

Lemma deptos_loop_ok (eq : EquipoDef) (deptos : list depto_item) (lines out : list str) :
  Forall spec.record_ok lines -> deptos_loop eq deptos lines = Ok out -> Forall spec.record_ok out.
Proof.
  revert lines. induction deptos as [|d rest IH]; intros lines Hl; cbn [deptos_loop].
  - now intros [= <-].
  - unfold depto_line.
    destruct (_pad_txt _ 16) as [n|]; cbn [bind]; [|discriminate].
    apply IH. apply Forall_app. split; [exact Hl|].
    constructor; [apply record_ok_depto | constructor].
Qed.

Lemma batches_ok_snoc (w : world) (eq : EquipoDef) (lines : list str) :
  spec.batches_ok w -> Forall spec.record_ok lines -> spec.batches_ok (_send eq lines w).1.
Proof.
  intros Hw Hl. unfold spec.batches_ok, _send.
  destruct (io w) as [|[|e|e] rest]; cbn [fst sent]; try exact Hw;
    (apply Forall_app; split; [exact Hw|]; constructor; [exact Hl | constructor]).
Qed.

Lemma enviar_plus_ok (fl : str -> float_cents) (eq : EquipoDef) (items : list dict) (fam : pyval)
    (op : bool) (w : world) :
  spec.batches_ok w -> spec.batches_ok (enviar_plus fl eq items fam op w).1.
Proof.
  intros Hw. unfold enviar_plus, mbind.
  destruct (enviar_plus_loop fl eq items fam op [] w) as [w1 r] eqn:E.
  destruct (enviar_plus_loop_ok fl eq fam op items [] w w1 r ltac:(constructor) E) as [Hs Ho].
  destruct r as [out|e]; cbn [fst snd] in *.
  - specialize (Ho out eq_refl). destruct out as [|l out].
    + destruct (progress_sent op (ev_info (nombre eq) SinPluValidos) w1) as (w2 & -> & E2).
      unfold spec.batches_ok in *. cbn [fst]. now rewrite E2, Hs.
    + apply batches_ok_snoc; [|exact Ho]. unfold spec.batches_ok in *. now rewrite Hs.
  - unfold spec.batches_ok in *. now rewrite Hs.
Qed.

Lemma enviar_dptos_y_articulos_ok (fl : str -> float_cents) (eq : EquipoDef)
    (deptos : list depto_item) (articulos : list dict) (fam : pyval) (op : bool) (w : world) :
  spec.batches_ok w -> spec.batches_ok (enviar_dptos_y_articulos fl eq deptos articulos fam op w).1.
Proof.
  intros Hw. unfold enviar_dptos_y_articulos, mbind at 1, lift.
  destruct (deptos_loop eq deptos []) as [dl|e] eqn:Hd; [|exact Hw].
  pose proof (deptos_loop_ok eq deptos [] dl ltac:(constructor) Hd) as Hdl.
  unfold mbind.
  destruct (articulos_loop fl eq articulos fam op dl w) as [w1 r] eqn:E.
  destruct (articulos_loop_ok fl eq fam op articulos dl w w1 r Hdl E) as [Hs Ho].
  destruct r as [out|e]; cbn [fst snd] in *.
  - apply batches_ok_snoc; [|now apply Ho]. unfold spec.batches_ok in *. now rewrite Hs.
  - unfold spec.batches_ok in *. now rewrite Hs.
Qed.

End record.

(** C4. For every article item and every family default whose number
    takes at most three characters, a record returned by
    [_build_datos_2005_modelo] is exactly 135 characters long. Whatever
    the family default, [enviar_plus] and [enviar_dptos_y_articulos]
    hand the driver only batches whose 2005 lines carry 135-character
    records; an item whose record has another length adds no line and
    is reported as skipped for its length. A 30-character name is cut
    to its 26-character field and the record is 135 long. *)
Theorem C4_record_135
    (fl : str -> float_cents) (it : kretz_adapter.dict) (fam_def : pyval) (dec_prec : Z) :
  let fam_txt := strip (py_str fam_def) in
  let fam_num := default 0 (py_int (if bool_decide (fam_txt = []) then txt "0" else fam_txt)) in
  (len (str_of_Z fam_num) <= 3 ->
     forall datos,
       kretz_adapter._build_datos_2005_modelo fl it fam_def dec_prec = Ok (Some datos) ->
       len datos = 135) /\
  (forall eq items op w,
     spec.batches_ok w ->
     spec.batches_ok (kretz_adapter.enviar_plus fl eq items fam_def op w).1) /\
  (forall eq deptos articulos op w,
     spec.batches_ok w ->
     spec.batches_ok (kretz_adapter.enviar_dptos_y_articulos fl eq deptos articulos fam_def op w).1) /\
  (forall datos eq rest lines w,
     kretz_adapter._build_datos_2005_modelo fl it fam_def 1 = Ok (Some datos) ->
     len datos <> 135 ->
     let reported :=
       {| kretz_adapter.sent := kretz_adapter.sent w;
          kretz_adapter.events :=
            kretz_adapter.events w ++
            [kretz_adapter.ev_skip (kretz_adapter.nombre eq)
               (kretz_adapter.LenInvalida (len datos))];
          kretz_adapter.io := kretz_adapter.io w |} in
     kretz_adapter.enviar_plus_loop fl eq (it :: rest) fam_def true lines w =
       kretz_adapter.enviar_plus_loop fl eq rest fam_def true lines reported /\
     kretz_adapter.articulos_loop fl eq (it :: rest) fam_def true lines w =
       kretz_adapter.articulos_loop fl eq rest fam_def true lines reported) /\
  (let it30 := [(txt "CREF", PStr (txt "1017")); (txt "CGRPCONTA", PStr (txt "005"));
                (txt "CDETALLE", PStr (txt "ABCDEFGHIJKLMNOPQRSTUVWXYZ0123"));
                (txt "NPVP1", PNum (txt "19.5"))] in
   exists datos,
     kretz_adapter._build_datos_2005_modelo spec.float_x100_whole it30 (PInt 0) 1 = Ok (Some datos) /\
     len datos = 135 /\
     slice 12 38 datos = txt "ABCDEFGHIJKLMNOPQRSTUVWXYZ").
Proof.
  intros fam_txt fam_num.
  split; [|split; [|split; [|split]]].
  - intros Hfam datos Hb. pose proof (build_len fl it fam_def dec_prec datos Hb) as H.
    cbv zeta in H. fold fam_txt in H. fold fam_num in H. lia.
  - intros. now apply enviar_plus_ok.
  - intros. now apply enviar_dptos_y_articulos_ok.
  - intros datos eq rest lines w Hb Hlen reported.
    pose proof (build_len fl it fam_def 1 datos Hb) as Hl. cbv zeta in Hl.
    assert (Hne : datos <> []).
    { intros ->. change (len (@nil ascii)) with 0 in Hl. lia. }
    assert (Hv : kretz_adapter._valid_2005_data datos = false).
    { unfold kretz_adapter._valid_2005_data. apply Z.eqb_neq. exact Hlen. }
    split; cbn [kretz_adapter.enviar_plus_loop kretz_adapter.articulos_loop];
      unfold kretz_adapter.mbind at 1, kretz_adapter.lift; rewrite Hb;
      rewrite (bool_decide_eq_false_2 _ Hne), Hv; reflexivity.
  - eexists. split; [vm_compute; reflexivity|]. split; vm_compute; reflexivity.
Qed.

Lemma C4_record_135_witness :
  exists datos,
    kretz_adapter._build_datos_2005_modelo spec.float_x100_whole
      [(txt "CREF", PStr (txt "1017")); (txt "CGRPCONTA", PStr (txt "005"))] (PInt 7) 1
    = Ok (Some datos) /\
    len datos = 135.
Proof.
  pose proof (C4_record_135 spec.float_x100_whole
                [(txt "CREF", PStr (txt "1017")); (txt "CGRPCONTA", PStr (txt "005"))]
                (PInt 7) 1) as H.
  cbv zeta in H. destruct H as (H & _).
  assert (E : exists datos,
            kretz_adapter._build_datos_2005_modelo spec.float_x100_whole
              [(txt "CREF", PStr (txt "1017")); (txt "CGRPCONTA", PStr (txt "005"))] (PInt 7) 1
            = Ok (Some datos)) by (vm_compute; eauto).
  destruct E as (datos & E). exists datos. split; [exact E|].
  apply H; [vm_compute; discriminate | exact E].
Defined.

(** ** C6 — the combined send *)

Section combined.

Import kretz_adapter.

Lemma articulos_loop_lines (fl : str -> float_cents) (eq : EquipoDef) (fam : pyval) (op : bool)
    (items : list dict) (lines : list str) (w w' : world) (out : list str) :
  articulos_loop fl eq items fam op lines w = (w', Ok out) ->
  exists pl, out = lines ++ pl /\ Forall (fun l => line_cmd l = CMD_ALTA_PLU) pl.
Proof.
  revert lines w. induction items as [|it rest IH]; intros lines w.
  - intros [= <- <-]. exists []. split; [now rewrite app_nil_r | constructor].
  - cbn [articulos_loop]. unfold mbind at 1, lift.
    destruct (_build_datos_2005_modelo fl it fam 1) as [[datos|]|e].
    + destruct (bool_decide (datos = [])).
      { unfold mbind. destruct (progress_sent op (ev_skip (nombre eq) PluDepInvalido) w)
          as (w1 & -> & _). apply IH. }
      destruct (_valid_2005_data datos) eqn:Hv; cbn [negb].
      * unfold mbind.
        destruct (progress_sent op (ev_trace_2005 (nombre eq) datos) w) as (w1 & -> & _).
        destruct (progress_sent op
                    (ev_trace_campo22 (nombre eq) (slice start_22 (start_22 + model 22) datos)) w1)
          as (w2 & -> & _).
        intros H. destruct (IH _ _ H) as (pl & -> & Hpl).
        exists (_mk_info_line eq CMD_ALTA_PLU datos :: pl). split; [now rewrite <- app_assoc|].
        constructor; [|exact Hpl]. now destruct (mk_info_line_parts eq CMD_ALTA_PLU datos eq_refl).
      * unfold mbind. destruct (progress_sent op (ev_skip (nombre eq) (LenInvalida (len datos))) w)
          as (w1 & -> & _). apply IH.
    + unfold mbind. destruct (progress_sent op (ev_skip (nombre eq) PluDepInvalido) w)
        as (w1 & -> & _). apply IH.
    + discriminate.
Qed.




Lemma articulos_loop_sent (fl : str -> float_cents) (eq : EquipoDef) (fam : pyval) (op : bool)
    (items : list dict) (lines : list str) (w w' : world) (r : result (list str)) :
  articulos_loop fl eq items fam op lines w = (w', r) -> sent w' = sent w.
Proof.
  revert lines w. induction items as [|it rest IH]; intros lines w.
  - now intros [= <- <-].
  - cbn [articulos_loop]. unfold mbind at 1, lift.
    destruct (_build_datos_2005_modelo fl it fam 1) as [[datos|]|e].
    + destruct (bool_decide (datos = [])).
      { unfold mbind. destruct (progress_sent op (ev_skip (nombre eq) PluDepInvalido) w)
          as (w1 & -> & <-). apply IH. }
      destruct (_valid_2005_data datos) eqn:Hv; cbn [negb].
      * unfold mbind.
        destruct (progress_sent op (ev_trace_2005 (nombre eq) datos) w) as (w1 & -> & <-).
        destruct (progress_sent op
                    (ev_trace_campo22 (nombre eq) (slice start_22 (start_22 + model 22) datos)) w1)
          as (w2 & -> & <-).
        apply IH.
      * unfold mbind. destruct (progress_sent op (ev_skip (nombre eq) (LenInvalida (len datos))) w)
          as (w1 & -> & <-). apply IH.
    + unfold mbind. destruct (progress_sent op (ev_skip (nombre eq) PluDepInvalido) w)
        as (w1 & -> & <-). apply IH.
    + now intros [= <- <-].
Qed.


















End combined.




(** ** C7 — replacing the relations of an equipment *)

Section relaciones.

Import sybase dao_bala_dptos dao_repo_sybase.

Lemma insert_bala_dptos_spec (d : database) (eid : Z) (c : str) :
  eid ∈ dom (BALA_EQUIPOS d) -> c ∈ dom (GRP_VENT d) ->
  (forall p, p ∈ BALA_DPTOS (insert_bala_dptos d eid c) <-> p ∈ BALA_DPTOS d \/ p = (eid, c)) /\
  GRP_VENT (insert_bala_dptos d eid c) = GRP_VENT d /\
  BALA_EQUIPOS (insert_bala_dptos d eid c) = BALA_EQUIPOS d.
Proof.
  intros He Hc. unfold insert_bala_dptos. rewrite bool_decide_decide.
  destruct (decide _) as [Hin|Hin].
  - cbn. split; [|auto]. intros p. set_solver.
  - split; [|auto]. intros p. split; [auto|]. intros [H| ->]; [exact H|].
    destruct (decide ((eid, c) ∈ BALA_DPTOS d)) as [|Hn]; [assumption|].
    exfalso. apply Hin. auto.
Qed.

Lemma insert_all_spec (eid : Z) (l : list str) (d : database) :
  eid ∈ dom (BALA_EQUIPOS d) -> (forall c, c ∈ l -> c ∈ dom (GRP_VENT d)) ->
  let d' := foldl (fun db c => insert_bala_dptos db eid c) d l in
  (forall p, p ∈ BALA_DPTOS d' <-> p ∈ BALA_DPTOS d \/ (p.1 = eid /\ p.2 ∈ l)) /\
  GRP_VENT d' = GRP_VENT d /\
  BALA_EQUIPOS d' = BALA_EQUIPOS d.
Proof.
  revert d. induction l as [|c l IH]; intros d He Hl; cbn [foldl].
  - split; [|auto]. intros p. split; [auto|]. intros [H|[_ H]]; [exact H|]. inversion H.
  - destruct (insert_bala_dptos_spec d eid c He (Hl c ltac:(left))) as (Hp & Hg & Hq).
    destruct (IH (insert_bala_dptos d eid c)) as (Hp' & Hg' & Hq').
    + now rewrite Hq.
    + intros x Hx. rewrite Hg. apply Hl. now right.
    + cbv zeta in *. split; [|split; congruence].
      intros [e x]. rewrite Hp', Hp. cbn. rewrite elem_of_cons. split.
      * intros [[H1|H1]|[H1 H2]]; [auto | | auto].
        injection H1 as -> ->. auto.
      * intros [H1|[-> [->|H2]]]; auto.
Qed.

Lemma codigos_validos_spec (d : database) (codigos : list str) (c : str) :
  c ∈ codigos_validos d codigos <-> c ∈ codigos /\ c ∈ dom (GRP_VENT d).
Proof.
  unfold codigos_validos, select_grp_vent_in. destruct codigos as [|x l].
  - split; [set_solver|]. intros [H _]. inversion H.
  - rewrite elem_of_filter. tauto.
Qed.

Lemma filter_ext_in {A} (P Q : A -> Prop) `{!forall x, Decision (P x)} `{!forall x, Decision (Q x)}
    (l : list A) :
  (forall x, x ∈ l -> (P x <-> Q x)) -> filter P l = filter Q l.
Proof.
  induction l as [|a l IH]; intros Hext; [reflexivity|].
  rewrite !filter_cons.
  assert (Ha := Hext a ltac:(left)).
  rewrite IH by (intros x Hx; apply Hext; now right).
  destruct (decide (P a)), (decide (Q a)); tauto || reflexivity.
Qed.

(** What [reemplazar_relaciones] leaves in the database and returns. *)
Lemma reemplazar_relaciones_spec (d : database) (eid : Z) (codigos : list str) :
  eid ∈ dom (BALA_EQUIPOS d) ->
  let d' := (reemplazar_relaciones d eid codigos).1 in
  let invalidos := (reemplazar_relaciones d eid codigos).2 in
  (forall e c, (e, c) ∈ BALA_DPTOS d' <->
     ((e, c) ∈ BALA_DPTOS d /\ e <> eid) \/ (e = eid /\ c ∈ codigos /\ c ∈ dom (GRP_VENT d))) /\
  invalidos = filter (fun c => c ∉ dom (GRP_VENT d)) codigos /\
  GRP_VENT d' = GRP_VENT d /\
  BALA_EQUIPOS d' = BALA_EQUIPOS d.
Proof.
  intros He. unfold reemplazar_relaciones. cbn [fst snd].
  set (d1 := delete_bala_dptos d eid).
  assert (Hg1 : GRP_VENT d1 = GRP_VENT d) by reflexivity.
  assert (Hq1 : BALA_EQUIPOS d1 = BALA_EQUIPOS d) by reflexivity.
  destruct (insert_all_spec eid (elements (codigos_validos d1 codigos)) d1) as (Hp & Hg & Hq).
  - now rewrite Hq1.
  - intros c Hc%elem_of_elements. apply codigos_validos_spec in Hc. tauto.
  - cbv zeta in *. split; [|split; [|split; congruence]].
    + intros e c. rewrite Hp. cbn [fst snd]. rewrite elem_of_elements, codigos_validos_spec.
      unfold d1 at 1, delete_bala_dptos. cbn [BALA_DPTOS]. rewrite elem_of_filter. cbn [fst].
      rewrite Hg1. tauto.
    + apply filter_ext_in. intros c Hc. rewrite codigos_validos_spec, Hg1. tauto.
Qed.


Lemma select_id_dom (d : database) (n i : str) (eid : Z) (rest : list Z) :
  select_id_por_nombre_ip d n i = eid :: rest -> eid ∈ dom (BALA_EQUIPOS d).
Proof.
  unfold select_id_por_nombre_ip. intros H.
  assert (Hin : eid ∈ merge_sort id_desc
            (omap (fun p : Z * equipo_row =>
                     if bool_decide (e_nombre p.2 = n /\ e_ip p.2 = i) then Some p.1 else None)
                  (map_to_list (BALA_EQUIPOS d)))) by (rewrite H; left).
  rewrite merge_sort_Permutation in Hin. apply list_elem_of_omap in Hin as ([k v] & Hkv & Hs).
  cbn in Hs. destruct (bool_decide _); [|discriminate]. injection Hs as <-.
  apply elem_of_map_to_list in Hkv. apply elem_of_dom. eauto.
Qed.

Lemma update_bala_equipos_keeps (d : database) (eid : Z) (r : equipo_row) :
  dom (BALA_EQUIPOS (update_bala_equipos d eid r)) = dom (BALA_EQUIPOS d) /\
  GRP_VENT (update_bala_equipos d eid r) = GRP_VENT d /\
  BALA_DPTOS (update_bala_equipos d eid r) = BALA_DPTOS d.
Proof.
  unfold update_bala_equipos. cbn. split; [|auto].
  destruct (bool_decide (eid ∈ dom (BALA_EQUIPOS d))) eqn:E; cbn; [|reflexivity].
  destruct (negb _); [|reflexivity].
  apply bool_decide_eq_true in E. rewrite dom_insert_L. set_solver.
Qed.

Lemma insert_bala_equipos_keeps (d : database) (r : equipo_row) :
  GRP_VENT (insert_bala_equipos d r) = GRP_VENT d /\
  BALA_DPTOS (insert_bala_equipos d r) = BALA_DPTOS d.
Proof. unfold insert_bala_equipos. destruct (nombre_en_uso d None (e_nombre r)); auto. Qed.


End relaciones.

(** C7. For the id of an equipment and every submitted list of codes,
    [reemplazar_relaciones] leaves, for that equipment, exactly the
    relations to the submitted codes that exist in the department
    master (whatever it was related to before is deleted first; other
    equipment and the masters are untouched), and returns exactly the
    submitted codes that do not exist there, in their order; for an
    empty list everything is deleted, nothing inserted and nothing
    returned. [update_equipo] and [add_equipo] raise ValueError whenever
    that list is not empty, and the relations to the valid codes are by
    then in the database: nothing undoes them. *)
Theorem C7_reemplazar_relaciones (d : sybase.database) (equipo_id : Z) (codigos : list str) :
  equipo_id ∈ dom (sybase.BALA_EQUIPOS d) ->
  let d' := (dao_bala_dptos.reemplazar_relaciones d equipo_id codigos).1 in
  let invalidos := (dao_bala_dptos.reemplazar_relaciones d equipo_id codigos).2 in
  (forall e c, (e, c) ∈ sybase.BALA_DPTOS d' <->
     ((e, c) ∈ sybase.BALA_DPTOS d /\ e <> equipo_id) \/
     (e = equipo_id /\ c ∈ codigos /\ c ∈ dom (sybase.GRP_VENT d))) /\
  invalidos = filter (fun c => c ∉ dom (sybase.GRP_VENT d)) codigos /\
  sybase.GRP_VENT d' = sybase.GRP_VENT d /\
  sybase.BALA_EQUIPOS d' = sybase.BALA_EQUIPOS d /\
  (codigos = [] -> invalidos = [] /\ forall c, (equipo_id, c) ∉ sybase.BALA_DPTOS d') /\
  (forall r idx fila nombre ip puerto autoreport,
     dao_repo_sybase.db r = d ->
     0 <= idx ->
     sybase.select_bala_equipos d !! Z.to_nat idx = Some fila ->
     fila.1 = equipo_id ->
     invalidos <> [] ->
     exists r' msg,
       dao_repo_sybase.update_equipo r idx nombre ip puerto codigos autoreport
         = (r', Raise (ValueError msg)) /\
       forall c, c ∈ codigos -> c ∈ dom (sybase.GRP_VENT d) ->
                 (equipo_id, c) ∈ sybase.BALA_DPTOS (dao_repo_sybase.db r')) /\
  (forall r nombre ip puerto autoreport rest,
     sybase.GRP_VENT (dao_repo_sybase.db r) = sybase.GRP_VENT d ->
     sybase.select_id_por_nombre_ip
       (sybase.insert_bala_equipos (dao_repo_sybase.db r)
          {| sybase.e_nombre := nombre; sybase.e_ip := ip; sybase.e_puerto := puerto;
             sybase.e_autoreport := autoreport |}) nombre ip = equipo_id :: rest ->
     invalidos <> [] ->
     exists r' msg,
       dao_repo_sybase.add_equipo r nombre ip puerto codigos autoreport
         = (r', Raise (ValueError msg)) /\
       forall c, c ∈ codigos -> c ∈ dom (sybase.GRP_VENT d) ->
                 (equipo_id, c) ∈ sybase.BALA_DPTOS (dao_repo_sybase.db r')).
Proof.
  intros He d' invalidos.
  destruct (reemplazar_relaciones_spec d equipo_id codigos He) as (Hp & Hi & Hg & Hq).
  cbv zeta in Hp, Hi, Hg, Hq. fold d' in Hp, Hg, Hq. fold invalidos in Hi.
  split; [exact Hp|]. split; [exact Hi|]. split; [exact Hg|]. split; [exact Hq|].
  split; [|split].
  - intros ->. split; [now rewrite Hi|]. intros c Hc. apply Hp in Hc as [[_ Hc]|(_ & Hc & _)].
    + now apply Hc.
    + inversion Hc.
  - intros r idx fila nombre ip puerto autoreport Hr Hidx Hl Hf Hinv.
    unfold dao_repo_sybase.update_equipo. rewrite Hr, Hl.
    assert (Hlen : idx < len (sybase.select_bala_equipos d)).
    { apply lookup_lt_Some in Hl. unfold len. lia. }
    rewrite (proj2 (Z.leb_le 0 idx) Hidx), (proj2 (Z.ltb_lt _ _) Hlen). cbn [andb]. rewrite Hf.
    set (d2 := sybase.update_bala_equipos d equipo_id _).
    destruct (update_bala_equipos_keeps d equipo_id
                {| sybase.e_nombre := nombre; sybase.e_ip := ip; sybase.e_puerto := puerto;
                   sybase.e_autoreport := autoreport |}) as (Hd2 & Hg2 & _). fold d2 in Hd2, Hg2.
    destruct (reemplazar_relaciones_spec d2 equipo_id codigos ltac:(now rewrite Hd2))
      as (Hp2 & Hi2 & _).
    cbv zeta in Hp2, Hi2.
    destruct (dao_bala_dptos.reemplazar_relaciones d2 equipo_id codigos) as [d3 inv].
    cbn [fst snd] in Hp2, Hi2. rewrite Hg2, <- Hi in Hi2. subst inv.
    destruct invalidos as [|x l] eqn:Einv; [congruence|].
    eexists _, _. split; [reflexivity|]. cbn [dao_repo_sybase.stale dao_repo_sybase.db].
    intros c Hc Hm. apply Hp2. right. rewrite Hg2. auto.
  - intros r nombre ip puerto autoreport rest Hgr Hsel Hinv.
    unfold dao_repo_sybase.add_equipo. rewrite Hsel.
    set (d1 := sybase.insert_bala_equipos (dao_repo_sybase.db r) _) in *.
    destruct (insert_bala_equipos_keeps (dao_repo_sybase.db r)
                {| sybase.e_nombre := nombre; sybase.e_ip := ip; sybase.e_puerto := puerto;
                   sybase.e_autoreport := autoreport |}) as (Hg1 & _). fold d1 in Hg1.
    destruct (reemplazar_relaciones_spec d1 equipo_id codigos (select_id_dom _ _ _ _ _ Hsel))
      as (Hp2 & Hi2 & _).
    cbv zeta in Hp2, Hi2.
    destruct (dao_bala_dptos.reemplazar_relaciones d1 equipo_id codigos) as [d3 inv].
    cbn [fst snd] in Hp2, Hi2. rewrite Hg1, Hgr, <- Hi in Hi2. subst inv.
    destruct invalidos as [|x l] eqn:Einv; [congruence|].
    eexists _, _. split; [reflexivity|]. cbn [dao_repo_sybase.stale dao_repo_sybase.db].
    intros c Hc Hm. apply Hp2. right. rewrite Hg1, Hgr. auto.
Qed.

Lemma C7_reemplazar_relaciones_witness :
  (dao_bala_dptos.reemplazar_relaciones spec.db_demo 1 [txt "005"; txt "999"]).2 = [txt "999"] /\
  (1, txt "005") ∈
    sybase.BALA_DPTOS (dao_bala_dptos.reemplazar_relaciones spec.db_demo 1 [txt "005"; txt "999"]).1.
Proof.
  assert (He : 1 ∈ dom (sybase.BALA_EQUIPOS spec.db_demo)).
  { apply elem_of_dom. eexists. apply lookup_singleton_eq. }
  pose proof (C7_reemplazar_relaciones spec.db_demo 1 [txt "005"; txt "999"] He) as H.
  cbv zeta in H. destruct H as (Hp & Hi & _).
  split.
  - rewrite Hi. vm_compute. reflexivity.
  - apply Hp. right. split; [reflexivity|]. split; [left|].
    apply elem_of_dom. eexists. apply lookup_insert_eq.
Defined.

(** ** C8 — the department deletion guard *)

Section guard.

Import sybase dao_repo_sybase.

(** The relational facade refuses, and touches nothing, exactly when an
    equipment of its list holds the code. *)
Lemma repo_sybase_delete_depto (r : RepoSybase) (codigo : str) :
  ((exists e, e ∈ equipos r /\ codigo ∈ deptos e) ->
     delete_depto r codigo = (r, Raise (ValueError en_uso))) /\
  ((forall e, e ∈ equipos r -> codigo ∉ deptos e) ->
     delete_depto r codigo = (_refresh (delete_grp_vent (db r) codigo), Ok tt)).
Proof.
  unfold delete_depto. split.
  - intros (e & He & Hc).
    assert (Hx : existsb (fun e => bool_decide (codigo ∈ deptos e)) (equipos r) = true).
    { apply existsb_exists. exists e. split; [now apply list_elem_of_In | now apply bool_decide_eq_true]. }
    now rewrite Hx.
  - intros Hall.
    assert (Hx : existsb (fun e => bool_decide (codigo ∈ deptos e)) (equipos r) = false).
    { apply not_true_is_false. intros (e & He%list_elem_of_In & Hc%bool_decide_eq_true)%existsb_exists.
      now apply (Hall e He). }
    now rewrite Hx.
Qed.

(** The JSON repository looks at "depto_codigo" only. *)
Lemma json_repo_delete_depto_guard (r : abm_departamentos.Repo) (codigo : str) :
  (forall e, e ∈ abm_departamentos.equipos r -> abm_departamentos.depto_codigo e <> Some codigo) ->
  codigo ∈ (abm_departamentos.departamentos r).*1 ->
  exists r', abm_departamentos.delete_depto r codigo = (r', Ok tt) /\
             codigo ∉ (abm_departamentos.departamentos r').*1.
Proof.
  intros Hall Hin. unfold abm_departamentos.delete_depto.
  assert (Hx : existsb (fun e => bool_decide (abm_departamentos.depto_codigo e = Some codigo))
                 (abm_departamentos.equipos r) = false).
  { apply not_true_is_false. intros (e & He%list_elem_of_In & Hc%bool_decide_eq_true)%existsb_exists.
    now apply (Hall e He). }
  rewrite Hx. cbn [abm_departamentos.departamentos].
  set (l := abm_departamentos.departamentos r) in *.
  assert (Hlt : (length (filter (fun d : str * str => d.1 <> codigo) l) < length l)%nat).
  { clear -Hin. induction l as [|[k v] l IH]; [inversion Hin|].
    rewrite filter_cons. cbn [fst fmap list_fmap] in *. destruct (decide (k <> codigo)) as [Hk|Hk].
    - cbn. apply elem_of_cons in Hin as [->|Hin]; [congruence|]. specialize (IH Hin). lia.
    - pose proof (length_filter (fun d : str * str => d.1 <> codigo) l). cbn. lia. }
  destruct (Z.eqb_spec (len (filter (fun d : str * str => d.1 <> codigo) l)) (len l)) as [E|_].
  { unfold len in E. lia. }
  eexists. split; [reflexivity|]. cbn [abm_departamentos._save abm_departamentos.departamentos].
  intros ((k & v) & Hk & Hkv%list_elem_of_filter)%list_elem_of_fmap. cbn in *. subst. tauto.
Qed.

End guard.

(** C8, on the two repositories. The relational facade refuses to
    delete department 010 while equipment 1 is related to it, and leaves
    its state as it was. The JSON repository, whose equipment EQ1 holds
    the department list ["001"], deletes department 001 all the same
    and saves the file: its guard compares the "depto_codigo" entry of
    each equipment and never looks into the list. *)
Theorem C8_delete_depto_guard :
  (exists e, e ∈ dao_repo_sybase.equipos spec.sybase_demo /\ txt "010" ∈ dao_repo_sybase.deptos e) /\
  dao_repo_sybase.delete_depto spec.sybase_demo (txt "010") =
    (spec.sybase_demo, Raise (ValueError dao_repo_sybase.en_uso)) /\
  (exists e l, e ∈ abm_departamentos.equipos spec.json_demo /\
               abm_departamentos.deptos e = Some l /\ txt "001" ∈ l) /\
  abm_departamentos.delete_depto spec.json_demo (txt "001") =
    ({| abm_departamentos.departamentos := [(txt "002", txt "Fiambreria")];
        abm_departamentos.equipos := abm_departamentos.equipos spec.json_demo;
        abm_departamentos.DATA_FILE :=
          Some ([(txt "002", txt "Fiambreria")], abm_departamentos.equipos spec.json_demo) |},
     Ok tt).
Proof.
  assert (He : exists e, e ∈ dao_repo_sybase.equipos spec.sybase_demo /\
                         txt "010" ∈ dao_repo_sybase.deptos e).
  { eexists. split; [vm_compute; left | vm_compute; left]. }
  split; [exact He|]. split.
  - now apply repo_sybase_delete_depto.
  - split; [|vm_compute; reflexivity].
    eexists _, _. split; [left|]. split; [reflexivity | left].
Qed.

(** ** C9 — the modification time of INFO.JDG *)

Section mtime.

Import jdg_driver.

Lemma int_sec_forced (prev : Z) : prev < int_sec (prev * NS + 1100000000).
Proof.
  unfold int_sec, NS. Z.to_euclidean_division_equations. lia.
Qed.

Lemma st_mtime_next (f : file) (lines : list str) (now : Z) :
  st_mtime (send_info_lines (Some f) lines now) =
    if int_sec now <=? int_sec (st_mtime f)
    then int_sec (st_mtime f) * NS + 1100000000 else now.
Proof. reflexivity. Qed.

End mtime.

(** C9, as stated, fails on the distance between the timestamps. The
    first call writes at 1700000000.95 s on a fresh file and the second
    at 1700000000.99 s: the second timestamp is forced to
    1700000001.1 s, only 0.15 s after the first. What is added to is
    the whole second of the previous timestamp, not the timestamp. *)
Lemma C9_counterexample :
  let f1 := jdg_driver.send_info_lines None [txt "C010002"] 1700000000950000000 in
  let f2 := jdg_driver.send_info_lines (Some f1) [txt "C010002"] 1700000000990000000 in
  jdg_driver.st_mtime f1 = 1700000000950000000 /\
  jdg_driver.st_mtime f2 = 1700000001100000000 /\
  jdg_driver.st_mtime f2 - jdg_driver.st_mtime f1 = 150000000 /\
  ~ (jdg_driver.st_mtime f1 + jdg_driver.NS <= jdg_driver.st_mtime f2) /\
  jdg_driver.st_mtime f2 <> jdg_driver.st_mtime f1 + 1100000000.
Proof. vm_compute. repeat split; try reflexivity; intros H; discriminate H || (now apply H). Qed.

(** C9, amended. For every two consecutive [send_info_lines] calls on
    the same instance, whatever the clock reads, the second call leaves
    INFO.JDG with a modification time whose whole second is strictly
    greater than that of the first call's. When the whole second of the
    clock at the second write is not greater than that of the file's
    previous modification time, the new time is that whole second plus
    1.1 s; otherwise it is the clock's time. *)
Theorem C9_mtime_amended (info : option jdg_driver.file) (lines1 lines2 : list str) (now1 now2 : Z) :
  let f1 := jdg_driver.send_info_lines info lines1 now1 in
  let f2 := jdg_driver.send_info_lines (Some f1) lines2 now2 in
  jdg_driver.int_sec (jdg_driver.st_mtime f1) < jdg_driver.int_sec (jdg_driver.st_mtime f2) /\
  (jdg_driver.int_sec now2 <= jdg_driver.int_sec (jdg_driver.st_mtime f1) ->
     jdg_driver.st_mtime f2 =
       jdg_driver.int_sec (jdg_driver.st_mtime f1) * jdg_driver.NS + 1100000000) /\
  (jdg_driver.int_sec (jdg_driver.st_mtime f1) < jdg_driver.int_sec now2 ->
     jdg_driver.st_mtime f2 = now2).
Proof.
  intros f1 f2. unfold f2. rewrite st_mtime_next.
  destruct (Z.leb_spec (jdg_driver.int_sec now2) (jdg_driver.int_sec (jdg_driver.st_mtime f1))) as [H|H].
  - split; [apply int_sec_forced|]. split; [reflexivity | lia].
  - split; [exact H|]. split; [lia | reflexivity].
Qed.

Lemma C9_mtime_amended_witness :
  jdg_driver.st_mtime
    (jdg_driver.send_info_lines
       (Some (jdg_driver.send_info_lines None [txt "C010002"] 1700000000950000000))
       [txt "C010002"] 1700000000990000000)
  = 1700000001100000000.
Proof.
  pose proof (C9_mtime_amended None [txt "C010002"] [txt "C010002"]
                1700000000950000000 1700000000990000000) as H.
  cbv zeta in H. destruct H as (_ & H & _).
  rewrite H; [vm_compute; reflexivity | vm_compute; discriminate].
Defined.

(** ** C10 — one response per frame *)

Section batch.

Import kretz_driver.

Context {device : Type}.
Variable send : device -> list byte -> device * list byte.

Lemma send_retry_S (k : nat) (dev : device) (f : list byte) (intentos max_retries : Z) :
  send_retry send (S k) dev f intentos max_retries =
    let '(dev, resp) := send dev f in
    if resp_valid resp then Some (dev, resp)
    else if max_retries <? intentos + 1 then Some (dev, resp)
         else send_retry send k dev f (intentos + 1) max_retries.
Proof. reflexivity. Qed.

Lemma first_valid_or_last_S (k : nat) (dev : device) (f received : list byte) :
  spec.first_valid_or_last send (S k) dev f received =
    let '(dev, resp) := send dev f in
    if resp_valid resp then (dev, resp)
    else spec.first_valid_or_last send k dev f resp.
Proof. reflexivity. Qed.

Lemma send_retry_spec (max_retries : Z) (k : nat) (dev : device) (f : list byte)
    (intentos : Z) (received : list byte) :
  0 <= intentos ->
  Z.of_nat (S k) = Z.max 0 max_retries + 1 - intentos ->
  send_retry send (S k) dev f intentos max_retries =
    Some (spec.first_valid_or_last send (S k) dev f received).
Proof.
  revert dev intentos received. induction k as [|k IH]; intros dev intentos received Hi Hk;
    rewrite send_retry_S, first_valid_or_last_S; destruct (send dev f) as [dev' resp];
    (destruct (resp_valid resp); [reflexivity|]);
    destruct (Z.ltb_spec max_retries (intentos + 1)) as [Hlt|Hge]; try lia.
  - reflexivity.
  - apply IH; lia.
Qed.

Lemma send_many_loop_spec (max_retries : Z) (frames : list (list byte)) (dev : device)
    (resps : list (list byte)) :
  send_many_loop send dev frames max_retries resps =
    Some ((spec.responses send (spec.budget max_retries) dev frames).1,
          resps ++ (spec.responses send (spec.budget max_retries) dev frames).2).
Proof.
  revert dev resps. induction frames as [|f rest IH]; intros dev resps.
  - cbn. now rewrite app_nil_r.
  - cbn [send_many_loop spec.responses].
    rewrite (send_retry_spec max_retries (Z.to_nat max_retries) dev f 0 []) by lia.
    fold (spec.budget max_retries).
    destruct (spec.first_valid_or_last send (spec.budget max_retries) dev f []) as [dev1 r].
    rewrite IH.
    destruct (spec.responses send (spec.budget max_retries) dev1 rest) as [dev2 rs].
    cbn [fst snd]. now rewrite <- app_assoc.
Qed.

Lemma length_responses (n : nat) (frames : list (list byte)) (dev : device) :
  length (spec.responses send n dev frames).2 = length frames.
Proof.
  revert dev. induction frames as [|f rest IH]; intros dev; [reflexivity|].
  cbn [spec.responses]. destruct (spec.first_valid_or_last send n dev f []) as [dev1 r].
  specialize (IH dev1). destruct (spec.responses send n dev1 rest) as [dev2 rs].
  cbn [snd] in *. cbn. now rewrite IH.
Qed.

Lemma checksum_some (payload : list byte) :
  exists c, envios_balanzas._checksum_bytes payload = Some c.
Proof.
  unfold envios_balanzas._checksum_bytes.
  destruct (nibbles (sum_bytes payload)) as (Hhi & Hlo & Hq).
  assert (Hm : 0 <= (sum_bytes payload mod 256) mod 16 < 16) by (apply Z.mod_pos_bound; lia).
  cbv zeta. rewrite Hhi, Hlo.
  destruct (bytes_of_ints_two (sum_bytes payload mod 256 / 16 + 48)
              ((sum_bytes payload mod 256) mod 16 + 48)) as (hi & lo & Hb & _); [lia | lia |].
  eauto.
Qed.

(** Reading the response at each position pairs the entries with the
    responses in order, when there is one response per entry. *)
Lemma imap_resp_at {A B} (g : list byte -> A -> B) (l : list A) (resps : list (list byte)) :
  length resps = length l ->
  imap (fun idx x => g (envios_balanzas.resp_at resps idx) x) l =
  zip_with (fun x r => g r x) l resps.
Proof.
  revert resps. induction l as [|x l IH]; intros [|r rs] H; try discriminate H; [reflexivity|].
  cbn [imap zip_with]. f_equal. rewrite <- IH by (cbn in H; lia).
  apply imap_ext. intros i y _. reflexivity.
Qed.

Lemma mapM_zip_map {A B C} (F : A -> B -> option C) (g : A -> B) (l : list A) :
  mapM (fun p : A * B => F p.1 p.2) (zip l (map g l)) = mapM (fun c => F c (g c)) l.
Proof.
  induction l as [|x l IH]; [reflexivity|].
  change (zip (x :: l) (map g (x :: l))) with ((x, g x) :: zip l (map g l)).
  change (mapM (fun p : A * B => F p.1 p.2) ((x, g x) :: zip l (map g l)))
    with (y ← F x (g x); k ← mapM (fun p : A * B => F p.1 p.2) (zip l (map g l)); Some (y :: k)).
  now rewrite IH.
Qed.

Lemma mapM_length_eq {A B} (f : A -> option B) (l : list A) (k : list B) :
  mapM f l = Some k -> length k = length l.
Proof. intros H. symmetry. now apply (length_mapM f). Qed.

Lemma cmd_departamento_some (c n : str) : is_Some (envios_balanzas.cmd_departamento c n).
Proof.
  unfold envios_balanzas.cmd_departamento, envios_balanzas.build_frame.
  destruct (checksum_some (envios_balanzas.STX ::
              envios_balanzas._build_body (txt "2003")
                (envios_balanzas.pad_num (PStr c) 3 ++ envios_balanzas.pad_str n 16) (txt "01")))
    as (chk & ->).
  cbn. eauto.
Qed.

End batch.

(** C10. For every list of frames, every device behaviour and every
    retry count, [send_many] returns, and what it returns has exactly
    one entry per frame, in the order of the frames: for each frame,
    over at most 1 + max_retries exchanges of that frame, the first
    valid response, or the last response received (empty when nothing
    came) once the exchanges are used up. So every position of the
    frame list has its response. The department push builds one 2003
    frame per department, in the order of the departments, with the
    department's name, and reads the response at the position of each
    department: its outcomes are the departments paired in order with
    the responses to their own frames, one outcome per department, and
    it never falls back to the empty default. *)
Theorem C10_send_many_one_per_frame
    {device : Type} (send : device -> list byte -> device * list byte)
    (dev : device) (frames : list (list byte)) (max_retries : Z) :
  let expected := spec.responses send (spec.budget max_retries) dev frames in
  kretz_driver.send_many send dev frames max_retries = Some expected /\
  length expected.2 = length frames /\
  (forall idx, (idx < length frames)%nat ->
     exists r, expected.2 !! idx = Some r /\ envios_balanzas.resp_at expected.2 idx = r) /\
  (forall departamentos deptos,
     let dep_map := map (fun d : str * str => (rjust 3 "0" (slice_from (-3) d.1), d.2))
                        departamentos in
     let c3 := fun c : str => rjust 3 "0" (slice_from (-3) c) in
     exists fr,
       mapM (fun c => envios_balanzas.cmd_departamento (c3 c)
                        (envios_balanzas.nombre dep_map c (c3 c))) deptos = Some fr /\
       length fr = length deptos /\
       let got := spec.responses send (spec.budget max_retries) dev fr in
       length got.2 = length deptos /\
       envios_balanzas.enviar_departamentos_equipo send departamentos deptos max_retries dev =
         Some (got.1,
               zip_with (fun c r => if envios_balanzas.ok r
                                    then envios_balanzas.depto_ok (c3 c)
                                    else envios_balanzas.depto_error (c3 c))
                        deptos got.2)) /\
  envios_balanzas.nombre [(txt "005", txt "Carnes")] (txt "5") (txt "005") = txt "Carnes" /\
  envios_balanzas.nombre [(txt "005", txt "")] (txt "5") (txt "005") = txt "DEP-005".
Proof.
  intros expected.
  assert (Hlen : length expected.2 = length frames) by apply length_responses.
  split; [|split; [exact Hlen|split; [|split; [|split; reflexivity]]]].
  - unfold kretz_driver.send_many. rewrite send_many_loop_spec. cbn [app].
    f_equal. symmetry. apply surjective_pairing.
  - intros idx Hidx.
    destruct (lookup_lt_is_Some_2 expected.2 idx ltac:(lia)) as [r Hr].
    exists r. split; [exact Hr|]. unfold envios_balanzas.resp_at. now rewrite Hr.
  - intros departamentos deptos dep_map c3.
    destruct (mapM (fun c => envios_balanzas.cmd_departamento (c3 c)
                               (envios_balanzas.nombre dep_map c (c3 c))) deptos)
      as [fr|] eqn:Em.
    2:{ exfalso. apply eq_None_not_Some in Em. apply Em. apply mapM_is_Some.
        apply Forall_forall. intros c _. exact (cmd_departamento_some _ _). }
    exists fr. split; [reflexivity|].
    pose proof (mapM_length_eq _ _ _ Em) as Hfr. split; [exact Hfr|].
    cbv zeta.
    assert (Hg : length (spec.responses send (spec.budget max_retries) dev fr).2 = length deptos)
      by (rewrite length_responses; exact Hfr).
    split; [exact Hg|].
    unfold envios_balanzas.enviar_departamentos_equipo. cbv zeta. fold dep_map. fold c3.
    rewrite (mapM_zip_map
               (fun c_raw c => envios_balanzas.cmd_departamento c
                                 (envios_balanzas.nombre dep_map c_raw c)) c3 deptos).
    fold c3 in Em. rewrite Em. cbn [mbind option_bind].
    unfold kretz_driver.send_many. rewrite send_many_loop_spec. cbn [mbind option_bind app].
    f_equal. f_equal.
    rewrite (imap_resp_at
               (fun r x => if envios_balanzas.ok r then envios_balanzas.depto_ok x
                           else envios_balanzas.depto_error x)
               (map c3 deptos)) by (rewrite length_map; exact Hg).
    rewrite zip_with_fmap_l. reflexivity.
Qed.


(* ================================================================== *)
(** * Further properties of the code                                   *)
(* ================================================================== *)

(** ** GUI/kretz_driver.py — responses *)

Section resp_status.

Import kretz_driver.

Lemma slice_body {A} (x a b c : A) (l : list A) :
  slice_to (-3) (slice_from 1 (x :: l ++ [a; b; c])) = l.
Proof.
  assert (E : slice_from 1 (x :: l ++ [a; b; c]) = l ++ [a; b; c]) by reflexivity.
  rewrite E. unfold slice_to. change (-3 <? 0) with true. cbv iota.
  unfold len. rewrite length_app. cbn [length].
  replace (Z.to_nat (Z.of_nat (length l + 3) + -3)) with (length l) by lia.
  now rewrite take_app_length.
Qed.

Lemma last_frame {A} (x a b c : A) (l : list A) : last (x :: l ++ [a; b; c]) = Some c.
Proof.
  change (x :: l ++ [a; b; c]) with ((x :: l) ++ [a; b; c]).
  replace ((x :: l) ++ [a; b; c]) with (((x :: l) ++ [a; b]) ++ [c]) by now rewrite <- app_assoc.
  apply last_snoc.
Qed.

(** A response in frame form is taken apart by length alone. *)
Lemma parse_resp_status_frame (cuerpo : list byte) (c1 c2 : byte) :
  _parse_resp_status (RESP_STX :: cuerpo ++ [c1; c2; ETX]) =
    let con_canal :=
      (5 <=? len cuerpo) && bool_decide (slice_to 1 cuerpo = [x43])
      && forallb is_digit_byte (slice 1 3 cuerpo) in
    let code := decode_ascii_ignore (if con_canal then slice 3 5 cuerpo else slice_to 2 cuerpo) in
    {| ok := bool_decide (code = txt "01");
       code := Some code;
       data := if con_canal then slice_from 5 cuerpo else slice_from 2 cuerpo;
       body := cuerpo |}.
Proof.
  unfold _parse_resp_status.
  rewrite slice_body, last_frame.
  assert (Hl : (len (RESP_STX :: cuerpo ++ [c1; c2; ETX]) <? 4) = false).
  { apply Z.ltb_ge. unfold len. cbn [length]. rewrite length_app. cbn [length]. lia. }
  rewrite Hl. cbn [head].
  rewrite (bool_decide_eq_false_2 (_ :: _ = [])) by discriminate.
  rewrite (bool_decide_eq_true_2 (Some RESP_STX = Some RESP_STX)) by reflexivity.
  rewrite (bool_decide_eq_true_2 (Some ETX = Some ETX)) by reflexivity.
  reflexivity.
Qed.

End resp_status.

Section responses_more.

Import kretz_driver.

Lemma frame_form {A} (l : list A) :
  4 <= len l -> exists x m a b c, l = x :: m ++ [a; b; c].
Proof.
  intros H. destruct l as [|x l]; [unfold len in H; simpl in H; lia|].
  assert (H3 : (3 <= length l)%nat) by (unfold len in H; simpl in H; lia).
  exists x, (take (length l - 3) l).
  destruct (drop (length l - 3) l) as [|a [|b [|c [|? ?]]]] eqn:E;
    pose proof (f_equal length E) as El; rewrite length_drop in El; simpl in El; try lia.
  exists a, b, c. rewrite <- E. now rewrite take_drop.
Qed.

Lemma byte_val_of_ascii (c : ascii) : byte_val (byte_of_ascii c) = ord c.
Proof.
  destruct c as [[] [] [] [] [] [] [] []]; reflexivity.
Qed.

Lemma decode_encode_ascii (s : str) (b : list byte) :
  encode_ascii s = Some b -> decode_ascii_ignore b = s /\ length b = length s.
Proof.
  unfold encode_ascii, decode_ascii_ignore.
  destruct (forallb (fun c => ord c <? 128) s) eqn:E; [|discriminate]. intros [= <-].
  split; [|apply length_map].
  induction s as [|c s IH]; [reflexivity|].
  cbn [forallb] in E. apply andb_true_iff in E as [Hc Hs]. apply Z.ltb_lt in Hc.
  cbn [map]. rewrite filter_cons, decide_True by (rewrite byte_val_of_ascii; lia).
  cbn [map]. now rewrite ascii_of_byte_of_ascii, IH.
Qed.

Lemma decode_encode_latin1 (s : str) : decode_latin1 (encode_latin1 s) = s.
Proof.
  unfold decode_latin1, encode_latin1. rewrite map_map.
  induction s as [|c s IH]; [reflexivity|]. cbn [map]. now rewrite ascii_of_byte_of_ascii, IH.
Qed.

Lemma lstrip_spaces (n : nat) (s : str) : lstrip (replicate n " "%char ++ s) = lstrip s.
Proof. induction n as [|n IH]; [reflexivity|]. exact IH. Qed.

Lemma rstrip_ljust (w : Z) (s : str) : rstrip (ljust w " " s) = rstrip s.
Proof.
  unfold rstrip, ljust. rewrite rev_app_distr.
  replace (rev (replicate (Z.to_nat (w - len s)) " "%char))
    with (replicate (Z.to_nat (w - len s)) " "%char).
  - now rewrite lstrip_spaces.
  - generalize (Z.to_nat (w - len s)). intros n. induction n as [|n IH]; [reflexivity|].
    cbn [replicate rev]. rewrite <- IH. apply replicate_cons_app.
Qed.

End responses_more.

(** X1. [_parse_resp_status] takes a response apart by position only.
    For a response in frame form (0x07, a body, two check bytes, 0x04)
    the two check bytes are never compared with the checksum of the
    rest: whatever two bytes stand in their place, the status parsed
    and the acknowledgment decision are the same, and the body returned
    is everything between the first byte and those two. *)
Theorem X1_parse_resp_status_ignores_checksum (cuerpo : list byte) (c1 c2 d1 d2 : byte) :
  kretz_driver._parse_resp_status (kretz_driver.RESP_STX :: cuerpo ++ [c1; c2; kretz_driver.ETX]) =
  kretz_driver._parse_resp_status (kretz_driver.RESP_STX :: cuerpo ++ [d1; d2; kretz_driver.ETX]) /\
  kretz_driver.body
    (kretz_driver._parse_resp_status (kretz_driver.RESP_STX :: cuerpo ++ [c1; c2; kretz_driver.ETX]))
    = cuerpo /\
  kretz_driver.parse_ack_ok (kretz_driver.RESP_STX :: cuerpo ++ [c1; c2; kretz_driver.ETX]) =
  kretz_driver.parse_ack_ok (kretz_driver.RESP_STX :: cuerpo ++ [d1; d2; kretz_driver.ETX]).
Proof.
  split; [|split].
  - now rewrite !parse_resp_status_frame.
  - now rewrite parse_resp_status_frame.
  - unfold kretz_driver.parse_ack_ok. rewrite !parse_resp_status_frame.
    now rewrite !(bool_decide_eq_false_2 (_ :: _ = [])) by discriminate.
Qed.

(** X2. What [parse_ack_ok] accepts is a response that [send_many]
    counts as valid: it begins with 0x07, ends with 0x04, has at least
    six bytes, and its status code is "01" or "03". An empty response
    (a timeout) is never an acknowledgment. *)
Theorem X2_parse_ack_ok_is_valid_response (resp : list byte) :
  kretz_driver.parse_ack_ok resp = true ->
  kretz_driver.resp_valid resp = true /\
  6 <= len resp /\
  (kretz_driver.code (kretz_driver._parse_resp_status resp) = Some (txt "01") \/
   kretz_driver.code (kretz_driver._parse_resp_status resp) = Some (txt "03")).
Proof.
  unfold kretz_driver.parse_ack_ok. intros H.
  apply andb_true_iff in H as [_ Hc]. apply bool_decide_eq_true in Hc.
  assert (Hsome : kretz_driver.code (kretz_driver._parse_resp_status resp) <> None)
    by (destruct Hc as [-> | ->]; discriminate).
  unfold kretz_driver._parse_resp_status in Hsome.
  destruct (bool_decide (resp = []) || negb (bool_decide (head resp = Some kretz_driver.RESP_STX))
            || (len resp <? 4) || negb (bool_decide (last resp = Some kretz_driver.ETX))) eqn:E;
    [now cbn in Hsome|]. clear Hsome.
  apply orb_false_iff in E as [E Hlast]. apply orb_false_iff in E as [E Hlen].
  apply orb_false_iff in E as [_ Hhead].
  apply negb_false_iff, bool_decide_eq_true in Hlast, Hhead. apply Z.ltb_ge in Hlen.
  destruct (frame_form resp Hlen) as (x & m & a & b & c & ->).
  cbn [head] in Hhead. injection Hhead as ->.
  rewrite last_frame in Hlast. injection Hlast as ->.
  split; [|split; [|exact Hc]].
  - unfold kretz_driver.resp_valid. rewrite last_frame.
    now rewrite !bool_decide_eq_true_2.
  - rewrite parse_resp_status_frame in Hc. cbv zeta in Hc. cbn [kretz_driver.code] in Hc.
    assert (Hm : 2 <= len m).
    { destruct ((5 <=? len m) && bool_decide (slice_to 1 m = [x43])
                && forallb kretz_driver.is_digit_byte (slice 1 3 m)) eqn:Ec.
      - apply andb_true_iff in Ec as [Ec _]. apply andb_true_iff in Ec as [Ec _].
        apply Z.leb_le in Ec. lia.
      - assert (Hl : length (kretz_driver.decode_ascii_ignore (slice_to 2 m)) = 2%nat)
          by (destruct Hc as [[= ->] | [= ->]]; reflexivity).
        unfold kretz_driver.decode_ascii_ignore in Hl. rewrite length_map in Hl.
        pose proof (length_filter (fun x => byte_val x < 128) (slice_to 2 m)) as Hf.
        unfold slice_to in Hf. change (2 <? 0) with false in Hf. cbv iota in Hf.
        rewrite length_take in Hf. unfold slice_to in Hl. change (2 <? 0) with false in Hl.
        cbv iota in Hl. unfold len. lia. }
    unfold len in *. cbn [length]. rewrite length_app. cbn [length]. lia.
Qed.

Lemma X2_parse_ack_ok_is_valid_response_witness :
  kretz_driver.resp_valid [x07; x43; x30; x31; x30; x33; x30; x30; x04] = true.
Proof.
  apply (X2_parse_ack_ok_is_valid_response [x07; x43; x30; x31; x30; x33; x30; x30; x04]).
  vm_compute. reflexivity.
Defined.

Section lectura_5003.

Import kretz_driver.

Lemma len_driver_pad_str (val : pyval) (n : Z) : 0 <= n -> len (_pad_str val n) = n.
Proof.
  intros Hn. unfold _pad_str, encode_latin1, len. rewrite length_map. fold (len (ljust n " " (slice_to n (strip (py_str (por val (PStr []))))))).
  rewrite len_ljust, len_slice_to by lia. lia.
Qed.

Lemma driver_pad_num_text (val : pyval) (n : Z) (b : list byte) :
  0 < n -> _pad_num val n = Some b ->
  len b = n /\
  decode_ascii_ignore b =
    rjust n "0" (slice_from (- n) (filter (fun ch => char_isdigit ch = true) (py_str (por val (PStr []))))).
Proof.
  intros Hn H. unfold _pad_num in H. apply decode_encode_ascii in H as [Hd Hl].
  split; [|exact Hd]. unfold len. rewrite Hl. now apply len_rjust_suffix.
Qed.

End lectura_5003.

(** X3. The reader of a 5003 response and the writer of a department
    payload agree on the layout. When the body of a response is a
    channel prefix ("C" and two digits), the status code "01" and then
    a department payload as [cmd_departamento] lays it out (the code
    through [_pad_num] at width 3, the name through [_pad_str] at
    width 16), [parse_resp_5003] returns that three-digit code and the
    name without its padding, whatever the two check bytes are. *)
Theorem X3_parse_resp_5003_reads_payload
    (codigo nombre : pyval) (cod : list byte) (d1 d2 c1 c2 : byte) :
  kretz_driver._pad_num codigo 3 = Some cod ->
  kretz_driver.is_digit_byte d1 = true ->
  kretz_driver.is_digit_byte d2 = true ->
  kretz_driver.parse_resp_5003
    (kretz_driver.RESP_STX ::
       ([x43; d1; d2] ++ [x30; x31] ++ cod ++ kretz_driver._pad_str nombre 16)
       ++ [c1; c2; kretz_driver.ETX])
  = Some (rjust 3 "0"
            (slice_from (-3)
               (filter (fun ch => char_isdigit ch = true) (py_str (por codigo (PStr []))))),
          rstrip (slice_to 16 (strip (py_str (por nombre (PStr [])))))).
Proof.
  intros Hcod Hd1 Hd2.
  destruct (driver_pad_num_text codigo 3 cod ltac:(lia) Hcod) as [Hlen Htxt].
  pose proof (len_driver_pad_str nombre 16 ltac:(lia)) as Hn.
  unfold kretz_driver.parse_resp_5003. rewrite parse_resp_status_frame. cbv zeta.
  rewrite (bool_decide_eq_false_2 (_ :: _ = [])) by discriminate.
  set (nom := kretz_driver._pad_str nombre 16) in *.
  assert (Hc : (5 <=? len ([x43; d1; d2] ++ [x30; x31] ++ cod ++ nom))
               && bool_decide (slice_to 1 ([x43; d1; d2] ++ [x30; x31] ++ cod ++ nom) = [x43])
               && forallb kretz_driver.is_digit_byte
                    (slice 1 3 ([x43; d1; d2] ++ [x30; x31] ++ cod ++ nom)) = true).
  { apply andb_true_iff. split; [apply andb_true_iff; split|].
    - apply Z.leb_le. unfold len. cbn [app length]. lia.
    - now apply bool_decide_eq_true.
    - change (slice 1 3 ([x43; d1; d2] ++ [x30; x31] ++ cod ++ nom)) with [d1; d2].
      cbn [forallb]. now rewrite Hd1, Hd2. }
  rewrite Hc. cbn [kretz_driver.code kretz_driver.ok kretz_driver.data].
  change (slice 3 5 ([x43; d1; d2] ++ [x30; x31] ++ cod ++ nom)) with [x30; x31].
  change (slice_from 5 ([x43; d1; d2] ++ [x30; x31] ++ cod ++ nom)) with (cod ++ nom).
  change (kretz_driver.decode_ascii_ignore [x30; x31]) with (txt "01").
  rewrite (bool_decide_eq_true_2 (Some (txt "01") <> None)) by discriminate.
  rewrite (bool_decide_eq_true_2 (txt "01" = txt "01")) by reflexivity.
  cbn [negb andb].
  assert (Hlc : length cod = 3%nat) by (unfold len in Hlen; lia).
  assert (Hln : length nom = 16%nat) by (unfold len in Hn; lia).
  assert (E1 : slice_to 3 (cod ++ nom) = cod).
  { unfold slice_to. change (3 <? 0) with false. cbv iota.
    change (Z.to_nat 3) with 3%nat. now apply take_app_length'. }
  assert (E2 : slice 3 19 (cod ++ nom) = nom).
  { unfold slice. change (Z.to_nat (19 - 3)) with 16%nat. change (Z.to_nat 3) with 3%nat.
    rewrite drop_app_length' by now symmetry. apply take_ge. lia. }
  rewrite E1, E2, Htxt. unfold nom, kretz_driver._pad_str.
  now rewrite decode_encode_latin1, rstrip_ljust.
Qed.

Lemma X3_parse_resp_5003_reads_payload_witness :
  kretz_driver.parse_resp_5003
    (x07 :: ([x43; x30; x33] ++ [x30; x31] ++ [x30; x30; x35]
             ++ kretz_driver._pad_str (PStr (txt "PANADERIA")) 16) ++ [x30; x30; x04])
  = Some (txt "005", txt "PANADERIA").
Proof.
  apply (X3_parse_resp_5003_reads_payload (PInt 5) (PStr (txt "PANADERIA"))
           [x30; x30; x35] x30 x33 x30 x30); reflexivity.
Defined.


(** ** GUI/kretz_driver.py — what [send_many] transmits *)

Section transmissions.

Context {device : Type}.
Variable send : device -> list byte -> device * list byte.

Lemma first_valid_or_last_logged (n : nat) (dev : device) (log : list (list byte))
    (f received : list byte) :
  exists k,
    (k <= n)%nat /\ ((1 <= n)%nat -> (1 <= k)%nat) /\
    spec.first_valid_or_last (spec.logged send) n (dev, log) f received =
      (((spec.first_valid_or_last send n dev f received).1, log ++ replicate k f),
       (spec.first_valid_or_last send n dev f received).2).
Proof.
  revert dev log received. induction n as [|n IH]; intros dev log received.
  - exists 0%nat. cbn. rewrite app_nil_r. split; [lia|]. split; [lia|reflexivity].
  - cbn [spec.first_valid_or_last]. unfold spec.logged at 1. cbn [fst snd].
    destruct (send dev f) as [dev1 r].
    destruct (kretz_driver.resp_valid r).
    + exists 1%nat. cbn. split; [lia|]. split; [lia|reflexivity].
    + destruct (IH dev1 (log ++ [f]) r) as (k & Hk & _ & E).
      exists (S k). split; [lia|]. split; [lia|].
      rewrite E. cbn [replicate]. now rewrite <- app_assoc.
Qed.

Lemma responses_logged (n : nat) (frames : list (list byte)) (dev : device)
    (log : list (list byte)) :
  exists ks,
    length ks = length frames /\
    Forall (fun k => (k <= n)%nat /\ ((1 <= n)%nat -> (1 <= k)%nat)) ks /\
    spec.responses (spec.logged send) n (dev, log) frames =
      (((spec.responses send n dev frames).1, log ++ concat (zip_with replicate ks frames)),
       (spec.responses send n dev frames).2).
Proof.
  revert dev log. induction frames as [|f rest IH]; intros dev log.
  - exists []. cbn. rewrite app_nil_r. split; [reflexivity|]. split; [constructor|reflexivity].
  - cbn [spec.responses].
    destruct (first_valid_or_last_logged n dev log f []) as (k & Hk1 & Hk2 & E). rewrite E.
    destruct (spec.first_valid_or_last send n dev f []) as [dev1 r]. cbn [fst snd].
    destruct (IH dev1 (log ++ replicate k f)) as (ks & Hl & Hks & E2). rewrite E2.
    destruct (spec.responses send n dev1 rest) as [dev2 rs]. cbn [fst snd].
    exists (k :: ks). split; [cbn; lia|]. split; [constructor; auto|].
    cbn [zip_with concat]. now rewrite <- app_assoc.
Qed.

End transmissions.

(** X4. What [send_many] writes to the device. Whatever the device
    answers, the frames go out in the order given, each one written at
    least once and at most 1 + max(0, max_retries) times in a row
    before the next; no frame is skipped and nothing else is written.
    Keeping the log changes neither the responses nor the device. *)
Theorem X4_send_many_transmissions
    {device : Type} (send : device -> list byte -> device * list byte)
    (dev : device) (frames : list (list byte)) (max_retries : Z) :
  exists dev' resps ks,
    kretz_driver.send_many send dev frames max_retries = Some (dev', resps) /\
    kretz_driver.send_many (spec.logged send) (dev, []) frames max_retries =
      Some ((dev', concat (zip_with replicate ks frames)), resps) /\
    length ks = length frames /\
    Forall (fun k => 1 <= Z.of_nat k <= 1 + Z.max 0 max_retries) ks.
Proof.
  destruct (responses_logged send (spec.budget max_retries) frames dev []) as (ks & Hl & Hks & E).
  exists (spec.responses send (spec.budget max_retries) dev frames).1,
         (spec.responses send (spec.budget max_retries) dev frames).2, ks.
  split; [|split; [|split; [exact Hl|]]].
  - unfold kretz_driver.send_many. rewrite send_many_loop_spec. reflexivity.
  - unfold kretz_driver.send_many. rewrite send_many_loop_spec, E. reflexivity.
  - eapply Forall_impl; [exact Hks|]. intros k [H1 H2]. unfold spec.budget in *. lia.
Qed.


(** ** utils/sql_safe.py *)

(** X5. Quoting is read back exactly. A text value written into a
    statement as the DAOs do, between quotes and through [sql_quote],
    is read by SQL as a literal that denotes the original text and ends
    where the closing quote was written, whatever the text contains
    (quotes included) and whatever follows that is not a further
    quote: the value can neither end its literal early nor run into
    the rest of the statement. *)
Theorem X5_sql_quote_round_trip (s rest : str) :
  head rest <> Some "'"%char ->
  exists t,
    sql_safe.literal s ++ rest = "'"%char :: t /\
    spec.sql_read_literal t = Some (s, rest).
Proof.
  intros Hrest. exists (sql_safe.sql_quote s ++ "'"%char :: rest). split.
  - unfold sql_safe.literal. cbn [txt list_ascii_of_string app]. now rewrite <- app_assoc.
  - induction s as [|c s IH].
    + cbn. destruct rest as [|c' r']; [reflexivity|].
      destruct (Ascii.eqb_spec c' "'"); [subst; now destruct Hrest|reflexivity].
    + cbn [sql_safe.sql_quote flat_map]. fold (sql_safe.sql_quote s).
      destruct (Ascii.eqb_spec c "'") as [->|Hc].
      * cbn [app spec.sql_read_literal]. cbn [Ascii.eqb Bool.eqb]. now rewrite IH.
      * cbn [app spec.sql_read_literal].
        destruct (Ascii.eqb_spec c "'"); [contradiction|]. now rewrite IH.
Qed.

Lemma X5_sql_quote_round_trip_witness :
  exists t,
    sql_safe.literal (txt "x' OR '1'='1") ++ txt ")" = "'"%char :: t /\
    spec.sql_read_literal t = Some (txt "x' OR '1'='1", txt ")").
Proof.
  apply (X5_sql_quote_round_trip (txt "x' OR '1'='1") (txt ")")). discriminate.
Defined.

(** ** GUI/kretz_adapter.py — lines and single records *)

Section lineas.

Import kretz_adapter.

Lemma mk_info_line_shape (eq : EquipoDef) (cmd datos : str) :
  exists a b, _mk_info_line eq cmd datos = "C"%char :: a :: b :: cmd ++ datos.
Proof.
  unfold _mk_info_line.
  pose proof (len_pad_num (PInt (id_equipo eq)) 2 ltac:(lia)) as Hid.
  destruct (_pad_num (PInt (id_equipo eq)) 2) as [|a [|b [|? ?]]]; try discriminate Hid.
  2:{ unfold len in Hid. simpl in Hid. lia. }
  exists a, b. reflexivity.
Qed.


End lineas.

(** X6. The command count of the acknowledgment wait sees every line
    the adapter builds: from a batch of lines made by [_mk_info_line]
    with four-character commands, [_extract_cmds_from_info_lines]
    returns exactly those commands, one per line, in order, whatever
    the data and the equipment id are. *)
Theorem X6_extract_cmds_of_built_lines (eq : kretz_adapter.EquipoDef) (cds : list (str * str)) :
  Forall (fun p => len p.1 = 4) cds ->
  kretz_adapter._extract_cmds_from_info_lines
    (map (fun p => kretz_adapter._mk_info_line eq p.1 p.2) cds) = cds.*1.
Proof.
  induction 1 as [|[cmd datos] cds Hc _ IH]; [reflexivity|].
  cbn [map fmap list_fmap fst snd] in *.
  unfold kretz_adapter._extract_cmds_from_info_lines in *. cbn [omap list_omap].
  destruct (mk_info_line_parts eq cmd datos Hc) as [Hcmd _]. unfold kretz_adapter.line_cmd in Hcmd.
  destruct (mk_info_line_shape eq cmd datos) as (a & b & E). rewrite E in *.
  rewrite bool_decide_eq_true_2 by now left.
  assert (Hl : (7 <=? len ("C"%char :: a :: b :: cmd ++ datos)) = true).
  { apply Z.leb_le. rewrite !len_cons, len_app. pose proof (len_nonneg datos). lia. }
  rewrite Hl, Hcmd. cbn [andb]. f_equal. exact IH.
Qed.

Lemma X6_extract_cmds_of_built_lines_witness :
  kretz_adapter._extract_cmds_from_info_lines
    (map (fun p => kretz_adapter._mk_info_line spec.EQ1_def p.1 p.2)
         [(txt "2003", txt "005DEP 005         "); (txt "1010", txt "02")])
  = [txt "2003"; txt "1010"].
Proof.
  apply (X6_extract_cmds_of_built_lines spec.EQ1_def
           [(txt "2003", txt "005DEP 005         "); (txt "1010", txt "02")]).
  repeat constructor.
Defined.



(** ** GUI/envios_balanzas.py — codes and the 2005 frame *)

Section tramas.

Import envios_balanzas.

Lemma len_envios_pad_num (v : pyval) (w : Z) : 0 < w -> len (pad_num v w) = w.
Proof.
  intros Hw. unfold pad_num. rewrite len_slice_to, len_rjust by lia. lia.
Qed.

Lemma len_envios_pad_str (s : str) (w : Z) : 0 < w -> len (pad_str s w) = w.
Proof.
  intros Hw. unfold pad_str. rewrite len_slice_to, len_ljust by lia. lia.
Qed.

Lemma envios_checksum_two (payload : list byte) :
  exists hi lo, _checksum_bytes payload = Some [hi; lo].
Proof.
  unfold _checksum_bytes.
  destruct (nibbles (sum_bytes payload)) as (Hhi & Hlo & Hq).
  assert (Hm : 0 <= (sum_bytes payload mod 256) mod 16 < 16) by (apply Z.mod_pos_bound; lia).
  cbv zeta. rewrite Hhi, Hlo.
  destruct (bytes_of_ints_two (sum_bytes payload mod 256 / 16 + 48)
              ((sum_bytes payload mod 256) mod 16 + 48)) as (hi & lo & Hb & _); [lia | lia |].
  eauto.
Qed.

Lemma length_filter_split {A} (P : A -> Prop) `{forall x, Decision (P x)} (l : list A) :
  (length (filter P l) + length (filter (fun x => ~ P x) l) = length l)%nat.
Proof.
  induction l as [|x l IH]; [reflexivity|].
  rewrite !filter_cons. destruct (decide (P x)) as [Hp|Hp].
  - rewrite decide_False by tauto. cbn. lia.
  - rewrite decide_True by tauto. cbn. lia.
Qed.

Lemma len_encode_ascii_ignore (s : str) :
  len (encode_ascii_ignore s) + len (filter (fun c => ~ ord c < 128) s) = len s.
Proof.
  unfold encode_ascii_ignore, len. rewrite length_map.
  pose proof (length_filter_split (fun c => ord c < 128) s). lia.
Qed.

Lemma filter_ascii_id (s : str) :
  forallb (fun c => ord c <? 128) s = true -> filter (fun c => ord c < 128) s = s.
Proof.
  induction s as [|c s IH]; [reflexivity|]. cbn [forallb]. intros [Hc Hs]%andb_true_iff.
  apply Z.ltb_lt in Hc. rewrite filter_cons, decide_True by exact Hc. now rewrite IH.
Qed.

(** The frame is the STX, the body, two check bytes and the ETX. *)
Lemma build_frame_shape (cmd data equipo_id : str) :
  exists hi lo,
    build_frame cmd data equipo_id =
      Some (STX :: _build_body cmd data equipo_id ++ [hi; lo; ETX]).
Proof.
  unfold build_frame.
  destruct (envios_checksum_two (STX :: _build_body cmd data equipo_id)) as (hi & lo & ->).
  exists hi, lo. cbn [mbind option_bind]. reflexivity.
Qed.

Lemma forallb_filter_isdigit (t : str) :
  forallb char_isdigit (filter (fun ch => char_isdigit ch = true) t) = true.
Proof.
  induction t as [|c t IH]; [reflexivity|]. rewrite filter_cons.
  destruct (decide (char_isdigit c = true)) as [Hc|Hc]; [cbn [forallb]; now rewrite Hc|exact IH].
Qed.

Lemma norm_shape (w : Z) (dflt digs : str) :
  0 < w -> len dflt = w -> forallb char_isdigit dflt = true ->
  forallb char_isdigit digs = true ->
  let d := if bool_decide (digs = []) then dflt else rjust w "0" (slice_from (- w) digs) in
  len d = w /\ forallb char_isdigit d = true.
Proof.
  intros Hw Hdl Hdd Hdigs d. split.
  - unfold d. destruct (bool_decide (digs = [])); [exact Hdl|]. now apply len_rjust_suffix.
  - unfold d. destruct (bool_decide (digs = [])); [exact Hdd|].
    unfold rjust. apply forallb_app_true; [now apply forallb_replicate|].
    unfold slice_from. destruct (- w <? 0); now apply forallb_drop.
Qed.

Lemma only_digits_fixed (d : str) :
  d <> [] -> forallb char_isdigit d = true ->
  _only_digits (por (PStr d) (PStr [])) = Ok d.
Proof.
  intros Hd Hall.
  assert (Hpor : por (PStr d) (PStr []) = PStr d).
  { unfold por. cbn [truthy]. now rewrite bool_decide_eq_false_2. }
  unfold _only_digits. rewrite !Hpor. now rewrite filter_isdigit_id.
Qed.

Lemma norm3_fixed (d : str) :
  len d = 3 -> forallb char_isdigit d = true -> _norm3 (PStr d) = Ok d.
Proof.
  intros Hl Hall.
  assert (Hd : d <> []) by (intros ->; discriminate Hl).
  unfold _norm3. rewrite only_digits_fixed by assumption. cbn [bind].
  rewrite bool_decide_eq_false_2 by exact Hd.
  rewrite (slice_from_neg_all 3) by lia. rewrite rjust_long by lia. reflexivity.
Qed.

Lemma norm6_fixed (d : str) :
  len d = 6 -> forallb char_isdigit d = true -> _norm6 (PStr d) = Ok d.
Proof.
  intros Hl Hall.
  assert (Hd : d <> []) by (intros ->; discriminate Hl).
  unfold _norm6. rewrite only_digits_fixed by assumption. cbn [bind].
  rewrite bool_decide_eq_false_2 by exact Hd.
  rewrite (slice_from_neg_all 6) by lia. rewrite rjust_long by lia. reflexivity.
Qed.

(** A value is false or text, and then [_only_digits] filters its
    text, or it is neither, and then [_only_digits] raises. *)
Lemma por_text_or_not (val : pyval) :
  (exists t, por val (PStr []) = PStr t /\
             _only_digits (por val (PStr [])) =
               Ok (filter (fun ch => char_isdigit ch = true) t)) \/
  ((forall t, por val (PStr []) <> PStr t) /\
   _only_digits (por val (PStr [])) = Raise TypeError).
Proof.
  unfold _only_digits, por. destruct val as [|z|u|r]; cbn [truthy].
  - left. exists []. split; reflexivity.
  - destruct (negb (z =? 0)) eqn:Ez.
    + right. cbn [truthy]. rewrite Ez. split; [discriminate | reflexivity].
    + left. exists []. split; reflexivity.
  - destruct (bool_decide (u = [])) eqn:Eu; cbn [negb].
    + left. exists []. split; reflexivity.
    + left. exists u. cbn [truthy]. rewrite Eu. split; reflexivity.
  - destruct (num_nonzero r) eqn:Er.
    + right. cbn [truthy]. rewrite Er. split; [discriminate | reflexivity].
    + left. exists []. split; reflexivity.
Qed.

End tramas.

(** X8. The 2005 frame of the direct-TCP path. [cmd_plu] always
    returns a frame, and its data is always 138 characters long. The
    frame is STX, "C01", "2005", the data, two check bytes and ETX, but
    only the ASCII characters of the data are written: the frame has
    149 bytes less one for every character of the data above 127 (an
    accented letter of a name, a superscript digit of a number), so the
    fields after such a character no longer stand at their offsets. *)
Theorem X8_cmd_plu_frame
    (nro_plu : pyval) (cod_depto cod_familia nombre_plu descripcion codigo_plu tipo : str)
    (valor_fijo precio precio_alt precio_ant_o_puntodec impuesto1 impuesto2 tara_pre tara_pub
     cod_etiqueta cod_receta cod_nutri fecha_envase_no venc_dias cod_imagen : pyval) :
  let data :=
    envios_balanzas.cmd_plu_data nro_plu cod_depto cod_familia nombre_plu descripcion codigo_plu
      tipo valor_fijo precio precio_alt precio_ant_o_puntodec impuesto1 impuesto2 tara_pre
      tara_pub cod_etiqueta cod_receta cod_nutri fecha_envase_no venc_dias cod_imagen in
  len data = 138 /\
  exists hi lo,
    envios_balanzas.cmd_plu nro_plu cod_depto cod_familia nombre_plu descripcion codigo_plu
      tipo valor_fijo precio precio_alt precio_ant_o_puntodec impuesto1 impuesto2 tara_pre
      tara_pub cod_etiqueta cod_receta cod_nutri fecha_envase_no venc_dias cod_imagen
    = Some (x02 :: envios_balanzas.encode_ascii_ignore (txt "C012005" ++ data) ++ [hi; lo; x04]) /\
    len (x02 :: envios_balanzas.encode_ascii_ignore (txt "C012005" ++ data) ++ [hi; lo; x04])
      = 149 - len (filter (fun c => ~ ord c < 128) data).
Proof.
  intros data.
  assert (Hd : len data = 138).
  { unfold data, envios_balanzas.cmd_plu_data.
    assert (Ht : len (if bool_decide (tipo = []) then txt "P" else slice_to 1 tipo) = 1).
    { destruct tipo as [|c t]; reflexivity. }
    rewrite !len_app, !len_envios_pad_num, !len_envios_pad_str, Ht by lia. reflexivity. }
  split; [exact Hd|].
  unfold envios_balanzas.cmd_plu. fold data.
  destruct (build_frame_shape (txt "2005") data (txt "01")) as (hi & lo & E).
  exists hi, lo. split; [exact E|].
  pose proof (len_encode_ascii_ignore (txt "C012005" ++ data)) as Hl.
  rewrite filter_app in Hl. rewrite !len_app in Hl.
  change (filter (fun c => ~ ord c < 128) (txt "C012005")) with (@nil ascii) in Hl.
  change (len (txt "C012005")) with 7 in Hl. change (len (@nil ascii)) with 0 in Hl.
  rewrite len_cons, len_app. change (len [hi; lo; x04]) with 3. lia.
Qed.

(** X9. [_norm3] and [_norm6] settle on a code of fixed width. For a
    value that is text or false, with its digits taken out in order:
    without any digit the result is "001" ("000001"); otherwise it is
    the last 3 (6) of the digits, left-padded with '0'. Whenever they
    return, the result has exactly 3 (6) characters, all of them
    digits, and normalising it again changes nothing. They raise
    exactly on a value that is neither text nor false, and what they
    raise is TypeError. *)
Theorem X9_norm_codes (val : pyval) :
  (forall t, por val (PStr []) = PStr t ->
     let d := filter (fun ch => char_isdigit ch = true) t in
     (d = [] ->
        envios_balanzas._norm3 val = Ok (txt "001") /\
        envios_balanzas._norm6 val = Ok (txt "000001")) /\
     (d <> [] ->
        envios_balanzas._norm3 val = Ok (rjust 3 "0" (slice_from (-3) d)) /\
        envios_balanzas._norm6 val = Ok (rjust 6 "0" (slice_from (-6) d)))) /\
  (forall d, envios_balanzas._norm3 val = Ok d ->
     len d = 3 /\ forallb char_isdigit d = true /\ envios_balanzas._norm3 (PStr d) = Ok d) /\
  (forall d, envios_balanzas._norm6 val = Ok d ->
     len d = 6 /\ forallb char_isdigit d = true /\ envios_balanzas._norm6 (PStr d) = Ok d) /\
  ((forall t, por val (PStr []) <> PStr t) ->
     envios_balanzas._norm3 val = Raise TypeError /\
     envios_balanzas._norm6 val = Raise TypeError) /\
  (forall e, envios_balanzas._norm3 val = Raise e ->
     e = TypeError /\ forall t, por val (PStr []) <> PStr t) /\
  (forall e, envios_balanzas._norm6 val = Raise e ->
     e = TypeError /\ forall t, por val (PStr []) <> PStr t).
Proof.
  destruct (por_text_or_not val) as [(t0 & E0 & E1)|(Hn & Hr)].
  - assert (Ht : forall t, por val (PStr []) = PStr t -> t = t0) by (intros t E; congruence).
    split; [|split; [|split; [|split; [|split]]]].
    + intros t E d. specialize (Ht t E). subst t.
      unfold envios_balanzas._norm3, envios_balanzas._norm6. rewrite E1. cbn [bind]. fold d.
      split.
      * intros ->. split; reflexivity.
      * intros Hd. rewrite !bool_decide_eq_false_2 by exact Hd. split; reflexivity.
    + intros d. unfold envios_balanzas._norm3. rewrite E1. cbn [bind]. intros [= <-].
      destruct (norm_shape 3 (txt "001") (filter (fun ch => char_isdigit ch = true) t0)
                  ltac:(lia) eq_refl eq_refl (forallb_filter_isdigit t0)) as (H1 & H2).
      cbv zeta in *. split; [exact H1|]. split; [exact H2|]. now apply norm3_fixed.
    + intros d. unfold envios_balanzas._norm6. rewrite E1. cbn [bind]. intros [= <-].
      destruct (norm_shape 6 (txt "000001") (filter (fun ch => char_isdigit ch = true) t0)
                  ltac:(lia) eq_refl eq_refl (forallb_filter_isdigit t0)) as (H1 & H2).
      cbv zeta in *. split; [exact H1|]. split; [exact H2|]. now apply norm6_fixed.
    + intros H. now destruct (H t0).
    + intros e. unfold envios_balanzas._norm3. rewrite E1. cbn [bind]. discriminate.
    + intros e. unfold envios_balanzas._norm6. rewrite E1. cbn [bind]. discriminate.
  - split; [|split; [|split; [|split; [|split]]]].
    + intros t E. now destruct (Hn t).
    + intros d. unfold envios_balanzas._norm3. rewrite Hr. cbn [bind]. discriminate.
    + intros d. unfold envios_balanzas._norm6. rewrite Hr. cbn [bind]. discriminate.
    + intros _. unfold envios_balanzas._norm3, envios_balanzas._norm6. rewrite Hr. now cbn.
    + intros e. unfold envios_balanzas._norm3. rewrite Hr. cbn [bind]. intros [= <-]. auto.
    + intros e. unfold envios_balanzas._norm6. rewrite Hr. cbn [bind]. intros [= <-]. auto.
Qed.

Lemma X9_norm_codes_witness :
  envios_balanzas._norm3 (PStr (txt "A-9012")) = Ok (txt "012") /\
  envios_balanzas._norm6 (PStr (txt "DEP")) = Ok (txt "000001") /\
  envios_balanzas._norm3 (PInt 5) = Raise TypeError.
Proof.
  destruct (X9_norm_codes (PStr (txt "A-9012"))) as (H1 & _).
  destruct (X9_norm_codes (PStr (txt "DEP"))) as (H2 & _).
  destruct (X9_norm_codes (PInt 5)) as (_ & _ & _ & H3 & _).
  split; [|split].
  - destruct (H1 (txt "A-9012") eq_refl) as (_ & H). now apply H.
  - destruct (H2 (txt "DEP") eq_refl) as (H & _). now apply H.
  - apply H3. intros t. discriminate.
Defined.


(** ** GUI/abm_departamentos.py — the JSON repository *)

Section repo_json.

Import abm_departamentos.

Lemma str_leb_refl (a : str) : sybase.str_leb a a = true.
Proof.
  induction a as [|x a IH]; [reflexivity|]. cbn [sybase.str_leb].
  destruct (Z.ltb_spec (ord x) (ord x)); [lia|exact IH].
Qed.

Lemma str_leb_total (a b : str) : sybase.str_leb a b = false -> sybase.str_leb b a = true.
Proof.
  revert b. induction a as [|x a IH]; intros [|y b]; cbn [sybase.str_leb]; try discriminate;
    try reflexivity.
  destruct (Z.ltb_spec (ord x) (ord y)); [discriminate|].
  destruct (Z.ltb_spec (ord y) (ord x)); [reflexivity|]. apply IH.
Qed.

Lemma str_leb_trans (a b c : str) :
  sybase.str_leb a b = true -> sybase.str_leb b c = true -> sybase.str_leb a c = true.
Proof.
  revert b c. induction a as [|x a IH]; intros [|y b] [|z c]; cbn [sybase.str_leb];
    try discriminate; try reflexivity.
  destruct (Z.ltb_spec (ord x) (ord y)), (Z.ltb_spec (ord y) (ord x)),
           (Z.ltb_spec (ord y) (ord z)), (Z.ltb_spec (ord z) (ord y)),
           (Z.ltb_spec (ord x) (ord z)), (Z.ltb_spec (ord z) (ord x));
    try discriminate; try reflexivity; try lia.
  apply IH.
Qed.









End repo_json.

Section repo_json_ops.

Import abm_departamentos.




End repo_json_ops.








(** ** Numbers written and read back *)

Section numeros.

Lemma digits_value_app (a : Z) (s t : str) :
  digits_value a (s ++ t) = digits_value a s ≫= fun v => digits_value v t.
Proof.
  revert a. induction s as [|c s IH]; intros a; [reflexivity|].
  cbn [app digits_value]. destruct (is_decimal c); [apply IH|reflexivity].
Qed.

Lemma ord_digit_char (d : Z) : 0 <= d < 10 -> ord (digit_char d) = 48 + d.
Proof.
  intros H. unfold ord, digit_char. rewrite N_ascii_embedding by lia. lia.
Qed.

Lemma digits_value_digit (a d : Z) :
  0 <= d < 10 -> digits_value a [digit_char d] = Some (10 * a + d).
Proof.
  intros H. cbn [digits_value]. rewrite digit_char_decimal by exact H.
  rewrite ord_digit_char by exact H. f_equal. lia.
Qed.

Lemma digits_loop_acc (fuel : nat) (n : Z) (acc : str) :
  digits_loop fuel n acc = digits_loop fuel n [] ++ acc.
Proof.
  revert n acc. induction fuel as [|f IH]; intros n acc; [reflexivity|].
  cbn [digits_loop]. destruct (n <? 10); [reflexivity|].
  rewrite (IH (n / 10) (_ :: acc)), (IH (n / 10) [_]). now rewrite <- app_assoc.
Qed.

Lemma digits_value_loop (fuel : nat) (n : Z) :
  0 <= n < 10 ^ Z.of_nat fuel -> (1 <= fuel)%nat ->
  digits_value 0 (digits_loop fuel n []) = Some n.
Proof.
  revert n. induction fuel as [|f IH]; intros n Hn Hf; [lia|].
  cbn [digits_loop]. assert (Hm : 0 <= n mod 10 < 10) by (apply Z.mod_pos_bound; lia).
  destruct (Z.ltb_spec n 10) as [Hlt|Hge].
  - rewrite digits_value_digit by exact Hm. f_equal. rewrite Z.mod_small by lia. lia.
  - rewrite digits_loop_acc, digits_value_app.
    assert (Hf1 : (1 <= f)%nat).
    { destruct f; [|lia]. change (10 ^ Z.of_nat 1) with 10 in Hn. lia. }
    rewrite IH; [| |exact Hf1].
    + cbn [mbind option_bind]. rewrite digits_value_digit by exact Hm. f_equal.
      pose proof (Z.div_mod n 10). lia.
    + replace (Z.of_nat (S f)) with (Z.of_nat f + 1) in Hn by lia.
      rewrite Z.pow_add_r in Hn by lia. change (10 ^ 1) with 10 in Hn.
      split; [apply Z.div_pos; lia|]. apply Z.div_lt_upper_bound; lia.
Qed.

Lemma digits_value_of (n : Z) : 0 <= n -> digits_value 0 (digits_of n) = Some n.
Proof.
  intros Hn. unfold digits_of. apply digits_value_loop; [|lia].
  split; [exact Hn|].
  destruct (Z.eq_dec n 0) as [->|Hz]; [reflexivity|].
  pose proof (Z.log2_spec n ltac:(lia)) as [_ Hl].
  pose proof (Z.log2_nonneg n).
  replace (Z.of_nat (S (Z.to_nat (Z.log2 n)))) with (Z.succ (Z.log2 n)) by lia.
  eapply Z.lt_le_trans; [exact Hl|]. apply Z.pow_le_mono_l. lia.
Qed.

Lemma digits_value_zeros (k : nat) (s : str) :
  digits_value 0 (replicate k "0"%char ++ s) = digits_value 0 s.
Proof. induction k as [|k IH]; [reflexivity|]. exact IH. Qed.

Lemma int_body_digits (s : str) (a : Z) (b : bool) :
  s <> [] -> forallb is_decimal s = true -> int_body s a b = digits_value a s.
Proof.
  revert a b. induction s as [|c s IH]; intros a b Hs Hall; [congruence|].
  cbn [forallb] in Hall. apply andb_true_iff in Hall as [Hc Hall].
  cbn [int_body digits_value]. rewrite Hc.
  destruct s as [|c' s']; [reflexivity|]. now apply IH.
Qed.

(** [int(s)] on a text of decimal digits. *)
Lemma py_int_digits (s : str) :
  s <> [] -> forallb is_decimal s = true -> len s <= int_max_str_digits ->
  py_int s = digits_value 0 s.
Proof.
  intros Hs Hall Hl. rewrite (py_int_literal s Hl). now apply int_literal_digits.
Qed.

Lemma str_of_Z_nonempty (n : Z) : 0 <= n -> str_of_Z n <> [].
Proof.
  intros Hn.
  assert (Hs : str_of_Z n = digits_of n) by (unfold str_of_Z; now destruct (Z.ltb_spec n 0); [lia|]).
  rewrite Hs. intros E. pose proof (digits_value_of n Hn) as Hv. rewrite E in Hv.
  cbn in Hv. unfold digits_of in E. cbn [digits_loop] in E.
  destruct (n <? 10); [discriminate E|].
  rewrite digits_loop_acc in E. now destruct (digits_loop _ _ []).
Qed.

(** A number written at a width and read back. *)
Lemma py_int_rjust (n w k : Z) :
  0 <= n < 10 ^ k -> 1 <= k <= int_max_str_digits -> w <= int_max_str_digits ->
  py_int (rjust w "0" (str_of_Z n)) = Some n.
Proof.
  intros Hn Hk Hw.
  assert (Hs : str_of_Z n = digits_of n) by (unfold str_of_Z; now destruct (Z.ltb_spec n 0); [lia|]).
  assert (Hd : forallb is_decimal (str_of_Z n) = true) by (apply str_of_Z_decimal; lia).
  assert (Hne : str_of_Z n <> []) by (apply str_of_Z_nonempty; lia).
  rewrite py_int_digits.
  - unfold rjust. rewrite digits_value_zeros, Hs. apply digits_value_of. lia.
  - unfold rjust. intros E. apply app_eq_nil in E as [_ E]. contradiction.
  - unfold rjust. apply forallb_app_true; [now apply forallb_replicate|exact Hd].
  - rewrite len_rjust. pose proof (len_str_of_Z_le n k ltac:(lia) ltac:(lia)). lia.
Qed.

(** The value of decimal digits, and that of their last [k]. *)
Lemma digits_value_shift (s : str) :
  forallb is_decimal s = true ->
  exists v, (forall a, digits_value a s = Some (a * 10 ^ len s + v)) /\ 0 <= v < 10 ^ len s.
Proof.
  induction s as [|c s IH]; intros Hall.
  - exists 0. change (10 ^ len (@nil ascii)) with 1.
    split; [intros a; cbn [digits_value]; f_equal; lia|lia].
  - cbn [forallb] in Hall. apply andb_true_iff in Hall as [Hc Hall].
    destruct (IH Hall) as (v & Hv & Hb). pose proof (len_nonneg s).
    assert (Hp : 10 ^ len (c :: s) = 10 * 10 ^ len s).
    { rewrite len_cons. replace (1 + len s) with (len s + 1) by lia.
      rewrite Z.pow_add_r by lia. change (10 ^ 1) with 10. lia. }
    exists ((ord c - 48) * 10 ^ len s + v). split.
    + intros a. cbn [digits_value]. rewrite Hc, Hv, Hp. f_equal. lia.
    + rewrite Hp. apply decimal_range in Hc. nia.
Qed.

Lemma digits_value_suffix (s : str) (k : Z) (n : Z) :
  0 < k -> forallb is_decimal s = true -> digits_value 0 s = Some n ->
  digits_value 0 (slice_from (- k) s) = Some (n mod 10 ^ k).
Proof.
  intros Hk Hall Hn.
  destruct (Z.le_gt_cases (len s) k) as [Hle|Hgt].
  - rewrite slice_from_neg_all by exact Hle. rewrite Hn. f_equal.
    destruct (digits_value_shift s Hall) as (v & E & Hv). rewrite E in Hn.
    injection Hn as <-. rewrite Z.mod_small; [reflexivity|].
    split; [lia|]. eapply Z.lt_le_trans; [apply Hv|]. apply Z.pow_le_mono_r; lia.
  - unfold slice_from. destruct (Z.ltb_spec (- k) 0); [|lia].
    set (m := Z.to_nat (len s + - k)).
    rewrite <- (take_drop m s) in Hn. rewrite digits_value_app in Hn.
    destruct (digits_value_shift (take m s) (forallb_take _ _ _ Hall)) as (v1 & E1 & _).
    destruct (digits_value_shift (drop m s) (forallb_drop _ _ _ Hall)) as (v2 & E2 & Hv2).
    rewrite E1 in Hn. cbn [mbind option_bind] in Hn. rewrite E2 in Hn. injection Hn as <-.
    assert (Hl : len (drop m s) = k).
    { unfold len. rewrite length_drop. unfold m, len in *. lia. }
    rewrite E2, Hl in *. f_equal.
    first [ apply (Z.mod_unique_pos _ _ (0 * 10 ^ len (take m s) + v1)); [lia|ring]
          | symmetry; apply (Z.mod_unique_pos _ _ (0 * 10 ^ len (take m s) + v1)); [lia|ring] ].
Qed.

End numeros.


(** ** GUI/kretz_adapter.py — the department of an item *)

Section departamento.

Import kretz_adapter.

Lemma pad_num_int (n w : Z) :
  1 <= n <= 10 ^ w - 1 -> 1 <= w -> _pad_num (PInt n) w = rjust w "0" (str_of_Z n).
Proof.
  intros Hn Hw. unfold _pad_num, por. cbn [truthy].
  destruct (Z.eqb_spec n 0); [lia|]. cbn [negb py_str].
  pose proof (str_of_Z_decimal n ltac:(lia)) as Hd.
  rewrite strip_decimal by exact Hd.
  rewrite isdigit_decimal by (try exact Hd; apply str_of_Z_nonempty; lia).
  rewrite slice_from_neg_all; [reflexivity|]. apply len_str_of_Z_le; lia.
Qed.

Lemma slice_from_neg_nonempty {A} (k : Z) (s : list A) :
  0 < k -> s <> [] -> slice_from (- k) s <> [].
Proof.
  intros Hk Hs E. pose proof (len_slice_from_neg k s Hk) as H. rewrite E in H.
  destruct s; [congruence|]. unfold len in H. cbn [length] in H. lia.
Qed.

End departamento.

(** X13. The department of an item is its numeric code modulo 1000.
    With s the decimal digits of the item's department value (CGRPCONTA,
    depto or cod_depto) and N the number they write: [_coerce_dep3]
    gives nothing when s is empty or N is a multiple of 1000, and
    otherwise N mod 1000 written with three digits. So what it returns
    is always three decimal digits denoting a number from 1 to 999;
    department 1000 is rejected and 1005 is sent as "005". *)
Theorem X13_coerce_dep3_mod_1000 (it : kretz_adapter.dict) :
  let s := kretz_adapter._digits
             (kretz_adapter._ci it [txt "CGRPCONTA"; txt "depto"; txt "cod_depto"]) in
  (s = [] -> kretz_adapter._coerce_dep3 it = None) /\
  (s <> [] ->
     exists N, digits_value 0 s = Some N /\ 0 <= N /\
       kretz_adapter._coerce_dep3 it =
         if N mod 1000 =? 0 then None else Some (rjust 3 "0" (str_of_Z (N mod 1000)))) /\
  (forall d, kretz_adapter._coerce_dep3 it = Some d ->
     len d = 3 /\ forallb is_decimal d = true /\
     exists n, 1 <= n <= 999 /\ py_int d = Some n).
Proof.
  intros s.
  assert (Hall : forallb is_decimal s = true) by apply forallb_filter_decimal.
  assert (Hnone : s = [] -> kretz_adapter._coerce_dep3 it = None).
  { intros E. unfold kretz_adapter._coerce_dep3. fold s. now rewrite E. }
  assert (Hsome : s <> [] ->
            exists N, digits_value 0 s = Some N /\ 0 <= N /\
              kretz_adapter._coerce_dep3 it =
                if N mod 1000 =? 0 then None else Some (rjust 3 "0" (str_of_Z (N mod 1000)))).
  { intros Hs. destruct (digits_value_shift s Hall) as (v & Hv & Hb).
    exists v. specialize (Hv 0). rewrite Z.mul_0_l, Z.add_0_l in Hv.
    split; [exact Hv|]. split; [lia|].
    unfold kretz_adapter._coerce_dep3. fold s.
    rewrite bool_decide_eq_false_2 by exact Hs.
    rewrite py_int_digits;
      [|now apply (slice_from_neg_nonempty 3)
       |unfold slice_from; destruct (-3 <? 0); now apply forallb_drop
       |pose proof (len_slice_from_neg 3 s ltac:(lia)) as Hl3;
        change (slice_from (- (3)) s) with (slice_from (-3) s) in Hl3;
        unfold int_max_str_digits; lia].
    pose proof (digits_value_suffix s 3 v ltac:(lia) Hall Hv) as Hsuf.
    change (slice_from (- (3)) s) with (slice_from (-3) s) in Hsuf. rewrite Hsuf.
    change (10 ^ 3) with 1000.
    assert (Hm : 0 <= v mod 1000 < 1000) by (apply Z.mod_pos_bound; lia).
    destruct (Z.eqb_spec (v mod 1000) 0) as [E|E].
    - rewrite E. reflexivity.
    - destruct (Z.leb_spec (v mod 1000) 0); [lia|].
      rewrite pad_num_int; [reflexivity| |lia]. change (10 ^ 3) with 1000. lia. }
  split; [exact Hnone|]. split; [exact Hsome|].
  intros d Hd.
  destruct (decide (s = [])) as [E|E]; [rewrite (Hnone E) in Hd; discriminate|].
  destruct (Hsome E) as (N & _ & HN & Hc). rewrite Hc in Hd.
  assert (Hm : 0 <= N mod 1000 < 1000) by (apply Z.mod_pos_bound; lia).
  destruct (Z.eqb_spec (N mod 1000) 0) as [Hz|Hz]; [discriminate|].
  injection Hd as <-.
  destruct (rjust_number (N mod 1000) 3) as [Hl Hdec]; [change (10 ^ 3) with 1000; lia|lia|].
  split; [exact Hl|]. split; [exact Hdec|].
  exists (N mod 1000). split; [lia|].
  apply (py_int_rjust _ 3 3); [change (10 ^ 3) with 1000; lia | |]; unfold int_max_str_digits; lia.
Qed.

Lemma X13_coerce_dep3_mod_1000_witness :
  kretz_adapter._coerce_dep3 [(txt "CGRPCONTA", PStr (txt "1005"))] = Some (txt "005") /\
  kretz_adapter._coerce_dep3 [(txt "CGRPCONTA", PStr (txt "1000"))] = None.
Proof.
  split.
  - destruct (X13_coerce_dep3_mod_1000 [(txt "CGRPCONTA", PStr (txt "1005"))]) as (_ & H & _).
    destruct H as (N & HN & _ & ->); [vm_compute; discriminate|].
    vm_compute in HN. injection HN as <-. reflexivity.
  - destruct (X13_coerce_dep3_mod_1000 [(txt "CGRPCONTA", PStr (txt "1000"))]) as (_ & H & _).
    destruct H as (N & HN & _ & ->); [vm_compute; discriminate|].
    vm_compute in HN. injection HN as <-. reflexivity.
Defined.


(** ** GUI/kretz_adapter.py — the fields of a 2005 record *)

Section campos.

Import kretz_adapter.

Lemma slice_parts (pre : list str) (p post : str) (i j : Z) :
  i = len (concat pre) -> j = i + len p -> slice i j (concat pre ++ p ++ post) = p.
Proof.
  intros -> ->. unfold slice.
  replace (Z.to_nat (len (concat pre))) with (length (concat pre)) by (unfold len; lia).
  rewrite drop_app_length.
  replace (Z.to_nat (len (concat pre) + len p - len (concat pre))) with (length p)
    by (unfold len; lia).
  apply take_app_length.
Qed.

Lemma len_tipo (t : str) : len (ljust 1 " " (slice_to 1 t)) = 1.
Proof. rewrite len_ljust, len_slice_to by lia. lia. Qed.

(** The record, part by part. *)
Lemma build_parts (fl : str -> float_cents) (it : dict) (fam_def : pyval) (dec_prec : Z)
    (datos : str) :
  let fam_txt := strip (py_str fam_def) in
  let fam_num := default 0 (py_int (if bool_decide (fam_txt = []) then txt "0" else fam_txt)) in
  _build_datos_2005_modelo fl it fam_def dec_prec = Ok (Some datos) ->
  exists plu6 dep nom desc tipo precio imp1,
    _coerce_plu6 it = Some plu6 /\ _coerce_dep3 it = Some dep /\
    _price_to_width (_ci it [txt "NPVP1"; txt "precio"]) 6 = Ok precio /\
    _imp_from_ctipoiva fl (_ci it [txt "CTIPOIVA"]) = Ok imp1 /\
    len plu6 = 6 /\ len dep = 3 /\ len nom = 26 /\ len desc = 26 /\ len tipo = 1 /\
    len precio = 6 /\
    datos = plu6 ++ dep ++ rjust 3 "0" (str_of_Z fam_num) ++ nom ++ desc ++
            (txt "0" ++ slice_from (-4) plu6) ++ tipo ++ _pad_num_w 0 7 ++
            precio ++ _pad_num_w 0 6 ++ _pad_num_w 0 6 ++
            rjust 6 "0" (slice_from (-6) imp1) ++ _pad_num_w 0 6 ++ _pad_num_w 0 5 ++
            _pad_num_w 0 5 ++ _pad_num_w 1 2 ++ _pad_num_w 0 4 ++ _pad_num_w 0 4 ++
            _pad_num_w 0 4 ++ rjust 4 "0" (str_of_Z (Z.max 0 (Z.min 2 dec_prec))).
Proof.
  intros fam_txt fam_num. unfold _build_datos_2005_modelo. fold fam_txt. fold fam_num.
  destruct model_values as (M3 & M4 & M5 & M6 & M7 & M8 & M9 & M10 & M11 & M12 & M13 & M14 &
                            M15 & M16 & M17 & M18 & M19 & M22 & _).
  rewrite M3, M4, M5, M6, M7, M8, M9, M10, M11, M12, M13, M14, M15, M16, M17, M18, M19, M22.
  destruct (_coerce_plu6 it) as [plu6|] eqn:Hplu; [|discriminate].
  destruct (_coerce_dep3 it) as [dep|] eqn:Hdep; [|discriminate].
  destruct (_pad_txt_w _ 26) as [nom|] eqn:Hnom; [|discriminate]. cbn [bind].
  destruct (_pad_txt_w (PStr []) 26) as [desc|] eqn:Hdesc; [|discriminate]. cbn [bind].
  destruct (_price_to_width _ 6) as [precio|] eqn:Hprecio; [|discriminate]. cbn [bind].
  destruct (_imp_from_ctipoiva fl _) as [imp1|] eqn:Himp; [|discriminate]. cbn [bind].
  intros H.
  apply len_coerce_plu6 in Hplu as Hl1. apply len_coerce_dep3 in Hdep as Hl2.
  apply len_pad_txt_w in Hnom; [|lia]. apply len_pad_txt_w in Hdesc; [|lia].
  apply len_price in Hprecio as Hl9; [|lia].
  assert (Hplu4 : len (slice_from (-4) plu6) = 4) by (rewrite (len_slice_from_neg 4) by lia; lia).
  assert (Hcod : (len (txt "0" ++ slice_from (-4) plu6) =? 5) = true).
  { rewrite len_app, Hplu4. reflexivity. }
  rewrite Hcod in H.
  eexists plu6, dep, nom, desc, _, precio, imp1.
  repeat (split; [first [reflexivity | eassumption | apply len_tipo]|]).
  apply (f_equal (fun r => match r with Ok (Some d) => d | _ => [] end)) in H.
  cbv beta iota in H. rewrite <- H. reflexivity.
Qed.

End campos.

(** [slice i j x = p], for [x] the parts [pre], then [p], then [post]. *)
Ltac campo pre p post :=
  match goal with
  | |- slice _ _ ?x = _ =>
      replace x with (concat pre ++ p ++ post)
        by (cbn [concat]; rewrite <- ?app_assoc, ?app_nil_r; reflexivity)
  end;
  apply slice_parts; cbn [concat]; rewrite ?len_app;
  repeat match goal with H : len _ = _ |- _ => rewrite H end;
  unfold len; cbn [length txt list_ascii_of_string]; lia.

(** X14. A 2005 record reads back at the model's offsets. Whenever
    [_build_datos_2005_modelo] returns a record and the family number
    takes at most three characters, the record holds, at the fixed
    positions of the 135-character model: the PLU that [_coerce_plu6]
    derives (0..6), the department that [_coerce_dep3] derives (6..9),
    the family number at width 3 (9..12), "0" and the last four digits
    of the PLU (64..69), the price field that [_price_to_width] gives at
    width 6 (77..83), zeros for the two other prices (83..95), and the
    decimals selector, the requested value held to 0..2, at width 4
    (131..135). *)
Theorem X14_record_fields
    (fl : str -> float_cents) (it : kretz_adapter.dict) (fam_def : pyval) (dec_prec : Z)
    (datos : str) :
  let fam_txt := strip (py_str fam_def) in
  let fam_num := default 0 (py_int (if bool_decide (fam_txt = []) then txt "0" else fam_txt)) in
  len (str_of_Z fam_num) <= 3 ->
  kretz_adapter._build_datos_2005_modelo fl it fam_def dec_prec = Ok (Some datos) ->
  kretz_adapter._coerce_plu6 it = Some (slice 0 6 datos) /\
  kretz_adapter._coerce_dep3 it = Some (slice 6 9 datos) /\
  slice 9 12 datos = rjust 3 "0" (str_of_Z fam_num) /\
  slice 64 69 datos = txt "0" ++ slice 2 6 datos /\
  kretz_adapter._price_to_width (kretz_adapter._ci it [txt "NPVP1"; txt "precio"]) 6
    = Ok (slice 77 83 datos) /\
  slice 83 95 datos = txt "000000000000" /\
  slice 131 135 datos = rjust 4 "0" (str_of_Z (Z.max 0 (Z.min 2 dec_prec))).
Proof.
  intros fam_txt fam_num Hfam Hb.
  destruct (build_parts fl it fam_def dec_prec datos Hb)
    as (plu6 & dep & nom & desc & tipo & precio & imp1 &
        Hplu & Hdep & Hprecio & Himp & L1 & L2 & L4 & L5 & L7 & L9 & ->).
  fold fam_txt. fold fam_num.
  set (fam := rjust 3 "0" (str_of_Z fam_num)).
  assert (L3 : len fam = 3) by (unfold fam; rewrite len_rjust; lia).
  set (cod5 := txt "0" ++ slice_from (-4) plu6).
  assert (L6 : len cod5 = 5).
  { unfold cod5. rewrite len_app, (len_slice_from_neg 4) by lia. change (len (txt "0")) with 1. lia. }
  set (imp := rjust 6 "0" (slice_from (-6) imp1)).
  assert (L12 : len imp = 6) by (unfold imp; now apply (len_rjust_suffix 6)).
  set (c22 := rjust 4 "0" (str_of_Z (Z.max 0 (Z.min 2 dec_prec)))).
  assert (L22 : len c22 = 4) by (unfold c22; apply rjust_number; lia).
  set (post := kretz_adapter._pad_num_w 0 6 ++ kretz_adapter._pad_num_w 0 6 ++ imp ++
               kretz_adapter._pad_num_w 0 6 ++ kretz_adapter._pad_num_w 0 5 ++
               kretz_adapter._pad_num_w 0 5 ++ kretz_adapter._pad_num_w 1 2 ++
               kretz_adapter._pad_num_w 0 4 ++ kretz_adapter._pad_num_w 0 4 ++
               kretz_adapter._pad_num_w 0 4 ++ c22).
  assert (Hplu4 : slice_from (-4) plu6 = slice 2 6 plu6).
  { unfold slice_from, slice. change (-4 <? 0) with true. cbv iota.
    replace (Z.to_nat (len plu6 + -4)) with 2%nat by lia.
    change (Z.to_nat (6 - 2)) with 4%nat. change (Z.to_nat 2) with 2%nat.
    symmetry. apply take_ge. rewrite length_drop. unfold len in L1. lia. }
  assert (L8 : len (kretz_adapter._pad_num_w 0 7) = 7) by reflexivity.
  assert (F1 : slice 0 6 (plu6 ++ dep ++ fam ++ nom ++ desc ++ cod5 ++ tipo ++
                          kretz_adapter._pad_num_w 0 7 ++ precio ++ post) = plu6).
  { campo (@nil str) plu6
          (dep ++ fam ++ nom ++ desc ++ cod5 ++ tipo ++ kretz_adapter._pad_num_w 0 7 ++
           precio ++ post). }
  split; [now rewrite F1|]. split.
  { rewrite Hdep. f_equal. symmetry.
    campo [plu6] dep
          (fam ++ nom ++ desc ++ cod5 ++ tipo ++ kretz_adapter._pad_num_w 0 7 ++ precio ++ post). }
  split.
  { campo [plu6; dep] fam
          (nom ++ desc ++ cod5 ++ tipo ++ kretz_adapter._pad_num_w 0 7 ++ precio ++ post). }
  split.
  { assert (F4 : slice 2 6 (plu6 ++ dep ++ fam ++ nom ++ desc ++ cod5 ++ tipo ++
                            kretz_adapter._pad_num_w 0 7 ++ precio ++ post) = slice 2 6 plu6).
    { unfold slice. change (Z.to_nat (6 - 2)) with 4%nat. change (Z.to_nat 2) with 2%nat.
      rewrite drop_app_le by (unfold len in L1; lia). apply take_app_le.
      rewrite length_drop. unfold len in L1. lia. }
    rewrite F4, <- Hplu4. fold cod5.
    campo [plu6; dep; fam; nom; desc] cod5
          (tipo ++ kretz_adapter._pad_num_w 0 7 ++ precio ++ post). }
  split.
  { rewrite Hprecio. f_equal. symmetry.
    campo [plu6; dep; fam; nom; desc; cod5; tipo; kretz_adapter._pad_num_w 0 7] precio post. }
  split.
  { unfold post.
    campo [plu6; dep; fam; nom; desc; cod5; tipo; kretz_adapter._pad_num_w 0 7; precio]
          (txt "000000000000")
          (imp ++ kretz_adapter._pad_num_w 0 6 ++ kretz_adapter._pad_num_w 0 5 ++
           kretz_adapter._pad_num_w 0 5 ++ kretz_adapter._pad_num_w 1 2 ++
           kretz_adapter._pad_num_w 0 4 ++ kretz_adapter._pad_num_w 0 4 ++
           kretz_adapter._pad_num_w 0 4 ++ c22). }
  unfold post.
  campo [plu6; dep; fam; nom; desc; cod5; tipo; kretz_adapter._pad_num_w 0 7; precio;
         txt "000000000000"; imp; txt "000000000000000001000000000000"]
        c22 (@nil ascii).
Qed.

Lemma X14_record_fields_witness :
  exists datos,
    kretz_adapter._build_datos_2005_modelo spec.float_x100_whole spec.row_1017 (PInt 0) 1
      = Ok (Some datos) /\
    slice 131 135 datos = txt "0001" /\
    kretz_adapter._coerce_plu6 spec.row_1017 = Some (slice 0 6 datos).
Proof.
  assert (E : exists datos,
            kretz_adapter._build_datos_2005_modelo spec.float_x100_whole spec.row_1017 (PInt 0) 1
            = Ok (Some datos)) by (vm_compute; eauto).
  destruct E as (datos & E). exists datos. split; [exact E|].
  pose proof (X14_record_fields spec.float_x100_whole spec.row_1017 (PInt 0) 1 datos) as H.
  cbv zeta in H. destruct H as (H1 & _ & _ & _ & _ & _ & H7); [vm_compute; discriminate|exact E|].
  split; [exact H7 | exact H1].
Defined.


(** ** db/dao_articulos_balanza.py — the enriched rows *)

Section filas.

Import kretz_adapter dao_articulos_balanza.

Lemma dict_get_dict_set_eq (r : dict) (k : str) (v : pyval) :
  dict_get (dict_set r k v) k = Some v.
Proof.
  unfold dict_get. induction r as [|[k' v'] r IH]; cbn [dict_set List.find fst].
  - now rewrite bool_decide_eq_true_2.
  - destruct (decide (k' = k)) as [E|E].
    + rewrite (bool_decide_eq_true_2 (k' = k)) by exact E. cbn [List.find fst].
      now rewrite bool_decide_eq_true_2.
    + rewrite (bool_decide_eq_false_2 (k' = k)) by exact E. cbn [List.find fst].
      now rewrite (bool_decide_eq_false_2 (k' = k)) by exact E.
Qed.

Lemma dict_get_dict_set_ne (r : dict) (k k0 : str) (v : pyval) :
  k0 <> k -> dict_get (dict_set r k v) k0 = dict_get r k0.
Proof.
  intros Hne. unfold dict_get. induction r as [|[k' v'] r IH]; cbn [dict_set List.find fst].
  - now rewrite bool_decide_eq_false_2 by congruence.
  - destruct (decide (k' = k)) as [E|E].
    + rewrite (bool_decide_eq_true_2 (k' = k)) by exact E. cbn [List.find fst]. subst k'.
      now rewrite !(bool_decide_eq_false_2 (k = k0)) by congruence.
    + rewrite (bool_decide_eq_false_2 (k' = k)) by exact E. cbn [List.find fst].
      destruct (bool_decide (k' = k0)); [reflexivity|exact IH].
Qed.

Lemma ln_get_dict_set (r : dict) (k x : str) (v : pyval) :
  lower k <> x -> ln_get (dict_set r k v) x = ln_get r x.
Proof.
  intros Hne. unfold ln_get. f_equal.
  induction r as [|[k' v'] r IH]; cbn [dict_set fmap list_fmap fst].
  - now rewrite filter_cons, decide_False.
  - destruct (decide (k' = k)) as [E|E].
    + rewrite (bool_decide_eq_true_2 (k' = k)) by exact E. cbn [fmap list_fmap fst].
      subst k'. now rewrite !filter_cons, !decide_False.
    + rewrite (bool_decide_eq_false_2 (k' = k)) by exact E. cbn [fmap list_fmap fst].
      rewrite !filter_cons. fold (@fmap list _ _ _ (@fst str pyval) (dict_set r k v)).
      fold (@fmap list _ _ _ (@fst str pyval) r). rewrite IH. reflexivity.
Qed.

Lemma ln_get_lower (r : dict) (x k0 : str) : ln_get r x = Some k0 -> lower k0 = x.
Proof.
  unfold ln_get. intros H. apply last_Some_elem_of in H.
  now apply list_elem_of_filter in H as [H _].
Qed.

Lemma ci_dict_set (r : dict) (k : str) (v : pyval) (names : list str) :
  Forall (fun n => lower k <> lower n) names -> _ci (dict_set r k v) names = _ci r names.
Proof.
  induction 1 as [|n names Hn _ IH]; [reflexivity|]. cbn [_ci].
  rewrite ln_get_dict_set by exact Hn.
  destruct (ln_get r (lower n)) as [k0|] eqn:E; [|exact IH].
  apply ln_get_lower in E. rewrite dict_get_dict_set_ne; [reflexivity|].
  intros ->. congruence.
Qed.

Lemma ci_enrich (r : dict) (names : list str) :
  Forall (fun n => txt "plu4" <> lower n /\ txt "plu6" <> lower n) names ->
  _ci (enrich r) names = _ci r names.
Proof.
  intros H. unfold enrich. rewrite !ci_dict_set; [reflexivity| |].
  - eapply Forall_impl; [exact H|]. now intros n [? _].
  - eapply Forall_impl; [exact H|]. now intros n [_ ?].
Qed.

End filas.

(** X15. The columns the DAO adds are never read by the adapter.
    [enrich] sets "PLU4" and "PLU6" from the row's CREF and CCODEBAR
    and leaves every other column as it was; and the record that
    [_build_datos_2005_modelo] builds from the enriched row is the one
    it builds from the row itself: the adapter derives the PLU again,
    from CREF and CCODEBAR, by its own rule. *)
Theorem X15_enrich_not_read (fl : str -> float_cents) (r : kretz_adapter.dict)
    (fam_def : pyval) (dec_prec : Z) :
  let plu4 := dao_articulos_balanza._plu4_from_cref_barcode
                (default PNone (kretz_adapter.dict_get r (txt "CREF")))
                (default PNone (kretz_adapter.dict_get r (txt "CCODEBAR"))) in
  kretz_adapter.dict_get (dao_articulos_balanza.enrich r) (txt "PLU4") = Some (PStr plu4) /\
  kretz_adapter.dict_get (dao_articulos_balanza.enrich r) (txt "PLU6")
    = Some (PStr (dao_articulos_balanza.plu6_of plu4)) /\
  (forall k, k <> txt "PLU4" -> k <> txt "PLU6" ->
     kretz_adapter.dict_get (dao_articulos_balanza.enrich r) k = kretz_adapter.dict_get r k) /\
  kretz_adapter._build_datos_2005_modelo fl (dao_articulos_balanza.enrich r) fam_def dec_prec
    = kretz_adapter._build_datos_2005_modelo fl r fam_def dec_prec.
Proof.
  intros plu4. split; [|split; [|split]].
  - unfold dao_articulos_balanza.enrich. fold plu4.
    rewrite dict_get_dict_set_ne by discriminate. apply dict_get_dict_set_eq.
  - unfold dao_articulos_balanza.enrich. fold plu4. apply dict_get_dict_set_eq.
  - intros k H4 H6. unfold dao_articulos_balanza.enrich.
    now rewrite !dict_get_dict_set_ne.
  - unfold kretz_adapter._build_datos_2005_modelo, kretz_adapter._coerce_plu6,
      kretz_adapter._coerce_dep3.
    rewrite !ci_enrich by (repeat constructor; discriminate). reflexivity.
Qed.


(** ** GUI/kretz_adapter.py — field lengths read with 5002 *)

Section longitudes.

Import kretz_adapter.

Lemma py_int_decimal_bound (s : str) (k : Z) :
  len s = k -> 0 < k <= int_max_str_digits -> forallb is_decimal s = true ->
  exists v, py_int s = Some v /\ 0 <= v < 10 ^ k.
Proof.
  intros Hl Hk Hall. destruct (digits_value_shift s Hall) as (v & Hv & Hb).
  exists v. rewrite py_int_digits;
    [|intros ->; unfold len in Hl; cbn in Hl; lia|exact Hall|lia].
  rewrite Hv, Hl in *. split; [f_equal; lia|exact Hb].
Qed.

Lemma parse_5002_line_rango (out : gmap Z Z) (ln : str) :
  spec.campos_en_rango out -> spec.campos_en_rango (_parse_5002_line out ln).
Proof.
  intros Hout. unfold _parse_5002_line, _5002_RX_match.
  destruct (strip ln) as [|c r0]; [exact Hout|].
  set (r := if bool_decide (last r0 = Some (ascii_of_N 10)) then removelast r0 else r0).
  destruct (Ascii.eqb c "C" && ((len r =? 13) || (len r =? 15)) && forallb is_decimal r) eqn:E;
    [|exact Hout].
  apply andb_true_iff in E as [E Hall]. apply andb_true_iff in E as [_ Hlen].
  assert (Hl : 13 <= len r).
  { apply orb_true_iff in Hlen as [H%Z.eqb_eq|H%Z.eqb_eq]; lia. }
  destruct (bool_decide (slice 4 6 r <> txt "02")); [exact Hout|].
  destruct (py_int (slice 2 4 r)); [|exact Hout].
  destruct (py_int (slice 6 8 r)); [|exact Hout].
  destruct (py_int_decimal_bound (slice 8 10 r) 2) as (campo & -> & Hc);
    [rewrite len_slice; lia|unfold int_max_str_digits; lia|now apply forallb_slice|].
  destruct (py_int_decimal_bound (slice 10 13 r) 3) as (largo & -> & Hg);
    [rewrite len_slice; lia|unfold int_max_str_digits; lia|now apply forallb_slice|].
  change (10 ^ 2) with 100 in Hc. change (10 ^ 3) with 1000 in Hg.
  destruct (Z.ltb_spec 0 largo); [|exact Hout].
  intros k v. destruct (decide (k = campo)) as [->|Hk].
  - rewrite lookup_insert_eq. intros [= <-]. lia.
  - rewrite lookup_insert_ne by congruence. apply Hout.
Qed.

Lemma lstrip_head (c : ascii) (s : str) : char_isspace c = false -> lstrip (c :: s) = c :: s.
Proof. intros H. cbn [lstrip]. now rewrite H. Qed.

Lemma strip_ends (c d : ascii) (s : str) :
  char_isspace c = false -> char_isspace d = false -> strip (c :: s ++ [d]) = c :: s ++ [d].
Proof.
  intros Hc Hd. unfold strip, rstrip. rewrite lstrip_head by exact Hc.
  change (c :: s ++ [d]) with ((c :: s) ++ [d]). rewrite rev_app_distr. cbn [rev app].
  rewrite lstrip_head by exact Hd.
  change (d :: rev s ++ [c]) with ([d] ++ (rev s ++ [c])).
  rewrite rev_app_distr, rev_app_distr, rev_involutive. reflexivity.
Qed.

Lemma strip_C_digits (r : str) :
  forallb is_decimal r = true -> strip ("C"%char :: r) = "C"%char :: r.
Proof.
  intros Hall. unfold strip, rstrip. rewrite lstrip_head by reflexivity.
  cbn [rev]. destruct (rev r) as [|d t] eqn:E.
  - apply (f_equal (@rev ascii)) in E. rewrite rev_involutive in E. now subst r.
  - assert (Hd : is_decimal d = true).
    { apply forallb_rev in Hall. rewrite E in Hall. cbn [forallb] in Hall.
      now apply andb_true_iff in Hall. }
    cbn [app]. rewrite lstrip_head by now apply decimal_not_space.
    change (d :: t ++ ["C"%char]) with ((d :: t) ++ ["C"%char]). rewrite <- E.
    rewrite rev_app_distr, rev_involutive. reflexivity.
Qed.

Lemma last_decimal_not_newline (r : str) :
  forallb is_decimal r = true -> last r <> Some (ascii_of_N 10).
Proof.
  intros Hall H. apply last_Some_elem_of in H.
  rewrite forallb_forall in Hall. specialize (Hall _ (proj1 (list_elem_of_In _ _) H)).
  discriminate Hall.
Qed.

End longitudes.

(** X16. The table read from 5002 responses. Whatever lines come back,
    every field number in the result of [_parse_5002_lines] is in 0..99
    and every length in 1..999. A response line of the expected form
    ("C", equipment id, entity, "02", entity, field at two digits,
    length at three digits, with a length of at least 1) sets the
    length of that field, replacing what an earlier line gave for it. *)
Theorem X16_parse_5002_lines (lines : list str) (entidad : Z) :
  spec.campos_en_rango (kretz_adapter._parse_5002_lines lines entidad) /\
  (forall (ideq entity ent2 : str) (campo largo : Z),
     len ideq = 2 -> len entity = 2 -> len ent2 = 2 ->
     forallb is_decimal ideq = true -> forallb is_decimal entity = true ->
     forallb is_decimal ent2 = true ->
     0 <= campo <= 99 -> 1 <= largo <= 999 ->
     kretz_adapter._parse_5002_lines
       (lines ++ [txt "C" ++ ideq ++ entity ++ txt "02" ++ ent2 ++
                  rjust 2 "0" (str_of_Z campo) ++ rjust 3 "0" (str_of_Z largo)]) entidad
     = <[campo := largo]> (kretz_adapter._parse_5002_lines lines entidad)).
Proof.
  split.
  - unfold kretz_adapter._parse_5002_lines.
    induction lines as [|ln lines IH] using rev_ind.
    + cbn [foldl]. intros k v H. rewrite lookup_empty in H. discriminate.
    + rewrite foldl_app. cbn [foldl]. now apply parse_5002_line_rango.
  - intros ideq entity ent2 campo largo L1 L2 L3 D1 D2 D3 Hc Hl.
    unfold kretz_adapter._parse_5002_lines. rewrite foldl_app. cbn [foldl].
    set (out := foldl kretz_adapter._parse_5002_line ∅ lines).
    destruct (rjust_number campo 2) as [L5 D5]; [change (10 ^ 2) with 100; lia|lia|].
    destruct (rjust_number largo 3) as [L6 D6]; [change (10 ^ 3) with 1000; lia|lia|].
    set (c2 := rjust 2 "0" (str_of_Z campo)) in *.
    set (l3 := rjust 3 "0" (str_of_Z largo)) in *.
    set (r := ideq ++ entity ++ txt "02" ++ ent2 ++ c2 ++ l3).
    assert (Hall : forallb is_decimal r = true).
    { unfold r. repeat (apply forallb_app_true; [assumption || reflexivity|]). exact D6. }
    assert (Hlen : len r = 13).
    { unfold r. rewrite !len_app, L1, L2, L3, L5, L6. reflexivity. }
    assert (L4 : len (txt "02") = 2) by reflexivity.
    unfold kretz_adapter._parse_5002_line.
    change (txt "C" ++ r) with ("C"%char :: r).
    rewrite strip_C_digits by exact Hall. unfold kretz_adapter._5002_RX_match.
    rewrite (bool_decide_eq_false_2 (last r = _)) by now apply last_decimal_not_newline.
    rewrite Hall, Hlen. cbn [Ascii.eqb Bool.eqb Z.eqb orb andb].
    assert (F2 : slice 2 4 r = entity) by (unfold r; campo [ideq] entity (txt "02" ++ ent2 ++ c2 ++ l3)).
    assert (F3 : slice 4 6 r = txt "02") by (unfold r; campo [ideq; entity] (txt "02") (ent2 ++ c2 ++ l3)).
    assert (F4 : slice 6 8 r = ent2) by (unfold r; campo [ideq; entity; txt "02"] ent2 (c2 ++ l3)).
    assert (F5 : slice 8 10 r = c2) by (unfold r; campo [ideq; entity; txt "02"; ent2] c2 l3).
    assert (F6 : slice 10 13 r = l3).
    { unfold r. replace (ideq ++ entity ++ txt "02" ++ ent2 ++ c2 ++ l3)
        with (ideq ++ entity ++ txt "02" ++ ent2 ++ c2 ++ l3 ++ []) by now rewrite app_nil_r.
      campo [ideq; entity; txt "02"; ent2; c2] l3 (@nil ascii). }
    rewrite F2, F3, F4, F5, F6.
    change ((13 =? 13)%positive || (13 =? 15)%positive) with true. cbv beta iota delta [andb].
    rewrite (bool_decide_eq_false_2 (txt "02" <> txt "02")) by tauto.
    destruct (py_int_decimal_bound entity 2 L2 ltac:(unfold int_max_str_digits; lia) D2)
      as (e1 & -> & _).
    destruct (py_int_decimal_bound ent2 2 L3 ltac:(unfold int_max_str_digits; lia) D3)
      as (e2 & -> & _).
    unfold c2, l3.
    rewrite (py_int_rjust campo 2 2)
      by (try change (10 ^ 2) with 100; unfold int_max_str_digits; lia).
    rewrite (py_int_rjust largo 3 3)
      by (try change (10 ^ 3) with 1000; unfold int_max_str_digits; lia).
    destruct (Z.ltb_spec 0 largo); [reflexivity|lia].
Qed.

Lemma X16_parse_5002_lines_witness :
  kretz_adapter._parse_5002_lines
    ([txt "C0105020509003"] ++
     [txt "C" ++ txt "01" ++ txt "05" ++ txt "02" ++ txt "05" ++
      rjust 2 "0" (str_of_Z 9) ++ rjust 3 "0" (str_of_Z 6)]) 5
  = <[9 := 6]> (kretz_adapter._parse_5002_lines [txt "C0105020509003"] 5).
Proof.
  destruct (X16_parse_5002_lines [txt "C0105020509003"] 5) as [_ H].
  apply H; try reflexivity; lia.
Defined.


(** ** GUI/jdg_driver.py — INFO.JDG written and read back *)

Section info_jdg.

Import jdg_driver.

Lemma limpia_cons (c : ascii) (l : str) :
  spec.linea_limpia (c :: l) -> is_linebreak c = false /\ spec.linea_limpia l.
Proof.
  unfold spec.linea_limpia. cbn [forallb]. intros [H1 H2]%andb_true_iff.
  now apply negb_true_iff in H1.
Qed.

Lemma not_linebreak_cr (c : ascii) :
  is_linebreak c = false -> (ord c =? 13) = false /\ (ord c =? 10) = false.
Proof.
  unfold is_linebreak. cbv zeta. intros H.
  destruct (Z.eqb_spec (ord c) 13) as [E|_]; [rewrite E in H; discriminate|].
  destruct (Z.eqb_spec (ord c) 10) as [E|_]; [rewrite E in H; discriminate|]. now split.
Qed.

Lemma endswith_crlf_limpia (l : str) : spec.linea_limpia l -> endswith_crlf l = false.
Proof.
  intros Hl. unfold endswith_crlf. apply andb_false_iff. left.
  apply bool_decide_eq_false. intros E.
  assert (Hin : ascii_of_N 13 ∈ l).
  { assert (H : ascii_of_N 13 ∈ slice_from (-2) l) by (rewrite E; left).
    unfold slice_from in H. change (-2 <? 0) with true in H. cbv iota in H.
    now apply (subseteq_drop _ _ _ H). }
  unfold spec.linea_limpia in Hl. rewrite forallb_forall in Hl.
  specialize (Hl _ (proj1 (list_elem_of_In _ _) Hin)). discriminate Hl.
Qed.

Lemma universal_newlines_linea (l rest : str) :
  spec.linea_limpia l ->
  universal_newlines (l ++ ascii_of_N 13 :: ascii_of_N 10 :: rest) =
    l ++ ascii_of_N 10 :: universal_newlines rest.
Proof.
  induction l as [|c l IH]; intros Hl; [reflexivity|].
  apply limpia_cons in Hl as [Hc Hl]. apply not_linebreak_cr in Hc as [Hc _].
  cbn [app universal_newlines]. rewrite Hc. now rewrite IH.
Qed.

Lemma splitlines_aux_linea (cur l rest : str) :
  spec.linea_limpia l ->
  splitlines_aux cur (l ++ ascii_of_N 10 :: rest) = (cur ++ l) :: splitlines_aux [] rest.
Proof.
  revert cur. induction l as [|c l IH]; intros cur Hl.
  - cbn. now rewrite app_nil_r.
  - apply limpia_cons in Hl as [Hc Hl]. pose proof (not_linebreak_cr c Hc) as [H13 _].
    cbn [app splitlines_aux]. rewrite H13, Hc, IH by exact Hl. now rewrite <- app_assoc.
Qed.

Lemma rstrip_crlf_limpia (l : str) : spec.linea_limpia l -> rstrip_crlf l = l.
Proof.
  intros Hl. unfold rstrip_crlf.
  assert (H : lstrip_crlf (rev l) = rev l).
  { destruct (rev l) as [|c t] eqn:E; [reflexivity|].
    assert (Hc : is_linebreak c = false).
    { unfold spec.linea_limpia in Hl. rewrite forallb_forall in Hl.
      apply negb_true_iff, Hl. apply in_rev. rewrite E. now left. }
    apply not_linebreak_cr in Hc as [H13 H10]. cbn [lstrip_crlf]. now rewrite H13, H10. }
  rewrite H. apply rev_involutive.
Qed.

End info_jdg.

(** X17. What [send_info_lines] writes, [read_info_lines] reads back.
    For lines that hold no line-break character, whatever INFO.JDG held
    before and whatever the clock reads, reading the file after the
    write returns exactly the lines sent, in order: each line was
    written once, ended by one CR LF. *)
Theorem X17_info_lines_round_trip
    (info : option jdg_driver.file) (lines : list str) (now : Z) :
  Forall spec.linea_limpia lines ->
  jdg_driver.data (jdg_driver.send_info_lines info lines now) =
    concat (map (fun l => l ++ [ascii_of_N 13; ascii_of_N 10]) lines) /\
  jdg_driver.read_info_lines (Some (jdg_driver.send_info_lines info lines now)) = lines.
Proof.
  intros Hl.
  assert (Hdata : jdg_driver.data (jdg_driver.send_info_lines info lines now) =
                  concat (map (fun l => l ++ [ascii_of_N 13; ascii_of_N 10]) lines)).
  { unfold jdg_driver.send_info_lines. cbn [jdg_driver.data]. f_equal.
    apply map_ext_Forall. eapply Forall_impl; [exact Hl|]. intros l H. cbv beta.
    now rewrite endswith_crlf_limpia. }
  split; [exact Hdata|].
  unfold jdg_driver.read_info_lines, jdg_driver.read_info_text. rewrite Hdata.
  assert (Hun : jdg_driver.universal_newlines
                  (concat (map (fun l => l ++ [ascii_of_N 13; ascii_of_N 10]) lines)) =
                concat (map (fun l => l ++ [ascii_of_N 10]) lines)).
  { clear Hdata. induction Hl as [|l ls H _ IH]; [reflexivity|]. cbn [map concat].
    rewrite <- !app_assoc. cbn [app]. rewrite universal_newlines_linea by exact H.
    now rewrite IH. }
  rewrite Hun.
  assert (Hsp : jdg_driver.splitlines (concat (map (fun l => l ++ [ascii_of_N 10]) lines)) = lines).
  { unfold jdg_driver.splitlines. clear Hdata Hun.
    induction Hl as [|l ls H _ IH]; [reflexivity|].
    cbn [map concat]. rewrite <- !app_assoc. cbn [app].
    rewrite splitlines_aux_linea by exact H. cbn [app]. now rewrite IH. }
  rewrite Hsp.
  assert (Hmap : map jdg_driver.rstrip_crlf lines = lines).
  { clear Hdata Hun Hsp. induction Hl as [|l ls H _ IH]; [reflexivity|]. cbn [map].
    rewrite rstrip_crlf_limpia by exact H. now rewrite IH. }
  destruct lines as [|l ls]; [reflexivity|].
  rewrite bool_decide_eq_false_2; [exact Hmap|].
  cbn [map concat]. intros E. apply app_eq_nil in E as [E _]. apply app_eq_nil in E as [_ E].
  discriminate E.
Qed.

Lemma X17_info_lines_round_trip_witness :
  jdg_driver.read_info_lines
    (Some (jdg_driver.send_info_lines None [txt "C01101002"; txt "C0120260213"]
             1700000000950000000))
  = [txt "C01101002"; txt "C0120260213"].
Proof.
  apply (X17_info_lines_round_trip None [txt "C01101002"; txt "C0120260213"] 1700000000950000000).
  repeat constructor.
Defined.


(** ** db/dao_repo_sybase.py — the lists of the facade *)

Section fachada.

Import sybase dao_bala_dptos dao_repo_sybase.

#[local] Instance str_le_total : Total str_le.
Proof.
  intros a b. unfold str_le. destruct (str_leb a b) eqn:E; [now left|right].
  now apply str_leb_total.
Qed.

#[local] Instance str_le_trans : Transitive str_le.
Proof. intros a b c. unfold str_le. apply str_leb_trans. Qed.

#[local] Instance por_id_total : Total por_id.
Proof. intros a b. unfold por_id. lia. Qed.

#[local] Instance por_id_trans : Transitive por_id.
Proof. intros a b c. unfold por_id. lia. Qed.

(** The department codes the refreshed list gives equipment [eid]. *)
Lemma refresh_deptos (d : database) (eid : Z) (c : str) :
  c ∈ merge_sort str_le
        (omap (fun rr : Z * str => if bool_decide (rr.1 = eid) then Some rr.2 else None)
              (listar_todo d))
  <-> (eid, c) ∈ BALA_DPTOS d.
Proof.
  rewrite merge_sort_Permutation, list_elem_of_omap. unfold listar_todo. split.
  - intros ([e' c'] & Hin & H). apply elem_of_elements in Hin. cbn [fst snd] in H.
    destruct (bool_decide_reflect (e' = eid)) as [->|]; [|discriminate].
    now injection H as ->.
  - intros H. exists (eid, c). split; [now apply elem_of_elements|].
    cbn [fst snd]. now rewrite bool_decide_eq_true_2.
Qed.

Lemma select_bala_equipos_elem (d : database) (p : Z * equipo_row) :
  p ∈ select_bala_equipos d -> BALA_EQUIPOS d !! p.1 = Some p.2.
Proof.
  unfold select_bala_equipos. intros H. apply subseteq_take in H.
  rewrite merge_sort_Permutation in H. destruct p as [k v].
  now apply elem_of_map_to_list in H.
Qed.

Lemma select_bala_equipos_all (d : database) (eid : Z) (row : equipo_row) :
  (size (BALA_EQUIPOS d) <= 500)%nat -> BALA_EQUIPOS d !! eid = Some row ->
  (eid, row) ∈ select_bala_equipos d.
Proof.
  intros Hs H. unfold select_bala_equipos. rewrite take_ge.
  - rewrite merge_sort_Permutation. now apply elem_of_map_to_list.
  - rewrite merge_sort_Permutation, length_map_to_list. lia.
Qed.

Lemma refresh_equipo_spec (d : database) (e : equipo) :
  e ∈ equipos (_refresh d) ->
  exists row,
    BALA_EQUIPOS d !! id e = Some row /\
    nombre e = e_nombre row /\ ip e = e_ip row /\ autoreport e = e_autoreport row /\
    (forall c, c ∈ deptos e <-> (id e, c) ∈ BALA_DPTOS d) /\
    StronglySorted str_le (deptos e).
Proof.
  unfold _refresh. cbn [equipos]. intros (p & -> & Hp)%list_elem_of_fmap.
  cbn [id nombre ip autoreport deptos]. exists p.2.
  split; [now apply select_bala_equipos_elem|]. do 3 (split; [reflexivity|]).
  split; [intros c; apply refresh_deptos|]. apply StronglySorted_merge_sort; apply _.
Qed.

Lemma refresh_equipo_all (d : database) (eid : Z) :
  (size (BALA_EQUIPOS d) <= 500)%nat -> eid ∈ dom (BALA_EQUIPOS d) ->
  exists e, e ∈ equipos (_refresh d) /\ id e = eid.
Proof.
  intros Hs [row Hrow]%elem_of_dom.
  pose proof (select_bala_equipos_all d eid row Hs Hrow) as Hin.
  unfold _refresh. cbn [equipos]. eexists. split.
  - apply list_elem_of_fmap. exists (eid, row). split; [reflexivity|exact Hin].
  - reflexivity.
Qed.

Lemma refresh_equipos_sorted (d : database) :
  StronglySorted spec.por_id_equipo (equipos (_refresh d)).
Proof.
  unfold _refresh. cbn [equipos].
  apply (StronglySorted_fmap _ por_id spec.por_id_equipo).
  - intros a b Hab. exact Hab.
  - unfold select_bala_equipos.
    pose proof (StronglySorted_merge_sort por_id (map_to_list (BALA_EQUIPOS d))) as H.
    rewrite <- (take_drop 500 (merge_sort por_id (map_to_list (BALA_EQUIPOS d)))) in H.
    now apply StronglySorted_app_1_l in H.
Qed.

End fachada.

(** X18. What [_refresh] lists. Every entry of the refreshed equipment
    list is a row of BALA_EQUIPOS with that id, name, address and
    autoreport flag; its [deptos] are exactly the department codes
    related to it in BALA_DPTOS, sorted; the list is sorted by id; and
    when the table has at most 500 rows (the TOP of the query), every
    equipment of the table is listed. *)
Theorem X18_refresh_lists (d : sybase.database) :
  (forall e, e ∈ dao_repo_sybase.equipos (dao_repo_sybase._refresh d) ->
     exists row,
       sybase.BALA_EQUIPOS d !! dao_repo_sybase.id e = Some row /\
       dao_repo_sybase.nombre e = sybase.e_nombre row /\
       dao_repo_sybase.ip e = sybase.e_ip row /\
       dao_repo_sybase.autoreport e = sybase.e_autoreport row /\
       (forall c, c ∈ dao_repo_sybase.deptos e <->
                  (dao_repo_sybase.id e, c) ∈ sybase.BALA_DPTOS d) /\
       StronglySorted sybase.str_le (dao_repo_sybase.deptos e)) /\
  StronglySorted spec.por_id_equipo (dao_repo_sybase.equipos (dao_repo_sybase._refresh d)) /\
  ((size (sybase.BALA_EQUIPOS d) <= 500)%nat ->
   forall eid, eid ∈ dom (sybase.BALA_EQUIPOS d) ->
     exists e, e ∈ dao_repo_sybase.equipos (dao_repo_sybase._refresh d) /\
               dao_repo_sybase.id e = eid).
Proof.
  split; [|split].
  - intros e He. now apply refresh_equipo_spec.
  - apply refresh_equipos_sorted.
  - intros Hs eid He. now apply refresh_equipo_all.
Qed.

(** X19. [delete_equipo] deletes the equipment shown at the index. An
    index outside the table listing raises IndexError and changes
    nothing. On a repository just refreshed from the database, an index
    that holds an entry of the equipment list deletes the row with that
    entry's id together with its relation rows, then refreshes: no
    entry of the new list has that id, and every entry of the new list
    was in the old list with the same id, name and departments. *)
Theorem X19_delete_equipo (r : dao_repo_sybase.RepoSybase) (idx : Z) :
  (idx < 0 \/ len (sybase.select_bala_equipos (dao_repo_sybase.db r)) <= idx ->
     dao_repo_sybase.delete_equipo r idx = (r, Raise IndexError)) /\
  (forall d e,
     r = dao_repo_sybase._refresh d -> 0 <= idx ->
     dao_repo_sybase.equipos r !! Z.to_nat idx = Some e ->
     let d' := sybase.delete_bala_equipos d (dao_repo_sybase.id e) in
     dao_repo_sybase.delete_equipo r idx = (dao_repo_sybase._refresh d', Ok tt) /\
     (forall c, (dao_repo_sybase.id e, c) ∉ sybase.BALA_DPTOS d') /\
     (forall e', e' ∈ dao_repo_sybase.equipos (dao_repo_sybase._refresh d') ->
        dao_repo_sybase.id e' <> dao_repo_sybase.id e /\
        sybase.BALA_EQUIPOS d !! dao_repo_sybase.id e' =
          sybase.BALA_EQUIPOS d' !! dao_repo_sybase.id e' /\
        forall c, c ∈ dao_repo_sybase.deptos e' <->
                  (dao_repo_sybase.id e', c) ∈ sybase.BALA_DPTOS d)).
Proof.
  split.
  - intros H. unfold dao_repo_sybase.delete_equipo. cbv zeta.
    destruct (Z.leb_spec 0 idx); [|reflexivity].
    destruct (Z.ltb_spec idx (len (sybase.select_bala_equipos (dao_repo_sybase.db r))));
      [lia|reflexivity].
  - intros d e -> Hidx He d'.
    unfold dao_repo_sybase._refresh in He. cbn [dao_repo_sybase.equipos] in He.
    rewrite list_lookup_fmap in He.
    destruct (sybase.select_bala_equipos d !! Z.to_nat idx) as [row|] eqn:Erow; [|discriminate].
    cbn in He. injection He as <-. cbn [dao_repo_sybase.id] in *.
    split; [|split].
    + unfold dao_repo_sybase.delete_equipo. cbv zeta.
      change (dao_repo_sybase.db (dao_repo_sybase._refresh d)) with d.
      pose proof (lookup_lt_Some _ _ _ Erow) as Hlt.
      destruct (Z.leb_spec 0 idx); [|lia].
      destruct (Z.ltb_spec idx (len (sybase.select_bala_equipos d))); [|unfold len in *; lia].
      cbn [andb]. now rewrite Erow.
    + intros c Hc. unfold d', sybase.delete_bala_equipos in Hc. cbn [sybase.BALA_DPTOS] in Hc.
      apply elem_of_filter in Hc as [Hc _]. now apply Hc.
    + intros e' He'. destruct (refresh_equipo_spec d' e' He') as (row' & Hrow' & _ & _ & _ & Hd & _).
      unfold d', sybase.delete_bala_equipos in Hrow'. cbn [sybase.BALA_EQUIPOS] in Hrow'.
      assert (Hne : dao_repo_sybase.id e' <> row.1).
      { intros E. rewrite E, lookup_delete_eq in Hrow'. discriminate. }
      split; [exact Hne|]. split.
      * unfold d', sybase.delete_bala_equipos. cbn [sybase.BALA_EQUIPOS].
        now rewrite lookup_delete_ne by congruence.
      * intros c. rewrite Hd. unfold d', sybase.delete_bala_equipos. cbn [sybase.BALA_DPTOS].
        rewrite elem_of_filter. cbn [fst]. tauto.
Qed.

Lemma X19_delete_equipo_witness :
  dao_repo_sybase.delete_equipo spec.sybase_demo 7 = (spec.sybase_demo, Raise IndexError).
Proof.
  destruct (X19_delete_equipo spec.sybase_demo 7) as [H _]. apply H.
  right. vm_compute. discriminate.
Defined.

(** X20. On a repository just refreshed, the deletion guard of the
    facade sees the whole relation table. With at most 500 equipment
    rows, each relation row referring to an equipment of the table:
    [delete_depto] raises the in-use error, changing nothing, exactly
    when some relation row holds the code; otherwise it returns
    normally and the department is gone from GRP_VENT, with the two
    other tables as they were. *)
Theorem X20_delete_depto_fresh (d : sybase.database) (codigo : str) :
  spec.relaciones_con_equipo d ->
  (size (sybase.BALA_EQUIPOS d) <= 500)%nat ->
  ((exists eid, (eid, codigo) ∈ sybase.BALA_DPTOS d) ->
     dao_repo_sybase.delete_depto (dao_repo_sybase._refresh d) codigo =
       (dao_repo_sybase._refresh d, Raise (ValueError dao_repo_sybase.en_uso))) /\
  ((forall eid, (eid, codigo) ∉ sybase.BALA_DPTOS d) ->
     exists d',
       dao_repo_sybase.delete_depto (dao_repo_sybase._refresh d) codigo =
         (dao_repo_sybase._refresh d', Ok tt) /\
       sybase.GRP_VENT d' = delete codigo (sybase.GRP_VENT d) /\
       sybase.BALA_EQUIPOS d' = sybase.BALA_EQUIPOS d /\
       sybase.BALA_DPTOS d' = sybase.BALA_DPTOS d).
Proof.
  intros Hfk Hs.
  destruct (repo_sybase_delete_depto (dao_repo_sybase._refresh d) codigo) as [Hyes Hno].
  split.
  - intros (eid & Hrel). apply Hyes.
    destruct (refresh_equipo_all d eid Hs (Hfk eid codigo Hrel)) as (e & He & <-).
    exists e. split; [exact He|].
    destruct (refresh_equipo_spec d e He) as (_ & _ & _ & _ & _ & Hd & _). now apply Hd.
  - intros Hnone. rewrite Hno.
    + change (dao_repo_sybase.db (dao_repo_sybase._refresh d)) with d.
      eexists. split; [reflexivity|]. unfold sybase.delete_grp_vent.
      rewrite bool_decide_eq_false_2; [now cbn|].
      intros ([eid c] & Hin & Hc). cbn [snd] in Hc. subst c. now apply (Hnone eid).
    + intros e He Hc.
      destruct (refresh_equipo_spec d e He) as (_ & _ & _ & _ & _ & Hd & _).
      apply Hd in Hc. now apply (Hnone _ Hc).
Qed.

Lemma X20_delete_depto_fresh_witness :
  dao_repo_sybase.delete_depto (dao_repo_sybase._refresh spec.db_demo) (txt "010") =
    (dao_repo_sybase._refresh spec.db_demo, Raise (ValueError dao_repo_sybase.en_uso)).
Proof.
  destruct (X20_delete_depto_fresh spec.db_demo (txt "010")) as [H _].
  - intros eid c Hin. unfold spec.db_demo in *. cbn [sybase.BALA_DPTOS sybase.BALA_EQUIPOS] in *.
    apply elem_of_singleton in Hin. injection Hin as -> _.
    apply elem_of_dom. eexists. apply lookup_singleton_eq.
  - vm_compute. lia.
  - apply H. exists 1. unfold spec.db_demo. cbn [sybase.BALA_DPTOS]. now apply elem_of_singleton.
Defined.


(** ** db/dao_bala_dptos.py, db/dao_repo_sybase.py — replacing relations *)

Section relaciones.

Import sybase dao_bala_dptos dao_repo_sybase.

Lemma insert_all_next_id (eid : Z) (l : list str) (d : database) :
  next_id (foldl (fun db c => insert_bala_dptos db eid c) d l) = next_id d.
Proof.
  revert d. induction l as [|c l IH]; intros d; cbn [foldl]; [reflexivity|].
  rewrite IH. unfold insert_bala_dptos. now destruct (bool_decide _).
Qed.

Lemma reemplazar_relaciones_next_id (d : database) (eid : Z) (codigos : list str) :
  next_id (reemplazar_relaciones d eid codigos).1 = next_id d.
Proof. unfold reemplazar_relaciones. cbn [fst]. now rewrite insert_all_next_id. Qed.

Lemma database_eq (d1 d2 : database) :
  GRP_VENT d1 = GRP_VENT d2 -> BALA_EQUIPOS d1 = BALA_EQUIPOS d2 ->
  BALA_DPTOS d1 = BALA_DPTOS d2 -> next_id d1 = next_id d2 -> d1 = d2.
Proof. destruct d1, d2. cbn. congruence. Qed.

Lemma nombre_en_uso_row (d : database) (eid : Z) (row : equipo_row) :
  BALA_EQUIPOS d !! eid = Some row -> nombre_en_uso d None (e_nombre row) = true.
Proof.
  intros H. unfold nombre_en_uso. apply existsb_exists. exists (eid, row). split.
  - apply list_elem_of_In, elem_of_map_to_list, H.
  - cbn [fst snd]. rewrite bool_decide_eq_true_2 by reflexivity.
    rewrite bool_decide_eq_false_2 by discriminate. reflexivity.
Qed.

Lemma select_id_elem (d : database) (n i : str) (eid : Z) :
  eid ∈ select_id_por_nombre_ip d n i <->
  exists row, BALA_EQUIPOS d !! eid = Some row /\ e_nombre row = n /\ e_ip row = i.
Proof.
  unfold select_id_por_nombre_ip. rewrite merge_sort_Permutation, list_elem_of_omap. split.
  - intros ([k v] & Hkv & Hs). cbn [fst snd] in Hs.
    destruct (bool_decide _) eqn:E; [|discriminate]. injection Hs as <-.
    apply bool_decide_eq_true in E. apply elem_of_map_to_list in Hkv. eauto.
  - intros (row & Hrow & Hn & Hi). exists (eid, row). split.
    + now apply elem_of_map_to_list.
    + cbn [fst snd]. now rewrite bool_decide_eq_true_2.
Qed.

End relaciones.

(** X21. [reemplazar_relaciones] overwrites: for an existing equipment,
    replacing its relations by one list of codes and then by a second
    one leaves the database, and returns the invalid codes, exactly as
    replacing them by the second list alone does. In particular the
    operation is idempotent. *)
Theorem X21_reemplazar_overwrites (d : sybase.database) (equipo_id : Z) (cs1 cs2 : list str) :
  equipo_id ∈ dom (sybase.BALA_EQUIPOS d) ->
  dao_bala_dptos.reemplazar_relaciones
    (dao_bala_dptos.reemplazar_relaciones d equipo_id cs1).1 equipo_id cs2
  = dao_bala_dptos.reemplazar_relaciones d equipo_id cs2.
Proof.
  intros He.
  destruct (reemplazar_relaciones_spec d equipo_id cs1 He) as (Hp1 & _ & Hg1 & Hq1).
  destruct (reemplazar_relaciones_spec d equipo_id cs2 He) as (Hp2 & Hi2 & Hg2 & Hq2).
  pose proof (reemplazar_relaciones_next_id d equipo_id cs1) as Hn1.
  pose proof (reemplazar_relaciones_next_id d equipo_id cs2) as Hn2.
  set (d1 := (dao_bala_dptos.reemplazar_relaciones d equipo_id cs1).1) in *.
  assert (He1 : equipo_id ∈ dom (sybase.BALA_EQUIPOS d1)) by now rewrite Hq1.
  destruct (reemplazar_relaciones_spec d1 equipo_id cs2 He1) as (Hp & Hi & Hg & Hq).
  pose proof (reemplazar_relaciones_next_id d1 equipo_id cs2) as Hn.
  cbv zeta in *.
  destruct (dao_bala_dptos.reemplazar_relaciones d1 equipo_id cs2) as [da ia].
  destruct (dao_bala_dptos.reemplazar_relaciones d equipo_id cs2) as [db ib].
  cbn [fst snd] in *. f_equal.
  - apply database_eq; [congruence | congruence | | congruence].
    apply set_eq. intros [e c]. rewrite Hp, Hp2, Hp1, Hg1. tauto.
  - rewrite Hi, Hi2, Hg1. reflexivity.
Qed.

Lemma X21_reemplazar_overwrites_witness :
  dao_bala_dptos.reemplazar_relaciones
    (dao_bala_dptos.reemplazar_relaciones spec.db_demo 1 [txt "010"; txt "777"]).1 1 [txt "005"]
  = dao_bala_dptos.reemplazar_relaciones spec.db_demo 1 [txt "005"].
Proof.
  apply (X21_reemplazar_overwrites spec.db_demo 1 [txt "010"; txt "777"] [txt "005"]).
  apply elem_of_dom. eexists. unfold spec.db_demo. cbn [sybase.BALA_EQUIPOS].
  apply lookup_singleton_eq.
Defined.

(** X22. [add_equipo] with the name and address of an equipment that
    is already in the table (names being unique there) adds no row: the
    rejected INSERT goes unnoticed, the existing equipment is found by
    name and address, and its relations are replaced by the valid codes
    of the new list; the relations of every other equipment stay. *)
Theorem X22_add_equipo_existing (r : dao_repo_sybase.RepoSybase) (eid : Z)
    (row : sybase.equipo_row) (puerto : Z) (depto_codigos : list str) (autoreport : bool) :
  sybase.BALA_EQUIPOS (dao_repo_sybase.db r) !! eid = Some row ->
  (forall i ri, sybase.BALA_EQUIPOS (dao_repo_sybase.db r) !! i = Some ri ->
                sybase.e_nombre ri = sybase.e_nombre row -> i = eid) ->
  let d := dao_repo_sybase.db r in
  let d' := dao_repo_sybase.db
              (dao_repo_sybase.add_equipo r (sybase.e_nombre row) (sybase.e_ip row)
                 puerto depto_codigos autoreport).1 in
  sybase.BALA_EQUIPOS d' = sybase.BALA_EQUIPOS d /\
  sybase.GRP_VENT d' = sybase.GRP_VENT d /\
  (forall c, (eid, c) ∈ sybase.BALA_DPTOS d' <->
             c ∈ depto_codigos /\ c ∈ dom (sybase.GRP_VENT d)) /\
  (forall e c, e <> eid -> (e, c) ∈ sybase.BALA_DPTOS d' <-> (e, c) ∈ sybase.BALA_DPTOS d).
Proof.
  intros Hrow Huniq d d'. subst d'. unfold dao_repo_sybase.add_equipo.
  unfold sybase.insert_bala_equipos. cbn [sybase.e_nombre].
  rewrite (nombre_en_uso_row _ _ _ Hrow). fold d.
  assert (Hin : eid ∈ sybase.select_id_por_nombre_ip d (sybase.e_nombre row) (sybase.e_ip row)).
  { apply select_id_elem. eauto. }
  destruct (sybase.select_id_por_nombre_ip d (sybase.e_nombre row) (sybase.e_ip row))
    as [|e rest] eqn:Hsel; [inversion Hin|].
  assert (He : e = eid).
  { assert (Hm : e ∈ sybase.select_id_por_nombre_ip d (sybase.e_nombre row) (sybase.e_ip row))
      by (rewrite Hsel; left).
    apply select_id_elem in Hm as (ri & Hri & Hn & _). exact (Huniq e ri Hri Hn). }
  subst e.
  destruct (reemplazar_relaciones_spec d eid depto_codigos) as (Hp & _ & Hg & Hq).
  { apply elem_of_dom. eauto. }
  cbv zeta in *.
  destruct (dao_bala_dptos.reemplazar_relaciones d eid depto_codigos) as [d3 inv].
  cbn [fst snd] in *.
  assert (Hdb : dao_repo_sybase.db
                  (match inv with
                   | [] => (dao_repo_sybase._refresh d3, Ok tt)
                   | _ :: _ => (dao_repo_sybase.stale r d3,
                                Raise (ValueError (dao_repo_sybase.departamentos_inexistentes inv)))
                   end).1 = d3) by (destruct inv; reflexivity).
  rewrite Hdb. split; [exact Hq|]. split; [exact Hg|]. split.
  - intros c. rewrite Hp. split; [|tauto]. intros [[_ H]|H]; [congruence|tauto].
  - intros e c Hne. rewrite Hp. tauto.
Qed.

Lemma X22_add_equipo_existing_witness :
  sybase.BALA_EQUIPOS
    (dao_repo_sybase.db
       (dao_repo_sybase.add_equipo (dao_repo_sybase._refresh spec.db_demo)
          (txt "EQ1") (txt "10.0.0.5") 1001 [txt "005"] false).1)
  = sybase.BALA_EQUIPOS spec.db_demo /\
  (1, txt "005") ∈
    sybase.BALA_DPTOS
      (dao_repo_sybase.db
         (dao_repo_sybase.add_equipo (dao_repo_sybase._refresh spec.db_demo)
            (txt "EQ1") (txt "10.0.0.5") 1001 [txt "005"] false).1).
Proof.
  destruct (X22_add_equipo_existing (dao_repo_sybase._refresh spec.db_demo) 1
              {| sybase.e_nombre := txt "EQ1"; sybase.e_ip := txt "10.0.0.5";
                 sybase.e_puerto := 1001; sybase.e_autoreport := false |}
              1001 [txt "005"] false) as (Hq & _ & Hp & _).
  - cbn [dao_repo_sybase.db dao_repo_sybase._refresh]. unfold spec.db_demo.
    cbn [sybase.BALA_EQUIPOS]. apply lookup_singleton_eq.
  - cbn [dao_repo_sybase.db dao_repo_sybase._refresh]. unfold spec.db_demo.
    cbn [sybase.BALA_EQUIPOS]. intros i ri Hi _.
    apply lookup_singleton_Some in Hi. symmetry. apply Hi.
  - cbn [sybase.e_nombre sybase.e_ip] in *. split; [exact Hq|]. apply Hp. split.
    + left.
    + cbn [dao_repo_sybase.db dao_repo_sybase._refresh]. unfold spec.db_demo.
      cbn [sybase.GRP_VENT]. apply elem_of_dom. eexists.
      apply lookup_insert_eq.
Defined.

Section alta_equipo.

Import sybase dao_bala_dptos dao_repo_sybase.





End alta_equipo.



Section cambio_equipo.

Import sybase dao_bala_dptos dao_repo_sybase.


End cambio_equipo.

